(** * awx/main/models/notifications.py: notification templates and job hooks

    A shallow embedding of [NotificationTemplate] (message merge and
    credential handling in [save], [send], [build_notification_message],
    [has_message], [recipients], [generate_notification],
    [display_notification_configuration]) and of [JobNotificationMixin]
    ([context], [build_notification_message], [send_notification_templates]
    and the callbacks it registers), with the properties the specification
    states about them and further properties of the code.

    How the module is modelled:
    - Python values are JSON-shaped trees ([Py.value]; no floats); a dict is
      the list of its items in insertion order, and the operators used on
      values raise what CPython raises on the wrong type.
    - A method returns [Ok] or the exception it raises ([Py.res]).  [save]
      also threads the table of templates, which it returns when it raises
      too; the instance is returned when the method returns.
    - Of a [NotificationTemplate] only the key, the configuration, the
      messages and the temporary attributes of [save] are kept; the backend
      class selected by [notification_type] is the [Backend] in the context.
    - The backends, the field encryption of [awx.main.utils], Jinja2, [json],
      the serializer and the job class are interfaces (type classes);
      Django's [Model.save] and [objects.get] are modelled on a table with a
      journal of the rows written.
    - The callbacks registered with [connection.on_commit] are kept in a list
      of effects; running them works on the table of [Notification] and on
      the queue of [send_notifications.delay]. *)

From stdpp Require Import base strings list option gmap pretty.
From Stdlib Require Import ZArith Lia.

Set Warnings "-register-all,-clear-no-such-hyp".
Local Open Scope Z_scope.
Local Open Scope string_scope.

(** ** Python values, exceptions and the dictionary operations the module uses *)

Module Py.

(** JSON-shaped Python values.  A [dict] keeps its items in insertion order;
    keys are strings, as in a deserialized JSON document. *)
Inductive value : Type :=
  | VNone
  | VBool (b : bool)
  | VInt (z : Z)
  | VStr (s : string)
  | VList (l : list value)
  | VDict (d : list (string * value)).

Abbreviation dict := (list (string * value)).

(** The exception classes that the module raises, catches or lets through. *)
Inductive exn : Type :=
  | TypeError | KeyError | AttributeError | ValueError | RuntimeError
  | NotImplementedError | RecursionError
  | DoesNotExist | DatabaseError
  | TemplateSyntaxError | UndefinedError | SecurityError
  | OtherError (tag : string).

Inductive res (A : Type) : Type :=
  | Ok (a : A)
  | Err (e : exn).
Arguments Ok {A} a.
Arguments Err {A} e.

(** Sequencing: an exception ends the computation. *)
Definition bind {A B} (m : res A) (k : A → res B) : res B :=
  match m with Ok a => k a | Err e => Err e end.

Notation "'let*' x := m 'in' k" := (bind m (λ x, k))
  (at level 10, x name, m at level 100, k at level 200).

#[export] Instance res_fmap : FMap res := λ A B f m,
  match m with Ok a => Ok (f a) | Err e => Err e end.

Definition is_ok {A} (r : res A) : bool :=
  match r with Ok _ => true | Err _ => false end.

(** [for x in l: acc = f(acc, x)], stopping at the first exception. *)
Section foldM.
Context {A B : Type} (f : A → B → res A).

Fixpoint foldM (a : A) (l : list B) : res A :=
  match l with
  | [] => Ok a
  | x :: l' => let* a' := f a x in foldM a' l'
  end.

End foldM.

#[export] Instance exn_eq_dec : EqDecision exn.
Proof. solve_decision. Defined.

(** *** Structural equality on values (Python [==] on this fragment) *)

Fixpoint value_eqb (v w : value) {struct v} : bool :=
  match v, w with
  | VNone, VNone => true
  | VBool a, VBool b => bool_decide (a = b)
  | VInt a, VInt b => bool_decide (a = b)
  | VStr a, VStr b => bool_decide (a = b)
  | VList l, VList m =>
      (fix go (l m : list value) : bool :=
         match l, m with
         | [], [] => true
         | x :: l', y :: m' => value_eqb x y && go l' m'
         | _, _ => false
         end) l m
  | VDict d, VDict e =>
      (fix go (d e : dict) : bool :=
         match d, e with
         | [], [] => true
         | (k, x) :: d', (k', y) :: e' =>
             bool_decide (k = k') && value_eqb x y && go d' e'
         | _, _ => false
         end) d e
  | _, _ => false
  end.

(** *** Truthiness: [bool(v)] *)
Definition truthy (v : value) : bool :=
  match v with
  | VNone => false
  | VBool b => b
  | VInt z => negb (Z.eqb z 0)
  | VStr s => negb (bool_decide (s = ""))
  | VList l => match l with [] => false | _ => true end
  | VDict d => match d with [] => false | _ => true end
  end.

(** *** Strings: [s.startswith(p)] and [p in s] *)
Fixpoint startswith (p s : string) : bool :=
  match p, s with
  | EmptyString, _ => true
  | String a p', String b s' => bool_decide (a = b) && startswith p' s'
  | String _ _, EmptyString => false
  end.

Fixpoint is_substring (p s : string) : bool :=
  startswith p s ||
  match s with
  | EmptyString => false
  | String _ s' => is_substring p s'
  end.

(** *** Dictionary items *)

Fixpoint dict_lookup (k : string) (d : dict) : option value :=
  match d with
  | [] => None
  | (k', v) :: d' => if bool_decide (k = k') then Some v else dict_lookup k d'
  end.

Definition dict_has (k : string) (d : dict) : bool :=
  match dict_lookup k d with Some _ => true | None => false end.

(** [d[k] = v]: overwrite in place, or append a new item. *)
Fixpoint dict_set (k : string) (v : value) (d : dict) : dict :=
  match d with
  | [] => [(k, v)]
  | (k', v') :: d' =>
      if bool_decide (k = k') then (k', v) :: d' else (k', v') :: dict_set k v d'
  end.

(** [d.pop(k)]: the items that remain. *)
Fixpoint dict_remove (k : string) (d : dict) : dict :=
  match d with
  | [] => []
  | (k', v') :: d' =>
      if bool_decide (k = k') then dict_remove k d' else (k', v') :: dict_remove k d'
  end.

(** [d.setdefault(k, v)] (the dictionary afterwards). *)
Definition dict_setdefault (k : string) (v : value) (d : dict) : dict :=
  if dict_has k d then d else dict_set k v d.

(** *** Operators on arbitrary values, with the exceptions of CPython *)

(** [k in v] for a string [k]: key membership on a dict, substring test on a
    str, element test on a list; anything else is not iterable. *)
Definition py_in (k : string) (v : value) : res bool :=
  match v with
  | VDict d => Ok (dict_has k d)
  | VStr s => Ok (is_substring k s)
  | VList l => Ok (existsb (value_eqb (VStr k)) l)
  | VNone | VBool _ | VInt _ => Err TypeError
  end.

(** [v[k]] for a string [k]. *)
Definition py_getitem (v : value) (k : string) : res value :=
  match v with
  | VDict d => match dict_lookup k d with Some x => Ok x | None => Err KeyError end
  | _ => Err TypeError
  end.

(** [v.get(k, dflt)]: only a dict has the method. *)
Definition py_get (v : value) (k : string) (dflt : value) : res value :=
  match v with
  | VDict d => Ok (default dflt (dict_lookup k d))
  | _ => Err AttributeError
  end.

(** [v[k] = x] (the container afterwards). *)
Definition py_setitem (v : value) (k : string) (x : value) : res value :=
  match v with
  | VDict d => Ok (VDict (dict_set k x d))
  | _ => Err TypeError
  end.

(** [v.setdefault(k, x)] (the container afterwards). *)
Definition py_setdefault (v : value) (k : string) (x : value) : res value :=
  match v with
  | VDict d => Ok (VDict (dict_setdefault k x d))
  | _ => Err AttributeError
  end.

(** [v.startswith(p)]: only a str has the method. *)
Definition py_startswith (v : value) (p : string) : res bool :=
  match v with
  | VStr s => Ok (startswith p s)
  | _ => Err AttributeError
  end.

Definition is_list (v : value) : bool :=
  match v with VList _ => true | _ => false end.

Definition is_none (v : value) : bool :=
  match v with VNone => true | _ => false end.

End Py.
Import Py.

(** ** JobNotificationMixin: the whitelist tree and the context projection *)

(** An entry of [JOB_FIELDS_WHITELIST]: a field name, or a one-item dict
    [{field: [sub-whitelist]}]. *)
Inductive wl_entry : Type :=
  | WLeaf (name : string)
  | WSub (name : string) (children : list wl_entry).

Definition wl_name (e : wl_entry) : string :=
  match e with WLeaf n => n | WSub n _ => n end.

Definition JOB_FIELDS_WHITELIST : list wl_entry :=
  [ WLeaf "id"; WLeaf "type"; WLeaf "url"; WLeaf "created"; WLeaf "modified";
    WLeaf "name"; WLeaf "description"; WLeaf "job_type"; WLeaf "playbook";
    WLeaf "forks"; WLeaf "limit"; WLeaf "verbosity"; WLeaf "job_tags";
    WLeaf "force_handlers"; WLeaf "skip_tags"; WLeaf "start_at_task";
    WLeaf "timeout"; WLeaf "use_fact_cache"; WLeaf "launch_type";
    WLeaf "status"; WLeaf "failed"; WLeaf "started"; WLeaf "finished";
    WLeaf "elapsed"; WLeaf "job_explanation"; WLeaf "execution_node";
    WLeaf "controller_node"; WLeaf "allow_simultaneous"; WLeaf "scm_revision";
    WLeaf "diff_mode"; WLeaf "job_slice_number"; WLeaf "job_slice_count";
    WLeaf "custom_virtualenv";
    WSub "host_status_counts"
      [WLeaf "skipped"; WLeaf "ok"; WLeaf "changed"; WLeaf "failures"; WLeaf "dark"];
    WSub "playbook_counts" [WLeaf "play_count"; WLeaf "task_count"];
    WSub "summary_fields"
      [ WSub "inventory"
          [ WLeaf "id"; WLeaf "name"; WLeaf "description";
            WLeaf "has_active_failures"; WLeaf "total_hosts";
            WLeaf "hosts_with_active_failures"; WLeaf "total_groups";
            WLeaf "groups_with_active_failures"; WLeaf "has_inventory_sources";
            WLeaf "total_inventory_sources";
            WLeaf "inventory_sources_with_failures"; WLeaf "organization_id";
            WLeaf "kind" ];
        WSub "project"
          [WLeaf "id"; WLeaf "name"; WLeaf "description"; WLeaf "status"; WLeaf "scm_type"];
        WSub "project_update"
          [WLeaf "id"; WLeaf "name"; WLeaf "description"; WLeaf "status"; WLeaf "failed"];
        WSub "job_template" [WLeaf "id"; WLeaf "name"; WLeaf "description"];
        WSub "unified_job_template"
          [WLeaf "id"; WLeaf "name"; WLeaf "description"; WLeaf "unified_job_type"];
        WSub "instance_group" [WLeaf "name"; WLeaf "id"];
        WSub "created_by"
          [WLeaf "id"; WLeaf "username"; WLeaf "first_name"; WLeaf "last_name"];
        WSub "labels" [WLeaf "count"; WLeaf "results"];
        WSub "source_workflow_job"
          [ WLeaf "description"; WLeaf "elapsed"; WLeaf "failed"; WLeaf "id";
            WLeaf "name"; WLeaf "status" ] ] ].

(** One iteration of the loop of [build_context]: the whitelist entry
    [safe_field] against the source [fields], writing into [node].  For a
    sub-whitelist the source sets [node[field] = {}] and fills that dict by
    the recursive call; here the filled dict is stored when the call is over. *)
Fixpoint build_context_entry (safe_field : wl_entry) (node : dict) (fields : value)
    {struct safe_field} : res dict :=
  match safe_field with
  | WSub field whitelist_subnode =>
      let* present := py_in field fields in
      if negb present then Ok node
      else
        let* subnode := py_getitem fields field in
        let* sub := foldM (λ n e, build_context_entry e n subnode) []
                          whitelist_subnode in
        Ok (dict_set field (VDict sub) node)
  | WLeaf name =>
      let* present := py_in name fields in
      if negb present then Ok node
      else
        let* v := py_getitem fields name in
        Ok (dict_set name v node)
  end.

(** [build_context(node, fields, whitelisted_fields)]: the content of [node]
    when the walk is over. *)
Definition build_context (node : dict) (fields : value)
    (whitelisted_fields : list wl_entry) : res dict :=
  foldM (λ n e, build_context_entry e n fields) node whitelisted_fields.

(** A field name occurs as a key somewhere inside a value. *)
Fixpoint has_key_deep (f : string) (v : value) {struct v} : bool :=
  match v with
  | VList l => existsb (has_key_deep f) l
  | VDict d => existsb (λ '(k, x), bool_decide (k = f) || has_key_deep f x) d
  | _ => false
  end.

(** A field name is named somewhere in a whitelist tree. *)
Fixpoint wl_entry_names (f : string) (e : wl_entry) {struct e} : bool :=
  match e with
  | WLeaf n => bool_decide (n = f)
  | WSub n sub => bool_decide (n = f) || existsb (wl_entry_names f) sub
  end.

Definition in_whitelist (f : string) (wl : list wl_entry) : bool :=
  existsb (wl_entry_names f) wl.

(** ** The collaborators of the module

    The delivery backends ([awx.main.notifications.*]), the field encryption
    helpers ([awx.main.utils]), Jinja2, [json] and the serializer are not
    part of this module: they are interfaces here. *)

(** One entry of a backend's [init_parameters]: [{"type": ..., "default": ...}],
    where ["default"] may be missing. *)
Record param_spec : Type := ParamSpec {
  ptype : string;
  pdefault : option value;
}.

(** [django.core.mail.message.EmailMessage(subject, body, from_email, to)] *)
Record EmailMessage : Type := mkEmailMessage {
  em_subject : value;
  em_body : value;
  em_from_email : value;
  em_to : value;
}.

(** A delivery backend class, [self.notification_class]. *)
Class Backend : Type := {
  backend_obj : Type;
  init_parameters : list (string * param_spec);
  (** the keys of a dict are distinct *)
  init_parameters_keys : NoDup init_parameters.*1;
  recipient_parameter : string;
  sender_parameter : option string;
  (** [notification_class(kwargs...)] *)
  construct : dict → res backend_obj;
  format_body : backend_obj → value → res value;
  send_messages : backend_obj → list EmailMessage → res value;
}.

(** ** NotificationTemplate *)

(** The instance attributes the module reads and writes.  [saved_config]
    holds the temporary attributes [_saved_config_<field>]. *)
Record NotificationTemplate : Type := mkNT {
  pk : option Z;
  notification_configuration : dict;
  messages : value;
  saved_config : dict;
}.

Definition set_pk (x : option Z) (self : NotificationTemplate) :=
  mkNT x (notification_configuration self) (messages self) (saved_config self).
Definition set_configuration (c : dict) (self : NotificationTemplate) :=
  mkNT (pk self) c (messages self) (saved_config self).
Definition set_messages (m : value) (self : NotificationTemplate) :=
  mkNT (pk self) (notification_configuration self) m (saved_config self).
Definition set_saved (a : dict) (self : NotificationTemplate) :=
  mkNT (pk self) (notification_configuration self) (messages self) a.

(** [encrypt_field(instance, field_name, subfield=...)] and
    [decrypt_field(instance, field_name, subfield=...)] of [awx.main.utils]. *)
Class Vault : Type := {
  encrypt_field : NotificationTemplate → string → string → value;
  decrypt_field : NotificationTemplate → string → string → res value;
}.

(** [env.from_string(template).render(context...)] in an
    [ImmutableSandboxedEnvironment]. *)
Class Jinja : Type := {
  render : value → dict → res string;
}.

(** [NotificationTemplate.default_messages()] *)
Definition default_messages : value :=
  VDict [("started", VNone); ("success", VNone); ("error", VNone)].

Definition ENCRYPTED : string := "$encrypted$".
Definition CONFIG : string := "notification_configuration".

(** [self.messages.get(condition, {})] *)
Definition get_message (self : NotificationTemplate) (condition : string) : res value :=
  py_get (messages self) condition (VDict []).

(** [try: ... except (TemplateSyntaxError, UndefinedError, SecurityError): ''] *)
Definition render_or_empty (r : res string) : res string :=
  match r with
  | Err TemplateSyntaxError | Err UndefinedError | Err SecurityError => Ok ""
  | _ => r
  end.

Module NT.
Section build.
Context `{!Jinja}.

(** [NotificationTemplate.build_notification_message(event_type, context)] *)
Definition build_notification_message (self : NotificationTemplate)
    (event_type : string) (context : dict) : res (string * string) :=
  let* templates := get_message self event_type in
  let* msg_template := py_get templates "message" (VDict []) in
  let* notification_subject := render_or_empty (render msg_template context) in
  let* msg_body := py_get templates "body" (VDict []) in
  let* notification_body := render_or_empty (render msg_body context) in
  Ok (notification_subject, notification_body).
End build.
End NT.

(** *** The message merge of [save] (lines 131-142) *)

(** [a and b], where [b] is evaluated only when [a] is true. *)
Definition py_and (a : res bool) (b : res bool) : res bool :=
  match a with
  | Ok true => b
  | Ok false => Ok false
  | Err e => Err e
  end.

(** One turn of [for msg_type in ['message', 'body']]. *)
Definition merge_msg_type (old_event_msgs new_event_msgs : value)
    (msg_type : string) : res value :=
  let* c := py_and (negb <$> py_in msg_type new_event_msgs)
             (truthy <$> py_get old_event_msgs msg_type VNone) in
  if c then
    let* v := py_getitem old_event_msgs msg_type in
    py_setitem new_event_msgs msg_type v
  else Ok new_event_msgs.

(** One turn of [for event in ['started', 'success', 'error']]; the result is
    [new_messages] after the turn. *)
Definition merge_event (old_messages new_messages : value) (event : string)
    : res value :=
  let* c1 := py_and (negb ∘ truthy <$> py_get new_messages event (VDict []))
                    (truthy <$> py_get old_messages event (VDict [])) in
  if c1 then
    let* v := py_getitem old_messages event in
    py_setitem new_messages event v
  else
    let* c2 := py_and (truthy <$> py_get new_messages event (VDict []))
                      (truthy <$> py_get old_messages event (VDict [])) in
    let* new_messages' :=
      (if c2 then
         let* old_event_msgs := py_getitem old_messages event in
         let* new_event_msgs := py_getitem new_messages event in
         let* new_event_msgs' :=
           foldM (merge_msg_type old_event_msgs) new_event_msgs ["message"; "body"] in
         py_setitem new_messages event new_event_msgs'
       else Ok new_messages) in
    py_setdefault new_messages' event VNone.

Definition EVENTS : list string := ["started"; "success"; "error"].

Definition merge_messages (old_messages new_messages : value) : res value :=
  foldM (merge_event old_messages) new_messages EVENTS.

(** *** The table of templates and Django's [Model.save] *)

Record row : Type := mkRow {
  row_configuration : dict;
  row_messages : value;
}.

(** The table, the next automatic key, and the journal of the rows written,
    oldest first. *)
Record store : Type := mkStore {
  rows : gmap Z row;
  next_pk : Z;
  journal : list (Z * row);
}.

Definition row_of (self : NotificationTemplate) : row :=
  mkRow (notification_configuration self) (messages self).

Definition write_row (id : Z) (r : row) (st : store) : store :=
  mkStore (<[id := r]> (rows st)) (next_pk st) (journal st ++ [(id, r)]).

(** [bool(self.pk)] *)
Definition bool_pk (x : option Z) : bool :=
  match x with Some z => negb (Z.eqb z 0) | None => false end.

(** [NotificationTemplate.objects.get(pk=self.id)] *)
Definition objects_get (st : store) (id : option Z) : res row :=
  match id with
  | Some z => match rows st !! z with Some r => Ok r | None => Err DoesNotExist end
  | None => Err DoesNotExist
  end.

(** [super().save(kwargs...)], with [update_fields] the only keyword: an empty
    [update_fields] returns at once; a list of fields forces an UPDATE of
    those columns; otherwise the row is updated, or inserted when there is
    none (under a new key when [pk] is [None]). *)
Definition Model_save (update_fields : option (list string))
    (self : NotificationTemplate) (st : store) : res NotificationTemplate * store :=
  match update_fields with
  | Some [] => (Ok self, st)
  | Some fs =>
      match pk self with
      | None => (Err ValueError, st)
      | Some id =>
          match rows st !! id with
          | None => (Err DatabaseError, st)
          | Some r =>
              let r' :=
                mkRow (if bool_decide (CONFIG ∈ fs)
                       then notification_configuration self
                       else row_configuration r)
                      (if bool_decide ("messages" ∈ fs)
                       then messages self else row_messages r) in
              (Ok self, write_row id r' st)
          end
      end
  | None =>
      match pk self with
      | None =>
          let id := next_pk st in
          (Ok (set_pk (Some id) self),
           mkStore (<[id := row_of self]> (rows st)) (id + 1)
                   (journal st ++ [(id, row_of self)]))
      | Some id => (Ok self, write_row id (row_of self) st)
      end
  end.

(** *** [NotificationTemplate.save] and [send] *)

Section template.
Context `{!Backend, !Vault}.

(** [filter(lambda x: init_parameters[x]['type'] == "password", init_parameters)] *)
Definition password_fields : list string :=
  (filter (λ p, ptype p.2 = "password") init_parameters).*1.

(** [if 'notification_configuration' not in update_fields: update_fields.append(...)] *)
Definition mark_configuration (update_fields : list string) : list string :=
  if bool_decide (CONFIG ∈ update_fields) then update_fields
  else update_fields ++ [CONFIG].

(** One turn of the first loop over the password fields (lines 144-156). *)
Definition save_field (new_instance : bool)
    (acc : NotificationTemplate * list string) (field : string)
    : res (NotificationTemplate * list string) :=
  let '(self, update_fields) := acc in
  let* v := py_getitem (VDict (notification_configuration self)) field in
  let* marked := py_startswith v ENCRYPTED in
  if marked then Ok acc
  else if new_instance then
    let value := v in
    Ok (set_configuration (dict_set field (VStr "") (notification_configuration self))
          (set_saved (dict_set field value (saved_config self)) self),
        update_fields)
  else
    let encrypted := encrypt_field self CONFIG field in
    Ok (set_configuration (dict_set field encrypted (notification_configuration self)) self,
        mark_configuration update_fields).

(** One turn of the second loop, after the first write of a new record
    (lines 160-165). *)
Definition restore_field (acc : NotificationTemplate * list string)
    (field : string) : NotificationTemplate * list string :=
  let '(self, update_fields) := acc in
  let saved_value := default (VStr "") (dict_lookup field (saved_config self)) in
  (set_configuration (dict_set field saved_value (notification_configuration self)) self,
   mark_configuration update_fields).

(** Lines 126-142: the messages of [self] after the merge with the stored
    record (nothing on a new instance). *)
Definition preserve_messages (new_instance : bool) (self : NotificationTemplate)
    (st : store) : res NotificationTemplate :=
  if new_instance then Ok self
  else
    let* old_nt := objects_get st (pk self) in
    let old_messages := row_messages old_nt in
    let new_messages := messages self in
    if negb (is_none old_messages) && negb (is_none new_messages) then
      let* m := merge_messages old_messages new_messages in
      Ok (set_messages m self)
    else Ok self.

(** [NotificationTemplate.save(kwargs...)], where [update_fields] is the
    keyword argument of that name, if given.  [fuel] bounds the depth of
    the calls of [self.save]; running out is Python's [RecursionError].
    The result is the instance after the call, and the store is returned
    also when the call raises. *)
Fixpoint save (fuel : nat) (update_fields : option (list string))
    (self : NotificationTemplate) (st : store)
    : res NotificationTemplate * store :=
  match fuel with
  | O => (Err RecursionError, st)
  | S fuel' =>
      let new_instance := negb (bool_pk (pk self)) in
      let kwargs := update_fields in
      let update_fields := default [] kwargs in
      match preserve_messages new_instance self st with
      | Err e => (Err e, st)
      | Ok self1 =>
          match foldM (save_field new_instance) (self1, update_fields)
                      password_fields with
          | Err e => (Err e, st)
          | Ok (self2, update_fields') =>
              (* the list in [kwargs], if there is one, is the list appended to *)
              match Model_save ((λ _, update_fields') <$> kwargs) self2 st with
              | (Err e, st') => (Err e, st')
              | (Ok self3, st') =>
                  if new_instance then
                    let '(self4, update_fields'') :=
                      fold_left restore_field password_fields (self3, []) in
                    save fuel' (Some update_fields'') self4 st'
                  else (Ok self3, st')
              end
          end
      end
  end.

(** One turn of the loop of [send] over the password fields. *)
Definition decrypt_step (self : NotificationTemplate) (field : string)
    : res NotificationTemplate :=
  if dict_has field (notification_configuration self) then
    let* v := decrypt_field self CONFIG field in
    Ok (set_configuration (dict_set field v (notification_configuration self)) self)
  else Ok self.

(** One turn of [for field, params in init_parameters.items()]. *)
Definition fill_default (notification_configuration : dict)
    (p : string * param_spec) : dict :=
  if dict_has p.1 notification_configuration then notification_configuration
  else match pdefault p.2 with
       | Some d => dict_set p.1 d notification_configuration
       | None => notification_configuration
       end.

(** [d.pop(k, None)] for the optional [sender_parameter] (which is [None]
    for some backends). *)
Definition pop_sender (d : dict) : value * dict :=
  match sender_parameter with
  | Some k => (default VNone (dict_lookup k d), dict_remove k d)
  | None => (VNone, d)
  end.

(** [NotificationTemplate.send(subject, body)]: the value returned by the
    backend and the instance after the call. *)
Definition send (self : NotificationTemplate) (subject body : value)
    : res (value * NotificationTemplate) :=
  let* self1 := foldM decrypt_step self password_fields in
  let* recipients := py_getitem (VDict (notification_configuration self1)) recipient_parameter in
  let config1 := dict_remove recipient_parameter (notification_configuration self1) in
  let recipients := if is_list recipients then recipients else VList [recipients] in
  let '(sender, config2) := pop_sender config1 in
  let self2 := set_configuration config2 self1 in
  let notification_configuration := fold_left fill_default init_parameters config2 in
  let* backend_obj := construct notification_configuration in
  let* formatted := format_body backend_obj body in
  let notification_obj := mkEmailMessage subject formatted sender recipients in
  let* sent := send_messages backend_obj [notification_obj] in
  Ok (sent, self2).

End template.

(** ** JobNotificationMixin *)

(** What a concrete job class supplies: its [id] and [name], the methods the
    mixin leaves undefined, and its serialization by [UnifiedJobSerializer]. *)
Class Job : Type := {
  job_id : Z;
  job_name : string;
  get_notification_templates : res (list (string * list NotificationTemplate));
  get_notification_friendly_name : res string;
  notification_data : res value;
  get_ui_url : res string;
  to_representation : res value;
}.

(** [json.dumps(obj, indent=4)] *)
Class Json : Type := {
  json_dumps : value → string;
}.

(** Lookup in a dict literal whose values are not JSON values. *)
Fixpoint assoc {A} (k : string) (l : list (string * A)) : option A :=
  match l with
  | [] => None
  | (k', a) :: l' => if bool_decide (k = k') then Some a else assoc k l'
  end.

Definition STATUS_TO_TEMPLATE_TYPE : list (string * string) :=
  [("succeeded", "success"); ("running", "started"); ("failed", "error")].

(** What [send_notification_templates] does to the world outside the job:
    it asks for the templates, and it registers callbacks to run on commit
    (each will create one [Notification] and enqueue its delivery). *)
Inductive effect : Type :=
  | ResolveTemplates
  | OnCommit (local_nt : NotificationTemplate) (local_subject : string)
             (local_body : value) (job : Z).

(** [set(l)] on model instances, which hash and compare by primary key; an
    instance without a key cannot be hashed.  The order of a set is not
    fixed by Python; the first occurrences are kept in the order of [l]. *)
Fixpoint set_of_templates (l : list NotificationTemplate) (seen : list Z)
    : res (list NotificationTemplate) :=
  match l with
  | [] => Ok []
  | nt :: l' =>
      match pk nt with
      | None => Err TypeError
      | Some id =>
          if bool_decide (id ∈ seen) then set_of_templates l' seen
          else let* r := set_of_templates l' (id :: seen) in Ok (nt :: r)
      end
  end.

Module JobNotificationMixin.
Section mixin.
Context `{!Job, !Json, !Jinja}.

(** [JobNotificationMixin.context(serialized_job)] *)
Definition context (serialized_job : value) : res dict :=
  let* friendly := get_notification_friendly_name in
  let* url := get_ui_url in
  let* data := notification_data in
  let* job := build_context [] serialized_job JOB_FIELDS_WHITELIST in
  Ok [ ("job", VDict job);
       ("job_friendly_name", VStr friendly);
       ("url", VStr url);
       ("job_summary_dict", VStr (json_dumps data)) ].

(** [u"{} #{} '{}' {}: {}".format(friendly, self.id, self.name, status, url)] *)
Definition default_subject (status : string) : res string :=
  let* friendly := get_notification_friendly_name in
  let* url := get_ui_url in
  Ok (friendly +:+ " #" +:+ pretty job_id +:+ " '" +:+ job_name +:+ "' "
      +:+ status +:+ ": " +:+ url).

(** Lines 436-441: the subject and body templates of [nt] for [status].
    The method [get] is looked up on [nt.messages] before its argument
    [STATUS_TO_TEMPLATE_TYPE[status]] is evaluated. *)
Definition templates_for (nt : NotificationTemplate) (status : string)
    : res (value * value) :=
  if truthy (messages nt) then
    match messages nt with
    | VDict d =>
        let* kind := match assoc status STATUS_TO_TEMPLATE_TYPE with
                     | Some k => Ok k
                     | None => Err KeyError
                     end in
        let found := default (VDict []) (dict_lookup kind d) in
        let templates := if truthy found then found else VDict [] in
        let* msg_template := py_get templates "message" (VDict []) in
        let* body_template := py_get templates "body" (VDict []) in
        Ok (msg_template, body_template)
    | _ => Err AttributeError
    end
  else Ok (VNone, VNone).

(** [JobNotificationMixin.build_notification_message(nt, status)] *)
Definition build_notification_message (nt : NotificationTemplate)
    (status : string) : res (string * value) :=
  let* job_serialization := to_representation in
  let* context := context job_serialization in
  let* templates := templates_for nt status in
  let msg_template := templates.1 in
  let body_template := templates.2 in
  let* notification_subject :=
    (if truthy msg_template
     then render_or_empty (render msg_template context)
     else default_subject status) in
  let* notification_body := notification_data in
  let* friendly := get_notification_friendly_name in
  let* notification_body :=
    py_setitem notification_body "friendly_name" (VStr friendly) in
  let* notification_body :=
    (if truthy body_template
     then let* b := render_or_empty (render body_template context) in
          py_setitem notification_body "body" (VStr b)
     else Ok notification_body) in
  Ok (notification_subject, notification_body).

(** The loop of [send_notification_templates] over the templates.  The
    handler of [AttributeError] formats a string without a placeholder,
    which is itself a [TypeError]. *)
Fixpoint notify_each (status : string) (nts : list NotificationTemplate)
    (w : list effect) : res unit * list effect :=
  match nts with
  | [] => (Ok (), w)
  | nt :: nts' =>
      match build_notification_message nt status with
      | Err AttributeError => (Err TypeError, w)
      | Err e => (Err e, w)
      | Ok (notification_subject, notification_body) =>
          notify_each status nts'
            (w ++ [OnCommit nt notification_subject notification_body job_id])%list
      end
  end.

(** [JobNotificationMixin.send_notification_templates(status)]: the outcome
    and the effects, appended to those already in [w]. *)
Definition send_notification_templates (status : string) (w : list effect)
    : res unit * list effect :=
  if negb (bool_decide (status ∈ ["running"; "succeeded"; "failed"]))
  then (Err ValueError, w)
  else
    let w := (w ++ [ResolveTemplates])%list in
    match get_notification_templates with
    | Err _ => (Ok (), w)
    | Ok notification_templates =>
        match notification_templates with
        | [] => (Ok (), w)
        | _ =>
            match assoc status STATUS_TO_TEMPLATE_TYPE with
            | None => (Err KeyError, w)
            | Some kind =>
                let found := default [] (assoc kind notification_templates) in
                match set_of_templates found [] with
                | Err e => (Err e, w)
                | Ok nts => notify_each status nts w
                end
            end
        end
    end.

End mixin.
End JobNotificationMixin.

(** ** The other methods of the module *)

(** [NotificationTemplate.has_message(condition)] *)
Definition has_message (self : NotificationTemplate) (condition : string) : res bool :=
  let* potential_template := py_get (messages self) condition (VDict []) in
  if value_eqb potential_template (VDict []) then Ok false
  else
    let* message := py_get potential_template "message" (VDict []) in
    if value_eqb message (VDict []) then Ok false else Ok true.

(** [force_text(v).startswith('$encrypted$')].  The text of a value that is
    not a str is its [str()], which starts with a letter, a digit, a sign, a
    bracket or a brace, never with the dollar sign of the marker. *)
Definition text_is_encrypted (v : value) : bool :=
  match v with
  | VStr s => startswith ENCRYPTED s
  | _ => false
  end.

(** [django.utils.encoding.smart_str] *)
Class Text : Type := {
  smart_str : value → string;
}.

(** A row of the table of [Notification], with the defaults of its fields. *)
Record Notification : Type := mkNotification {
  n_id : Z;
  n_notification_template : Z;
  n_status : string;
  n_error : string;
  n_notifications_sent : Z;
  n_notification_type : string;
  n_recipients : string;
  n_subject : value;
  n_body : value;
}.

(** The table of notifications (oldest first) with its next automatic key,
    and the queue of the calls of [send_notifications.delay]. *)
Record outbox : Type := mkOutbox {
  notifications : list Notification;
  next_notification : Z;
  delayed : list (list Z * Z);
}.

Section template_rest.
Context {backend : Backend} {text : Text}.

(** One turn of the loop of [display_notification_configuration]. *)
Definition display_field (field_val : dict) (p : string * param_spec) : dict :=
  match dict_lookup p.1 field_val with
  | Some v =>
      if text_is_encrypted v then dict_set p.1 (VStr ENCRYPTED) field_val
      else field_val
  | None => field_val
  end.

(** [NotificationTemplate.display_notification_configuration()]: the copy
    that is returned. *)
Definition display_notification_configuration (self : NotificationTemplate) : dict :=
  fold_left display_field init_parameters (notification_configuration self).

(** The property [NotificationTemplate.recipients] *)
Definition recipients (self : NotificationTemplate) : res value :=
  py_getitem (VDict (notification_configuration self)) recipient_parameter.

(** [NotificationTemplate.generate_notification(subject, message)], with
    [notification_type] the attribute of that name of [self].  A row that
    refers to a template without key is refused by [Model.save]. *)
Definition generate_notification (notification_type : string)
    (self : NotificationTemplate) (subject message : value) (box : outbox)
    : res Notification * outbox :=
  match recipients self with
  | Err e => (Err e, box)
  | Ok r =>
      match pk self with
      | None => (Err ValueError, box)
      | Some template =>
          let notification :=
            mkNotification (next_notification box) template "pending" "" 0
                           notification_type (smart_str r) subject message in
          (Ok notification,
           mkOutbox (notifications box ++ [notification])
                    (next_notification box + 1) (delayed box))
      end
  end.

End template_rest.

(** The class and the type of each template, for a place where templates of
    several types meet: [self.notification_type] and
    [CLASS_FOR_NOTIFICATION_TYPE[self.notification_type]]. *)
Class Catalog : Type := {
  notification_type_of : NotificationTemplate → string;
  notification_class_of : NotificationTemplate → Backend;
}.

Section on_commit.
Context `{!Catalog, !Text}.

(** The function [_func] that [send_it] returns, as registered by the effect
    [OnCommit]: it creates the notification and enqueues its delivery. *)
Definition run_on_commit (e : effect) (box : outbox) : res unit * outbox :=
  match e with
  | ResolveTemplates => (Ok (), box)
  | OnCommit local_nt local_subject local_body job =>
      match generate_notification (backend := notification_class_of local_nt)
              (notification_type_of local_nt) local_nt
              (VStr local_subject) local_body box with
      | (Err e, box') => (Err e, box')
      | (Ok notification, box') =>
          (Ok (), mkOutbox (notifications box') (next_notification box')
                           (delayed box' ++ [([n_id notification], job)]))
      end
  end.

(** The commit: the registered functions run in order; the first exception
    ends it. *)
Fixpoint commit (w : list effect) (box : outbox) : res unit * outbox :=
  match w with
  | [] => (Ok (), box)
  | e :: w' =>
      match run_on_commit e box with
      | (Err x, box') => (Err x, box')
      | (Ok _, box') => commit w' box'
      end
  end.

End on_commit.

(** ** A sample installation

    A backend in the shape of the e-mail backend (one password parameter, one
    parameter with a default), a vault that marks what it encrypts, a renderer
    that rejects an unclosed expression, and a job. *)

Module Sample.

Definition email_parameters : list (string * param_spec) :=
  [ ("host", ParamSpec "string" None);
    ("port", ParamSpec "int" None);
    ("username", ParamSpec "string" None);
    ("password", ParamSpec "password" None);
    ("use_tls", ParamSpec "bool" None);
    ("sender", ParamSpec "string" None);
    ("recipients", ParamSpec "list" None);
    ("timeout", ParamSpec "int" (Some (VInt 30))) ].

#[export] Instance email_backend : Backend := {|
  backend_obj := dict;
  init_parameters := email_parameters;
  init_parameters_keys := ltac:(compute_done);
  recipient_parameter := "recipients";
  sender_parameter := Some "sender";
  construct := λ kwargs, Ok kwargs;
  format_body := λ _ body, Ok body;
  send_messages := λ _ msgs, Ok (VInt (Z.of_nat (length msgs)));
|}.

Definition plain (self : NotificationTemplate) (subfield : string) : string :=
  match dict_lookup subfield (notification_configuration self) with
  | Some (VStr s) => s
  | _ => ""
  end.

#[export] Instance marking_vault : Vault := {|
  encrypt_field := λ self _ subfield, VStr (ENCRYPTED +:+ plain self subfield);
  decrypt_field := λ self _ subfield,
    if startswith ENCRYPTED (plain self subfield)
    then Ok (VStr (String.substring 11 (String.length (plain self subfield) - 11)
                                    (plain self subfield)))
    else Err ValueError;
|}.

(** Does an expression opened by two braces close with two braces? *)
Fixpoint closed_expression (s : string) (inside : bool) : bool :=
  match s with
  | EmptyString => negb inside
  | String a s' =>
      if inside then
        if startswith "}}" s then closed_expression s' false
        else if startswith "}" s then false
        else closed_expression s' true
      else if startswith "{{" s then closed_expression s' true
      else closed_expression s' false
  end.

#[export] Instance strict_jinja : Jinja := {|
  render := λ template _,
    match template with
    | VStr s => if closed_expression s false then Ok s else Err TemplateSyntaxError
    | _ => Err TypeError
    end;
|}.

#[export] Instance plain_json : Json := {|
  json_dumps := λ _, "{}";
|}.

Definition template_1 : NotificationTemplate :=
  mkNT (Some 1)
       [("host", VStr "smtp"); ("port", VInt 25); ("username", VStr "awx");
        ("password", VStr "$encrypted$hunter2"); ("use_tls", VBool true);
        ("sender", VStr "awx@example.org");
        ("recipients", VList [VStr "ops@example.org"])]
       (VDict [("started", VNone); ("success", VNone);
               ("error", VDict [("message", VStr "{{ job.id }")])])
       [].

(** A store that holds [template_1] as it was saved before. *)
Definition store_1 : store :=
  mkStore {[ 1 := mkRow (notification_configuration template_1)
                        (messages template_1) ]} 2 [].

(** [template_1] with a password typed in again. *)
Definition template_1_edited : NotificationTemplate :=
  set_configuration
    (dict_set "password" (VStr "hunter3") (notification_configuration template_1))
    template_1.

(** A template saved with a message for one event kind only, and the store
    that holds it; the same with no messages at all in the store. *)
Definition template_3 : NotificationTemplate :=
  mkNT (Some 3)
       [("host", VStr "smtp"); ("password", VStr "$encrypted$hunter2");
        ("recipients", VStr "ops@example.org")]
       (VDict [("started", VDict [("message", VStr "go")])])
       [].

Definition store_3 : store :=
  mkStore {[ 3 := mkRow (notification_configuration template_3)
                        (messages template_3) ]} 4 [].

Definition store_3_null : store :=
  mkStore {[ 3 := mkRow (notification_configuration template_3) VNone ]} 4 [].

(** The stored messages of [template_5], and an update of the body for
    ['success'] alone. *)
Definition template_5 : NotificationTemplate :=
  mkNT (Some 5)
       [("host", VStr "smtp"); ("password", VStr "$encrypted$hunter2");
        ("recipients", VStr "ops@example.org")]
       (VDict [("success", VDict [("body", VStr "done")])])
       [].

Definition store_5 : store :=
  mkStore {[ 5 := mkRow (notification_configuration template_5)
                        (VDict [("started", VDict [("message", VStr "go")]);
                                ("success", VNone); ("error", VNone)]) ]} 6 [].

Definition template_2 : NotificationTemplate :=
  mkNT (Some 2)
       [("host", VStr "smtp"); ("password", VStr "$encrypted$hunter2");
        ("recipients", VStr "ops@example.org")]
       (VDict [("started", VNone); ("success", VNone);
               ("error", VDict [("message", VStr "{{ job.id }");
                                ("body", VStr "{{ job.id }")])])
       [].

#[export] Instance job_42 : Job := {|
  job_id := 42;
  job_name := "deploy";
  get_notification_templates := Ok [("error", [template_1])];
  get_notification_friendly_name := Ok "Job";
  notification_data := Ok (VDict [("id", VInt 42); ("status", VStr "failed")]);
  get_ui_url := Ok "https://towerhost/#/jobs/playbook/42";
  to_representation :=
    Ok (VDict [("id", VInt 42); ("name", VStr "deploy");
               ("extra_vars", VStr "secret: 1");
               ("summary_fields",
                VDict [("inventory", VDict [("id", VInt 17); ("variables", VStr "x")]);
                       ("labels", VDict [])])]);
|}.

(** Text of a value, for the recipients: a str as it is. *)
#[export] Instance plain_text : Text := {|
  smart_str := λ v, match v with VStr s => s | _ => "[...]" end;
|}.

(** Every template is of the e-mail type. *)
#[export] Instance email_only : Catalog := {|
  notification_type_of := λ _, "email";
  notification_class_of := λ _, email_backend;
|}.

(** A job class that leaves the methods of the mixin as they are. *)
Definition undefined_job : Job := {|
  job_id := 7;
  job_name := "undefined";
  get_notification_templates := Err RuntimeError;
  get_notification_friendly_name := Err RuntimeError;
  notification_data := Err RuntimeError;
  get_ui_url := Err AttributeError;
  to_representation := Ok (VDict [("id", VInt 7)]);
|}.

(** A template whose messages are not a mapping, and a job that lists
    templates more than once. *)
Definition template_9 : NotificationTemplate :=
  mkNT (Some 9)
       [("host", VStr "smtp"); ("password", VStr "$encrypted$hunter2");
        ("recipients", VStr "ops@example.org")]
       (VList [VStr "started"])
       [].

Definition job_43 : Job := {|
  job_id := 43;
  job_name := "deploy";
  get_notification_templates :=
    Ok [("success", [template_1; template_2; template_1]);
        ("error", [template_2; template_9; template_2])];
  get_notification_friendly_name := Ok "Job";
  notification_data := Ok (VDict [("id", VInt 43)]);
  get_ui_url := Ok "https://towerhost/#/jobs/playbook/43";
  to_representation := Ok (VDict [("id", VInt 43); ("name", VStr "deploy")]);
|}.

End Sample.

(** ** Vocabulary of the properties *)

(** No value that the walk copies as it is (the value the source holds for a
    leaf entry of the whitelist) has the key [f] inside. *)
Fixpoint leaf_values_free_entry (f : string) (e : wl_entry) (fields : value)
    {struct e} : bool :=
  match fields with
  | VDict d =>
      match e, dict_lookup (wl_name e) d with
      | _, None => true
      | WLeaf _, Some v => negb (has_key_deep f v)
      | WSub _ sub, Some v => forallb (λ e', leaf_values_free_entry f e' v) sub
      end
  | _ => true
  end.

Definition leaf_values_free (f : string) (wl : list wl_entry) (fields : value) : bool :=
  forallb (λ e, leaf_values_free_entry f e fields) wl.

(** Wherever the whitelist has a sub-whitelist, the source record has a
    mapping (or nothing), at every depth. *)
Fixpoint well_shaped_entry (e : wl_entry) (d : dict) {struct e} : bool :=
  match e with
  | WLeaf _ => true
  | WSub field sub =>
      match dict_lookup field d with
      | None => true
      | Some (VDict d') => forallb (λ e', well_shaped_entry e' d') sub
      | Some _ => false
      end
  end.

Definition well_shaped (wl : list wl_entry) (d : dict) : bool :=
  forallb (λ e, well_shaped_entry e d) wl.

(** The names of a whitelist are distinct, and so for its sub-whitelists. *)
Fixpoint distinct_names_entry (e : wl_entry) : bool :=
  match e with
  | WLeaf _ => true
  | WSub _ sub =>
      bool_decide (NoDup (wl_name <$> sub)) && forallb distinct_names_entry sub
  end.

Definition distinct_names (wl : list wl_entry) : bool :=
  bool_decide (NoDup (wl_name <$> wl)) && forallb distinct_names_entry wl.

(** The exceptions that the [except] clauses around a rendering catch. *)
Definition is_template_error (e : exn) : bool :=
  match e with
  | TemplateSyntaxError | UndefinedError | SecurityError => true
  | _ => false
  end.

(** The value for one event kind is null or a mapping of sub-fields, which
    is what the API accepts. *)
Definition event_ok (m : dict) (event : string) : bool :=
  match dict_lookup event m with
  | None | Some VNone | Some (VDict _) => true
  | Some _ => false
  end.

Definition wf_messages (m : dict) : bool := forallb (event_ok m) EVENTS.

(** [messages] as a column value: null, or a mapping as above. *)
Definition messages_ok (m : value) : bool :=
  match m with
  | VNone => true
  | VDict d => wf_messages d
  | _ => false
  end.

Definition has_all_events (m : dict) : bool :=
  forallb (λ event, dict_has event m) EVENTS.

(** What the two loops of the merge compute, on mappings: a sub-field of the
    stored event that the incoming event lacks is taken over when it is
    non-empty, ... *)
Definition merged_fields (old_event new_event : dict) (msg_type : string) : dict :=
  match dict_lookup msg_type new_event, dict_lookup msg_type old_event with
  | None, Some v => if truthy v then dict_set msg_type v new_event else new_event
  | _, _ => new_event
  end.

(** ... and the value of an event kind after the merge, from the stored and
    the incoming item of that kind ([None]: no such key). *)
Definition merged_value (old new : option value) : value :=
  let nv := default (VDict []) new in
  let ov := default (VDict []) old in
  if truthy ov then
    if truthy nv then
      match nv, ov with
      | VDict new_event, VDict old_event =>
          VDict (fold_left (merged_fields old_event) ["message"; "body"] new_event)
      | _, _ => nv
      end
    else ov
  else default VNone new.

(** The messages after the merge, on mappings: each of the three event kinds
    is set, in turn, to its merged value. *)
Definition merged_messages (old new : dict) : dict :=
  let item event := merged_value (dict_lookup event old) (dict_lookup event new) in
  dict_set "error" (item "error")
    (dict_set "success" (item "success")
       (dict_set "started" (item "started") new)).

(** The incoming item of an event kind does not supply a sub-field: there is
    no item, or it is empty, or it is a mapping without the sub-field. *)
Definition lacks_sub_field (item : option value) (msg_type : string) : bool :=
  match item with
  | None => true
  | Some v =>
      if truthy v
      then match v with VDict d => negb (dict_has msg_type d) | _ => false end
      else true
  end.

Section readiness.
Context `{!Backend}.

(** Every password parameter of the backend has a string in the
    configuration, as the schema of the backend requires. *)
Definition config_ready (self : NotificationTemplate) : bool :=
  forallb (λ field,
             match dict_lookup field (notification_configuration self) with
             | Some (VStr _) => true
             | _ => false
             end)
          password_fields.

End readiness.

Section send_vocabulary.
Context `{!Backend, !Vault}.

(** The default that the backend declares for a parameter, if any. *)
Definition declared_default (k : string) : option value :=
  match assoc k init_parameters with
  | Some p => pdefault p
  | None => None
  end.

(** [decrypted] is the configuration of [self] with every password field
    that is present decrypted: each such field holds what [decrypt_field]
    returned for it on an instance with the same key in which the field had
    its stored value; all other items are those of [self]. *)
Definition decrypts (self : NotificationTemplate) (decrypted : dict) : Prop :=
  (∀ k, dict_has k decrypted = dict_has k (notification_configuration self)) ∧
  (∀ k, k ∉ password_fields →
     dict_lookup k decrypted = dict_lookup k (notification_configuration self)) ∧
  (∀ f v, f ∈ password_fields →
     dict_lookup f (notification_configuration self) = Some v →
     ∃ self_f p, pk self_f = pk self ∧
       dict_lookup f (notification_configuration self_f) = Some v ∧
       decrypt_field self_f CONFIG f = Ok p ∧
       dict_lookup f decrypted = Some p).

(** A decryption of a password field that is present raises [e]. *)
Definition decryption_raises (self : NotificationTemplate) (e : exn) : Prop :=
  ∃ f v self_f, f ∈ password_fields ∧
    dict_lookup f (notification_configuration self) = Some v ∧
    pk self_f = pk self ∧
    dict_lookup f (notification_configuration self_f) = Some v ∧
    decrypt_field self_f CONFIG f = Err e.

(** Is [k] the recipient parameter or the sender parameter? *)
Definition is_popped (k : string) : bool :=
  bool_decide (k = recipient_parameter) || bool_decide (Some k = sender_parameter).

(** The backend is built from [kwargs] and asked to send one message. *)
Definition backend_call (kwargs : dict) (sender recipients subject body : value)
    : res value :=
  let* backend_obj := construct kwargs in
  let* formatted := format_body backend_obj body in
  send_messages backend_obj [mkEmailMessage subject formatted sender recipients].

End send_vocabulary.

(** The row of the template in the table holds the configuration that the
    instance has. *)
Definition persisted_configuration (self : NotificationTemplate) (st : store) : Prop :=
  ∃ id r, pk self = Some id ∧ rows st !! id = Some r ∧
          row_configuration r = notification_configuration self.

(** Is a column among those that [Model.save] writes? *)
Definition writes (update_fields : option (list string)) (column : string) : bool :=
  match update_fields with
  | None => true
  | Some l => bool_decide (column ∈ l)
  end.

(** The key of the row of an instance: its own key, or the next automatic
    key when it has none. *)
Definition row_key (self : NotificationTemplate) (st : store) : Z :=
  default (next_pk st) (pk self).

(** From [st] to [st'] rows have been written under [key] only: the journal
    has grown by rows under [key], and the row of every other key is as it
    was. *)
Definition writes_only_under (key : Z) (st st' : store) : Prop :=
  (∃ written, journal st' = (journal st ++ written)%list ∧
              ∀ k r, (k, r) ∈ written → k = key) ∧
  ∀ k, k ≠ key → rows st' !! k = rows st !! k.

Section dispatch_vocabulary.
Context `{!Job, !Json, !Jinja}.

(** [c] is the callback that is registered for [nt]: it carries [nt], the
    message built for it, and the id of the job. *)
Definition callback_for (status : string) (nt : NotificationTemplate) (c : effect)
    : Prop :=
  ∃ subject body,
    JobNotificationMixin.build_notification_message nt status = Ok (subject, body) ∧
    c = OnCommit nt subject body job_id.

End dispatch_vocabulary.

Section commit_vocabulary.
Context `{!Catalog, !Text}.

(** The notification and the queue entry that the callback [c] leaves: a
    pending notification of the template, with the text of its recipients
    and the message, and one delivery of that notification for the job. *)
Definition delivered (c : effect) (nq : Notification * (list Z * Z)) : Prop :=
  ∃ nt subject body job template r,
    c = OnCommit nt subject body job ∧
    pk nt = Some template ∧
    recipients (backend := notification_class_of nt) nt = Ok r ∧
    nq.1 = mkNotification (n_id nq.1) template "pending" "" 0
             (notification_type_of nt) (smart_str r) (VStr subject) body ∧
    nq.2 = ([n_id nq.1], job).

End commit_vocabulary.

(** Two serializations agree on what an entry of the whitelist reads: the
    same item under a leaf; under a sub-whitelist, mappings that agree on its
    entries, or else the same item. *)
Fixpoint agree_entry (e : wl_entry) (d d' : dict) {struct e} : Prop :=
  match e with
  | WLeaf n => dict_lookup n d = dict_lookup n d'
  | WSub n sub =>
      match dict_lookup n d, dict_lookup n d' with
      | Some (VDict s), Some (VDict s') =>
          foldr (λ e' rest, agree_entry e' s s' ∧ rest) True sub
      | x, x' => x = x'
      end
  end.

Definition agree (wl : list wl_entry) (d d' : dict) : Prop :=
  foldr (λ e rest, agree_entry e d d' ∧ rest) True wl.

(** * Properties *)

Import Sample.

(** ** Dictionaries *)

Section dict_facts.
Implicit Types (d : dict) (k : string) (v : value).

Lemma dict_lookup_set k' k v d :
  dict_lookup k' (dict_set k v d) =
  if bool_decide (k' = k) then Some v else dict_lookup k' d.
Proof.
  induction d as [|[k0 v0] d IH]; simpl.
  - by repeat case_bool_decide.
  - repeat (case_bool_decide; simpl; simplify_eq); try done.
    all: rewrite IH; by repeat (case_bool_decide; simplify_eq).
Qed.

Lemma dict_lookup_set_eq k v d : dict_lookup k (dict_set k v d) = Some v.
Proof. rewrite dict_lookup_set. by case_bool_decide. Qed.

Lemma dict_lookup_set_ne k' k v d :
  k' ≠ k → dict_lookup k' (dict_set k v d) = dict_lookup k' d.
Proof. intros. rewrite dict_lookup_set. by case_bool_decide. Qed.

Lemma dict_has_set k' k v d :
  dict_has k' (dict_set k v d) = bool_decide (k' = k) || dict_has k' d.
Proof.
  unfold dict_has. rewrite dict_lookup_set. by case_bool_decide.
Qed.

Lemma dict_lookup_remove k' k d :
  dict_lookup k' (dict_remove k d) =
  if bool_decide (k' = k) then None else dict_lookup k' d.
Proof.
  induction d as [|[k0 v0] d IH]; simpl.
  - by case_bool_decide.
  - repeat (case_bool_decide; simpl; simplify_eq); try done.
    all: rewrite IH; by repeat (case_bool_decide; simplify_eq).
Qed.

(** Storing again what a key already holds changes nothing. *)
Lemma dict_set_same k v d : dict_lookup k d = Some v → dict_set k v d = d.
Proof.
  induction d as [|[k0 v0] d IH]; simpl; [done|].
  case_bool_decide; simplify_eq.
  - by intros [= ->].
  - intros. by rewrite IH.
Qed.

Lemma dict_has_true k d : dict_has k d = true ↔ ∃ v, dict_lookup k d = Some v.
Proof.
  unfold dict_has. destruct (dict_lookup k d); naive_solver.
Qed.

Lemma dict_has_false k d : dict_has k d = false ↔ dict_lookup k d = None.
Proof. unfold dict_has. destruct (dict_lookup k d); naive_solver. Qed.

End dict_facts.

(** ** Sequencing *)

Lemma bind_Ok {A B} (m : res A) (k : A → res B) (b : B) :
  bind m k = Ok b ↔ ∃ a, m = Ok a ∧ k a = Ok b.
Proof. destruct m; simpl; naive_solver. Qed.

Lemma foldM_cons {A B} (f : A → B → res A) (a : A) (x : B) (l : list B) :
  foldM f a (x :: l) = bind (f a x) (λ a', foldM f a' l).
Proof. done. Qed.

(** ** Rendering failures and the status guard *)

Lemma render_or_empty_template_error (e : exn) :
  is_template_error e = true → render_or_empty (Err e) = Ok "".
Proof. by destruct e. Qed.

Lemma render_or_empty_other (r : res string) (e : exn) :
  render_or_empty r = Err e → r = Err e ∧ is_template_error e = false.
Proof. destruct r as [|[]]; simpl; naive_solver. Qed.

Section rendering.
Context `{!Job, !Json, !Jinja}.

(** C3.  When the rendering of a template raises a syntax error, an
    undefined-variable error or a security error, neither
    [build_notification_message] lets that exception out, and the field
    rendered from that template is the empty string: the subject or the
    body returned by the method of [NotificationTemplate], and the subject
    or the ["body"] item returned by the method of [JobNotificationMixin].
    The only exception either method can then raise from its renderings
    is one of another class, raised by the other template. *)
Theorem render_failure_contained (template : value) (context : dict) (e : exn) :
  render template context = Err e →
  is_template_error e = true →
  (∀ self event_type templates other,
      get_message self event_type = Ok templates →
      (py_get templates "message" (VDict []) = Ok template →
       py_get templates "body" (VDict []) = Ok other →
       match NT.build_notification_message self event_type context with
       | Ok (subject, _) => subject = ""
       | Err e' => render other context = Err e' ∧ is_template_error e' = false
       end) ∧
      (py_get templates "message" (VDict []) = Ok other →
       py_get templates "body" (VDict []) = Ok template →
       match NT.build_notification_message self event_type context with
       | Ok (_, body) => body = ""
       | Err e' => render other context = Err e' ∧ is_template_error e' = false
       end)) ∧
  (∀ nt status serialized_job data other,
      to_representation = Ok serialized_job →
      JobNotificationMixin.context serialized_job = Ok context →
      notification_data = Ok (VDict data) →
      truthy template = true →
      (JobNotificationMixin.templates_for nt status = Ok (template, other) →
       match JobNotificationMixin.build_notification_message nt status with
       | Ok (subject, _) => subject = ""
       | Err e' => truthy other = true ∧ render other context = Err e' ∧
                   is_template_error e' = false
       end) ∧
      (JobNotificationMixin.templates_for nt status = Ok (other, template) →
       match JobNotificationMixin.build_notification_message nt status with
       | Ok (_, body) => py_getitem body "body" = Ok (VStr "")
       | Err e' => truthy other = true ∧ render other context = Err e' ∧
                   is_template_error e' = false
       end)).
Proof.
  intros Hr He.
  pose proof (render_or_empty_template_error e He) as Hempty.
  split.
  - intros self event_type templates other Hget. split; intros Hm Hb.
    all: unfold NT.build_notification_message.
    all: repeat (progress (simpl; rewrite ?Hget, ?Hm, ?Hb, ?Hr, ?Hempty)).
    all: destruct (render_or_empty (render other context)) eqn:E; simpl.
    all: rewrite ?Hr, ?Hempty; simpl; try done.
    all: by apply render_or_empty_other.
  - intros nt status sj data other Hsj Hctx Hdata Ht.
    assert (∃ fr url, get_notification_friendly_name = Ok fr ∧ get_ui_url = Ok url)
      as (fr & url & Hfr & Hurl).
    { unfold JobNotificationMixin.context in Hctx.
      destruct get_notification_friendly_name; [|done].
      destruct get_ui_url; [|done]. eauto. }
    split; intros Htf.
    all: unfold JobNotificationMixin.build_notification_message,
           JobNotificationMixin.default_subject.
    all: repeat (progress (simpl; rewrite ?Hsj, ?Hctx, ?Htf, ?Ht, ?Hr, ?Hempty,
                             ?Hdata, ?Hfr, ?Hurl)).
    all: destruct (truthy other) eqn:Eo; simpl; rewrite ?dict_lookup_set_eq; try done.
    all: destruct (render_or_empty (render other context)) eqn:E; simpl.
    all: repeat (progress (simpl; rewrite ?Hr, ?Hempty, ?Hdata, ?Hfr, ?Hurl,
                             ?dict_lookup_set_eq)); try done.
    all: split; [done|]; by apply render_or_empty_other.
Qed.

(** C9.  A status other than ['running'], ['succeeded'] and ['failed'] is
    refused with [ValueError] before anything else happens: the effects
    are those there were before the call, so no template was asked for
    and no callback (hence no [Notification]) was registered. *)
Theorem send_notification_templates_rejects_status
    (status : string) (w : list effect) :
  status ∉ ["running"; "succeeded"; "failed"] →
  JobNotificationMixin.send_notification_templates status w = (Err ValueError, w).
Proof.
  intros Hs. unfold JobNotificationMixin.send_notification_templates.
  by rewrite bool_decide_eq_false_2.
Qed.

End rendering.

Lemma render_failure_contained_witness :
  render (VStr "{{ job.id }") [] = Err TemplateSyntaxError ∧
  NT.build_notification_message template_2 "error" [] = Ok ("", "").
Proof.
  split; [reflexivity|].
  pose proof (render_failure_contained (VStr "{{ job.id }") [] TemplateSyntaxError
                eq_refl eq_refl) as [HNT _].
  destruct (HNT template_2 "error"
              (VDict [("message", VStr "{{ job.id }"); ("body", VStr "{{ job.id }")])
              (VStr "{{ job.id }") eq_refl) as [Hs Hb].
  specialize (Hs eq_refl eq_refl). specialize (Hb eq_refl eq_refl).
  destruct (NT.build_notification_message template_2 "error" [])
    as [[subject body]|e'].
  - by rewrite Hs, Hb.
  - destruct Hs as [He' Hf]. vm_compute in He'. by simplify_eq.
Defined.

Lemma send_notification_templates_rejects_status_witness :
("cancelled" ∉ ["running"; "succeeded"; "failed"]) ∧
  JobNotificationMixin.send_notification_templates "cancelled" [] = (Err ValueError, []).
Proof.
  assert ("cancelled" ∉ ["running"; "succeeded"; "failed"]) as H by compute_done.
  split; [exact H|].
  exact (send_notification_templates_rejects_status "cancelled" [] H).
Defined.

(** ** The context projection *)

Lemma wl_entry_ind' (P : wl_entry → Prop) :
  (∀ n, P (WLeaf n)) →
  (∀ n sub, Forall P sub → P (WSub n sub)) →
  ∀ e, P e.
Proof.
  intros Hleaf Hsub. fix IH 1. intros [n|n sub]; [apply Hleaf|apply Hsub].
  induction sub as [|e sub IHsub]; constructor; [apply IH|apply IHsub].
Qed.

Lemma has_key_deep_set f k v d :
  k ≠ f → has_key_deep f v = false → has_key_deep f (VDict d) = false →
  has_key_deep f (VDict (dict_set k v d)) = false.
Proof.
  intros Hk Hv. simpl. induction d as [|[k0 v0] d IH]; simpl.
  - intros _. rewrite Hv. by rewrite bool_decide_eq_false_2.
  - intros [[H1 H2]%orb_false_iff H3]%orb_false_iff.
    destruct (bool_decide (k = k0)) eqn:E; simpl.
    + apply bool_decide_eq_true in E as <-. by rewrite H1, Hv, H3.
    + by rewrite H1, H2, IH.
Qed.

Section projection.
Implicit Types (wl : list wl_entry) (e : wl_entry) (node d : dict) (fields : value).

(** An entry whose field the source does not have leaves the node alone. *)
Lemma build_context_entry_absent e node fields :
  py_in (wl_name e) fields = Ok false → build_context_entry e node fields = Ok node.
Proof. destruct e; simpl; by intros ->. Qed.

Lemma build_context_all_absent wl node fields :
  (∀ e, e ∈ wl → py_in (wl_name e) fields = Ok false) →
  build_context node fields wl = Ok node.
Proof.
  unfold build_context. induction wl as [|e wl IH]; intros H; simpl; [done|].
  rewrite build_context_entry_absent by (apply H; left). simpl.
  apply IH. intros e' ?. apply H. by right.
Qed.

(** An entry writes at most the key it names. *)
Lemma build_context_entry_frame e node fields node' k :
  build_context_entry e node fields = Ok node' → k ≠ wl_name e →
  dict_lookup k node' = dict_lookup k node.
Proof.
  destruct e as [n|n sub]; simpl; intros H Hk.
  all: destruct (py_in n fields) as [[]|]; simpl in H; simplify_eq; try done.
  all: destruct (py_getitem fields n); simpl in H; simplify_eq.
  - by rewrite dict_lookup_set_ne.
  - destruct (foldM _ _ sub); simpl in H; simplify_eq.
    by rewrite dict_lookup_set_ne.
Qed.

(** What one entry does when it returns. *)
Lemma build_context_entry_cases e node fields node' :
  build_context_entry e node fields = Ok node' →
  (py_in (wl_name e) fields = Ok false ∧ node' = node) ∨
  (py_in (wl_name e) fields = Ok true ∧
   ∃ v, py_getitem fields (wl_name e) = Ok v ∧
        match e with
        | WLeaf n => node' = dict_set n v node
        | WSub n sub =>
            ∃ m, build_context [] v sub = Ok m ∧ node' = dict_set n (VDict m) node
        end).
Proof.
  destruct e as [n|n sub]; simpl; intros H.
  all: destruct (py_in n fields) as [[]|]; simpl in H; simplify_eq; [right|by left].
  all: split; [done|].
  all: destruct (py_getitem fields n) as [v|]; simpl in H; simplify_eq.
  all: exists v; split; [done|].
  - done.
  - apply bind_Ok in H as (m & Hm & [= <-]). by exists m.
Qed.

Lemma well_shaped_total wl : ∀ d node,
  well_shaped wl d = true → ∃ node', build_context node (VDict d) wl = Ok node'.
Proof.
  unfold well_shaped, build_context.
  induction wl as [|e wl IHwl]; intros d node H; simpl in *; [eauto|].
  apply andb_true_iff in H as [He Hwl].
  assert (∃ n1, build_context_entry e node (VDict d) = Ok n1) as [n1 ->].
  { clear IHwl Hwl. revert d node He.
    induction e as [n|n sub IH] using wl_entry_ind'; intros d node He; simpl in *.
    - unfold dict_has. destruct (dict_lookup n d); simpl; eauto.
    - unfold dict_has. destruct (dict_lookup n d) as [v|]; simpl; [|eauto].
      destruct v as [| | | | |d']; try done.
      assert (∃ m, foldM (λ n0 e, build_context_entry e n0 (VDict d')) [] sub = Ok m)
        as [m ->]; [|simpl; eauto].
      generalize (@nil (string * value)).
      induction IH as [|e sub He' _ IHsub]; intros acc; simpl in *; [eauto|].
      apply andb_true_iff in He as [He1 He2].
      destruct (He' d' acc He1) as [n1 ->]. simpl. by apply IHsub. }
  simpl. by apply IHwl.
Qed.

(** What the walk over a whitelist with distinct names leaves in the node. *)
Lemma build_context_spec wl : ∀ fields node0 node,
  NoDup (wl_name <$> wl) →
  build_context node0 fields wl = Ok node →
  (∀ k, k ∉ wl_name <$> wl → dict_lookup k node = dict_lookup k node0) ∧
  (∀ field sub, WSub field sub ∈ wl → py_in field fields = Ok true →
     ∃ subnode m, py_getitem fields field = Ok subnode ∧
                  build_context [] subnode sub = Ok m ∧
                  dict_lookup field node = Some (VDict m)) ∧
  (∀ e, e ∈ wl → py_in (wl_name e) fields = Ok false →
     dict_lookup (wl_name e) node = dict_lookup (wl_name e) node0).
Proof.
  unfold build_context.
  induction wl as [|e wl IH]; intros fields node0 node Hnd H; simpl in *.
  { simplify_eq. repeat split; intros; try done; by decompose_list_elem_of. }
  apply NoDup_cons in Hnd as [Hne Hnd].
  apply bind_Ok in H as (n1 & He & Hrest).
  destruct (IH fields n1 node Hnd Hrest) as (Hframe & Hsub & Habs).
  split; [|split].
  - intros k Hk. apply not_elem_of_cons in Hk as [Hk1 Hk2].
    rewrite (Hframe k Hk2). by eapply build_context_entry_frame.
  - intros field sub [<-|Hin]%elem_of_cons Hd.
    + apply build_context_entry_cases in He as [[He _]|(_ & v & Hv & m & Hm & ->)].
      { simpl in He. congruence. }
      exists v, m. split; [done|]. split; [done|].
      rewrite (Hframe field Hne). apply dict_lookup_set_eq.
    + by eapply Hsub.
  - intros e' [->|Hin]%elem_of_cons Hd.
    + rewrite (Hframe _ Hne).
      rewrite build_context_entry_absent in He by done. by simplify_eq.
    + rewrite (Habs e' Hin Hd).
      eapply build_context_entry_frame; [done|].
      intros Heq. apply Hne. rewrite <- Heq. by apply list_elem_of_fmap_2.
Qed.

End projection.

(** Membership in a list that is written out. *)
Ltac in_list :=
  repeat first [apply list_elem_of_here | apply list_elem_of_further].

Lemma JOB_FIELDS_WHITELIST_distinct : distinct_names JOB_FIELDS_WHITELIST = true.
Proof. by vm_compute. Qed.

(** The walk never writes a key that the whitelist does not name, and the
    only values it copies are those of the leaf entries. *)
Lemma build_context_entry_contains f e : ∀ node fields node',
  wl_entry_names f e = false →
  leaf_values_free_entry f e fields = true →
  has_key_deep f (VDict node) = false →
  build_context_entry e node fields = Ok node' →
  has_key_deep f (VDict node') = false.
Proof.
  induction e as [n|n sub IH] using wl_entry_ind'; intros node fields node' Hn Hfree Hnode H.
  - simpl in H, Hn. destruct (py_in n fields) as [[]|]; simpl in H; simplify_eq; [|done].
    destruct fields as [| | | | |d]; simpl in H; try done.
    simpl in Hfree. destruct (dict_lookup n d) as [v|]; simpl in H; simplify_eq.
    apply has_key_deep_set; [by apply bool_decide_eq_false in Hn| |done].
    by apply negb_true_iff in Hfree.
  - simpl in H, Hn. apply orb_false_iff in Hn as [Hn Hsub].
    destruct (py_in n fields) as [[]|]; simpl in H; simplify_eq; [|done].
    destruct fields as [| | | | |d]; simpl in H; try done.
    simpl in Hfree. destruct (dict_lookup n d) as [v|]; simpl in H; simplify_eq.
    apply bind_Ok in H as (m & Hm & [= <-]).
    apply has_key_deep_set; [by apply bool_decide_eq_false in Hn| |done].
    assert (∀ acc, has_key_deep f (VDict acc) = false →
              foldM (λ n0 e, build_context_entry e n0 v) acc sub = Ok m →
              has_key_deep f (VDict m) = false) as Hloop;
      [|exact (Hloop [] eq_refl Hm)].
    clear Hnode Hn Hm node. revert m Hsub Hfree.
    induction IH as [|e sub He _ IHsub]; intros m Hsub Hfree acc Hacc Hm.
    + simpl in Hm. by simplify_eq.
    + simpl in Hsub, Hfree, Hm.
      apply orb_false_iff in Hsub as [Hsub1 Hsub2].
      apply andb_true_iff in Hfree as [Hfree1 Hfree2].
      apply bind_Ok in Hm as (acc' & Hstep & Hm).
      eapply (IHsub m Hsub2 Hfree2 acc'); [|done].
      by eapply He.
Qed.

Lemma build_context_contains f wl fields : ∀ node node',
  in_whitelist f wl = false →
  leaf_values_free f wl fields = true →
  has_key_deep f (VDict node) = false →
  build_context node fields wl = Ok node' →
  has_key_deep f (VDict node') = false.
Proof.
  unfold in_whitelist, leaf_values_free, build_context.
  induction wl as [|e wl IH]; intros node node' Hn Hfree Hnode H; simpl in *.
  - by simplify_eq.
  - apply orb_false_iff in Hn as [Hn1 Hn2].
    apply andb_true_iff in Hfree as [Hfree1 Hfree2].
    apply bind_Ok in H as (n1 & Hstep & H).
    eapply (IH n1); [done..| |done].
    by eapply build_context_entry_contains.
Qed.

Section containment.
Context `{!Job, !Json}.

(** C1 (as amended).  For every serialized job and every field name that the
    whitelist tree does not name: if no value that the job holds under a leaf
    entry of the whitelist has that name as a key inside, then the ["job"]
    subtree of the context has it as a key at no depth.  (The values of the
    leaf entries are copied as they are.) *)
Theorem context_whitelist_containment
    (serialized_job : value) (f : string) (ctx : dict) :
  in_whitelist f JOB_FIELDS_WHITELIST = false →
  leaf_values_free f JOB_FIELDS_WHITELIST serialized_job = true →
  JobNotificationMixin.context serialized_job = Ok ctx →
  ∃ job, dict_lookup "job" ctx = Some (VDict job) ∧
         has_key_deep f (VDict job) = false.
Proof.
  intros Hf Hfree Hc. unfold JobNotificationMixin.context in Hc.
  apply bind_Ok in Hc as (fr & _ & Hc). apply bind_Ok in Hc as (url & _ & Hc).
  apply bind_Ok in Hc as (data & _ & Hc). apply bind_Ok in Hc as (job & Hjob & Hc).
  injection Hc as <-. exists job. split; [done|].
  exact (build_context_contains f _ _ [] job Hf Hfree eq_refl Hjob).
Qed.

End containment.

(** C1, as stated, fails: the value of the whitelisted leaf ["name"] is copied
    whole, and with it the key ["secret"], which the whitelist does not name. *)
Lemma context_copies_leaf_values_whole :
  in_whitelist "secret" JOB_FIELDS_WHITELIST = false ∧
  JobNotificationMixin.context
    (VDict [("id", VInt 42); ("name", VDict [("secret", VStr "hunter2")])]) =
  Ok [ ("job", VDict [("id", VInt 42); ("name", VDict [("secret", VStr "hunter2")])]);
       ("job_friendly_name", VStr "Job");
       ("url", VStr "https://towerhost/#/jobs/playbook/42");
       ("job_summary_dict", VStr "{}") ] ∧
  has_key_deep "secret"
    (VDict [("id", VInt 42); ("name", VDict [("secret", VStr "hunter2")])]) = true.
Proof. by vm_compute. Qed.

Lemma context_whitelist_containment_witness :
  let serialized_job :=
    VDict [("id", VInt 42); ("name", VStr "deploy");
           ("extra_vars", VDict [("secret", VStr "hunter2")]);
           ("summary_fields",
            VDict [("inventory", VDict [("id", VInt 17); ("secret", VInt 1)])])] in
  in_whitelist "secret" JOB_FIELDS_WHITELIST = false ∧
  leaf_values_free "secret" JOB_FIELDS_WHITELIST serialized_job = true ∧
  ∃ ctx job, JobNotificationMixin.context serialized_job = Ok ctx ∧
             dict_lookup "job" ctx = Some (VDict job) ∧
             has_key_deep "secret" (VDict job) = false.
Proof.
  intros sj. split; [reflexivity|]. split; [reflexivity|].
  destruct (JobNotificationMixin.context sj) as [ctx|] eqn:E; [|by vm_compute in E].
  exists ctx.
  destruct (context_whitelist_containment sj "secret" ctx eq_refl eq_refl E)
    as (job & Hjob & Hfree).
  by exists job.
Defined.

(** C10.  Whenever the walk over a whitelist with distinct names returns a
    node: every sub-whitelist entry whose field the source has is a mapping in
    the node, the projection of the nested value, and that mapping is empty
    when the nested value has none of the whitelisted children; a whitelisted
    field that the source does not have is no key of the node at all.  The
    walk does return over a source mapping that holds mappings where the
    whitelist has sub-whitelists. *)
Theorem build_context_subtree_or_nothing (wl : list wl_entry) :
  NoDup (wl_name <$> wl) →
  (∀ d, well_shaped wl d = true → is_ok (build_context [] (VDict d) wl) = true) ∧
  (∀ fields node,
     build_context [] fields wl = Ok node →
     (∀ field sub,
        WSub field sub ∈ wl → py_in field fields = Ok true →
        ∃ subnode m,
          py_getitem fields field = Ok subnode ∧
          build_context [] subnode sub = Ok m ∧
          dict_lookup field node = Some (VDict m) ∧
          ((∀ c, c ∈ sub → py_in (wl_name c) subnode = Ok false) → m = [])) ∧
     (∀ e, e ∈ wl → py_in (wl_name e) fields = Ok false →
        dict_has (wl_name e) node = false)).
Proof.
  intros Hnd. split.
  - intros d Hshape. by destruct (well_shaped_total wl d [] Hshape) as [node ->].
  - intros fields node Hnode.
    destruct (build_context_spec wl fields [] node Hnd Hnode) as (_ & Hsub & Habs).
    split.
    + intros field sub Hin Hd.
      destruct (Hsub field sub Hin Hd) as (subnode & m & Hget & Hm & Hlook).
      exists subnode, m. repeat (split; [done|]).
      intros Hnone. rewrite build_context_all_absent in Hm by done. by simplify_eq.
    + intros e Hin Hd. apply dict_has_false. by rewrite (Habs e Hin Hd).
Qed.

Lemma build_context_subtree_or_nothing_witness :
  ∃ node,
    build_context []
      (VDict [("id", VInt 42);
              ("playbook_counts", VDict [("plays", VInt 2)]);
              ("summary_fields", VDict [("labels", VDict [("count", VInt 0)])])])
      JOB_FIELDS_WHITELIST = Ok node ∧
    dict_lookup "playbook_counts" node = Some (VDict []) ∧
    dict_has "host_status_counts" node = false.
Proof.
  assert (NoDup (wl_name <$> JOB_FIELDS_WHITELIST)) as Hnd by compute_done.
  destruct (build_context_subtree_or_nothing JOB_FIELDS_WHITELIST Hnd)
    as [Htotal Hspec].
  set (d := [("id", VInt 42);
             ("playbook_counts", VDict [("plays", VInt 2)]);
             ("summary_fields", VDict [("labels", VDict [("count", VInt 0)])])]).
  specialize (Htotal d eq_refl).
  destruct (build_context [] (VDict d) JOB_FIELDS_WHITELIST) as [node|] eqn:E;
    [|done].
  destruct (Hspec (VDict d) node E) as [Hsub Habs].
  exists node. split; [done|]. split.
  - destruct (Hsub "playbook_counts" [WLeaf "play_count"; WLeaf "task_count"])
      as (subnode & m & Hget & _ & Hm & Hempty);
      [unfold JOB_FIELDS_WHITELIST; in_list|done|].
    injection Hget as <-. rewrite Hm, Hempty; [done|].
    intros c [->|[->|[]%elem_of_nil]%elem_of_cons]%elem_of_cons; reflexivity.
  - apply (Habs (WSub "host_status_counts"
                   [WLeaf "skipped"; WLeaf "ok"; WLeaf "changed"; WLeaf "failures";
                    WLeaf "dark"])); [unfold JOB_FIELDS_WHITELIST; in_list|done].
Defined.

(** ** The message merge *)

Section merge.
Implicit Types (o n : dict) (event : string).

Lemma merge_msg_type_dict (old_event new_event : dict) (msg_type : string) :
  merge_msg_type (VDict old_event) (VDict new_event) msg_type =
  Ok (VDict (merged_fields old_event new_event msg_type)).
Proof.
  unfold merge_msg_type, merged_fields; simpl. unfold dict_has.
  destruct (dict_lookup msg_type new_event); simpl; [done|].
  destruct (dict_lookup msg_type old_event) as [v|]; simpl; [|done].
  by destruct (truthy v).
Qed.

Lemma merge_event_dict o n event :
  event_ok o event = true → event_ok n event = true →
  merge_event (VDict o) (VDict n) event =
  Ok (VDict (dict_set event
               (merged_value (dict_lookup event o) (dict_lookup event n)) n)).
Proof.
  unfold event_ok, merge_event, merged_value. simpl.
  destruct (dict_lookup event o) as [ov|] eqn:Eo,
           (dict_lookup event n) as [nv|] eqn:En; simpl.
  all: try destruct ov as [| | | | |oe]; try destruct nv as [| | | | |ne];
    try done; intros _ _; simpl.
  all: try destruct oe as [|oitem oe]; try destruct ne as [|nitem ne]; simpl.
  all: rewrite ?Eo, ?En; simpl.
  all: rewrite ?merge_msg_type_dict; simpl; rewrite ?merge_msg_type_dict; simpl.
  all: unfold dict_setdefault, dict_has; rewrite ?dict_lookup_set_eq, ?Eo, ?En.
  all: try done.
  all: by rewrite dict_set_same.
Qed.

Lemma merge_msg_type_Ok (old_event_msgs new_event_msgs : value) msg_type x :
  merge_msg_type old_event_msgs new_event_msgs msg_type = Ok x →
  match new_event_msgs, old_event_msgs with
  | VDict new_event, VDict old_event =>
      x = VDict (merged_fields old_event new_event msg_type)
  | _, _ => x = new_event_msgs
  end.
Proof.
  destruct new_event_msgs as [| | |s|l|ne], old_event_msgs as [| | | | |oe].
  all: try (by rewrite merge_msg_type_dict; intros [= <-]).
  all: unfold merge_msg_type, py_and; simpl; intros H.
  all: repeat (case_match; simplify_eq/=); done.
Qed.

(** Whenever one turn of the merge returns, the event kind holds its merged
    value. *)
Lemma merge_event_Ok o n event r :
  merge_event (VDict o) (VDict n) event = Ok r →
  r = VDict (dict_set event
               (merged_value (dict_lookup event o) (dict_lookup event n)) n).
Proof.
  unfold merge_event, merged_value. simpl.
  destruct (dict_lookup event o) as [ov|] eqn:Eo,
           (dict_lookup event n) as [nv|] eqn:En; simpl.
  all: try destruct (truthy nv) eqn:Env; try destruct (truthy ov) eqn:Eov; simpl.
  all: rewrite ?Eo, ?En; simpl.
  all: unfold dict_setdefault, dict_has; rewrite ?dict_lookup_set_eq, ?Eo, ?En.
  all: try (by intros [= <-]).
  all: try (intros [= <-]; by rewrite dict_set_same).
  intros (nm & Hnm & Hsd)%bind_Ok.
  apply bind_Ok in Hnm as (nem & Hfold & [= <-]).
  apply bind_Ok in Hfold as (x1 & H1 & Hfold).
  apply bind_Ok in Hfold as (x2 & H2 & [= <-]).
  simpl in Hsd. unfold dict_setdefault, dict_has in Hsd.
  rewrite dict_lookup_set_eq in Hsd. injection Hsd as <-.
  apply merge_msg_type_Ok in H1. apply merge_msg_type_Ok in H2.
  destruct nv as [| | | | |ne], ov as [| | | | |oe]; by subst.
Qed.

Lemma event_ok_set o event event' v :
  event' ≠ event → event_ok (dict_set event v o) event' = event_ok o event'.
Proof. intros. unfold event_ok. by rewrite dict_lookup_set_ne. Qed.

(** On well-formed mappings the merge returns. *)
Lemma merge_messages_dict o n :
  wf_messages o = true → wf_messages n = true →
  merge_messages (VDict o) (VDict n) = Ok (VDict (merged_messages o n)).
Proof.
  unfold wf_messages, merge_messages, merged_messages, EVENTS. simpl.
  rewrite !andb_true_iff. intros (Ho1 & Ho2 & Ho3 & _) (Hn1 & Hn2 & Hn3 & _).
  rewrite merge_event_dict by done. simpl.
  rewrite merge_event_dict by (by rewrite ?event_ok_set). simpl.
  rewrite merge_event_dict by (by rewrite ?event_ok_set). simpl.
  rewrite !(dict_lookup_set_ne "success" "started") by done.
  rewrite !(dict_lookup_set_ne "error" "success") by done.
  by rewrite !(dict_lookup_set_ne "error" "started") by done.
Qed.

(** Whenever the merge of two mappings returns, it returns this. *)
Lemma merge_messages_Ok o n r :
  merge_messages (VDict o) (VDict n) = Ok r → r = VDict (merged_messages o n).
Proof.
  unfold merge_messages, merged_messages, EVENTS. simpl.
  intros (r1 & H1 & H)%bind_Ok. apply merge_event_Ok in H1 as ->.
  apply bind_Ok in H as (r2 & H2 & H). apply merge_event_Ok in H2 as ->.
  apply bind_Ok in H as (r3 & H3 & [= <-]). apply merge_event_Ok in H3 as ->.
  rewrite !(dict_lookup_set_ne "success" "started") by done.
  rewrite !(dict_lookup_set_ne "error" "success") by done.
  by rewrite !(dict_lookup_set_ne "error" "started") by done.
Qed.

Lemma merged_messages_event o n event :
  event ∈ EVENTS →
  dict_lookup event (merged_messages o n) =
  Some (merged_value (dict_lookup event o) (dict_lookup event n)).
Proof.
  intros Hin. unfold merged_messages. rewrite !dict_lookup_set.
  repeat case_bool_decide; simplify_eq; try done.
  exfalso. unfold EVENTS in Hin. by decompose_list_elem_of.
Qed.

Lemma merged_messages_other o n k :
  k ∉ EVENTS → dict_lookup k (merged_messages o n) = dict_lookup k n.
Proof.
  intros Hk. unfold merged_messages. rewrite !dict_lookup_set.
  repeat case_bool_decide; simplify_eq; try done.
  all: exfalso; apply Hk; unfold EVENTS; in_list.
Qed.

Lemma merged_fields_same (d : dict) (msg_type : string) :
  merged_fields d d msg_type = d.
Proof. unfold merged_fields. by destruct (dict_lookup msg_type d). Qed.

(** Merging an item with itself gives the item. *)
Lemma merged_value_same (v : value) : merged_value (Some v) (Some v) = v.
Proof.
  unfold merged_value. simpl. destruct (truthy v) eqn:E; [|done].
  destruct v as [| | | | |d]; try done. by rewrite !merged_fields_same.
Qed.

(** Merging a mapping that has the three event kinds with itself gives the
    mapping. *)
Lemma merged_messages_same (m : dict) :
  has_all_events m = true → merged_messages m m = m.
Proof.
  unfold has_all_events, EVENTS. simpl. rewrite !andb_true_iff.
  intros ([v1 H1]%dict_has_true & [v2 H2]%dict_has_true & [v3 H3]%dict_has_true & _).
  unfold merged_messages. rewrite H1, H2, H3, !merged_value_same.
  rewrite (dict_set_same "started") by done.
  rewrite (dict_set_same "success") by done.
  by rewrite (dict_set_same "error") by done.
Qed.

Lemma merged_fields_lookup (old_event new_event : dict) (msg_type t : string) :
  dict_lookup t (merged_fields old_event new_event msg_type) =
  if bool_decide (t = msg_type)
  then match dict_lookup t new_event, dict_lookup t old_event with
       | None, Some v => if truthy v then Some v else None
       | x, _ => x
       end
  else dict_lookup t new_event.
Proof.
  unfold merged_fields. case_bool_decide as E.
  - subst t. destruct (dict_lookup msg_type new_event) eqn:En; [done|].
    destruct (dict_lookup msg_type old_event) as [v|]; [|done].
    destruct (truthy v); [|done]. by rewrite dict_lookup_set_eq.
  - destruct (dict_lookup msg_type new_event); [done|].
    destruct (dict_lookup msg_type old_event) as [v|]; [|done].
    destruct (truthy v); [|done]. by rewrite dict_lookup_set_ne.
Qed.

(** A stored sub-field that is non-empty and that the incoming item does not
    supply is in the merged item. *)
Lemma merged_value_keeps (old_event : dict) (new : option value) (msg_type : string) v :
  msg_type ∈ ["message"; "body"] →
  dict_lookup msg_type old_event = Some v → truthy v = true →
  lacks_sub_field new msg_type = true →
  ∃ d, merged_value (Some (VDict old_event)) new = VDict d ∧
       dict_lookup msg_type d = Some v.
Proof.
  intros Ht Hold Hv Hlacks. unfold merged_value. simpl.
  destruct old_event as [|oitem old_event]; [done|].
  set (oe := oitem :: old_event) in *.
  destruct new as [nv|]; simpl; [|by eexists].
  unfold lacks_sub_field in Hlacks.
  destruct (truthy nv) eqn:Env.
  2:{ exists oe. split; [done|]. done. }
  destruct nv as [| | | | |ne]; try done.
  apply negb_true_iff, dict_has_false in Hlacks.
  eexists. split; [done|]. simpl.
  rewrite !merged_fields_lookup.
  apply elem_of_cons in Ht as [->|Ht]; [|apply list_elem_of_singleton in Ht as ->].
  all: repeat first [rewrite bool_decide_eq_true_2 by done
                    |rewrite bool_decide_eq_false_2 by done].
  all: by rewrite Hlacks, Hold, Hv.
Qed.

(** A kind that neither side supplies is null. *)
Lemma merged_value_null (old : option value) :
  truthy (default (VDict []) old) = false → merged_value old None = VNone.
Proof. unfold merged_value. simpl. by intros ->. Qed.

End merge.

(** ** The credential fields in [save] *)

Arguments startswith : simpl never.

Section credentials.
Context {backend : Backend} {vault : Vault}.
Implicit Types (self : NotificationTemplate) (uf : list string) (f : string).

Lemma password_fields_NoDup : NoDup password_fields.
Proof.
  unfold password_fields. pose proof init_parameters_keys as Hnd.
  induction init_parameters as [|[k p] l IH]; [constructor|].
  rewrite fmap_cons in Hnd. apply NoDup_cons in Hnd as [Hk Hnd].
  rewrite filter_cons. case_decide; [|by apply IH].
  rewrite fmap_cons. apply NoDup_cons. split; [|by apply IH].
  intros (x & Hx1 & Hx2%list_elem_of_filter)%list_elem_of_fmap. apply Hk.
  rewrite Hx1. apply list_elem_of_fmap_2. by destruct Hx2.
Qed.

Lemma mark_configuration_elem uf : CONFIG ∈ mark_configuration uf.
Proof.
  unfold mark_configuration. case_bool_decide; [done|].
  apply elem_of_app. right. by left.
Qed.

Lemma mark_configuration_idem uf :
  mark_configuration (mark_configuration uf) = mark_configuration uf.
Proof.
  unfold mark_configuration at 1.
  by rewrite bool_decide_eq_true_2 by apply mark_configuration_elem.
Qed.

Lemma config_ready_elem self f :
  config_ready self = true → f ∈ password_fields →
  ∃ s, dict_lookup f (notification_configuration self) = Some (VStr s).
Proof.
  unfold config_ready. rewrite forallb_forall. intros H Hf.
  specialize (H f (proj1 (list_elem_of_In _ _) Hf)).
  destruct (dict_lookup f _) as [[]|]; naive_solver.
Qed.

Lemma config_ready_intro self :
  (∀ f, f ∈ password_fields →
     ∃ s, dict_lookup f (notification_configuration self) = Some (VStr s)) →
  config_ready self = true.
Proof.
  intros H. unfold config_ready. apply forallb_forall. intros f Hf.
  destruct (H f (proj2 (list_elem_of_In _ _) Hf)) as [s ->]. done.
Qed.

(** One turn of the loop on an existing record. *)
Lemma save_field_update self uf f s :
  dict_lookup f (notification_configuration self) = Some (VStr s) →
  save_field false (self, uf) f =
  Ok (if startswith ENCRYPTED s then (self, uf)
      else (set_configuration
              (dict_set f (encrypt_field self CONFIG f) (notification_configuration self))
              self,
            mark_configuration uf)).
Proof.
  intros H. unfold save_field. simpl. rewrite H. simpl.
  by destruct (startswith ENCRYPTED s).
Qed.

(** The loop on an existing record: a field that carries the marker keeps its
    value; any other gets what [encrypt_field] returns for it on an instance
    with the same key in which the field still has its incoming value, and
    the configuration is then among the fields to write. *)
Lemma save_fields_update (fields : list string) : NoDup fields → ∀ self uf,
  (∀ f, f ∈ fields → ∃ s, dict_lookup f (notification_configuration self) = Some (VStr s)) →
  ∃ self' uf',
    foldM (save_field false) (self, uf) fields = Ok (self', uf') ∧
    pk self' = pk self ∧ messages self' = messages self ∧
    saved_config self' = saved_config self ∧
    (∀ k, k ∉ fields →
       dict_lookup k (notification_configuration self') =
       dict_lookup k (notification_configuration self)) ∧
    (∀ f s, f ∈ fields →
       dict_lookup f (notification_configuration self) = Some (VStr s) →
       if startswith ENCRYPTED s
       then dict_lookup f (notification_configuration self') = Some (VStr s)
       else CONFIG ∈ uf' ∧
            ∃ self_f, pk self_f = pk self ∧
              dict_lookup f (notification_configuration self_f) = Some (VStr s) ∧
              dict_lookup f (notification_configuration self') =
              Some (encrypt_field self_f CONFIG f)) ∧
    (uf' = uf ∨ uf' = mark_configuration uf) ∧
    ((∀ f s, f ∈ fields →
        dict_lookup f (notification_configuration self) = Some (VStr s) →
        startswith ENCRYPTED s = true) →
     self' = self ∧ uf' = uf).
Proof.
  induction 1 as [|f0 fields Hf0 Hnd IH]; intros self uf Hready.
  { exists self, uf. simpl. repeat split; try done; try (by left).
    intros f s Hf. by apply elem_of_nil in Hf. }
  destruct (Hready f0) as [s0 Hs0]; [by left|].
  rewrite foldM_cons, (save_field_update _ _ _ _ Hs0). cbn [bind].
  set (step := if startswith ENCRYPTED s0 then (self, uf) else _).
  assert (pk step.1 = pk self ∧ messages step.1 = messages self ∧
          saved_config step.1 = saved_config self ∧
          (∀ k, k ≠ f0 → dict_lookup k (notification_configuration step.1) =
                         dict_lookup k (notification_configuration self)))
    as (Hpk1 & Hm1 & Hs1 & Hframe1).
  { subst step. destruct (startswith ENCRYPTED s0); simpl; repeat split; try done.
    intros k Hk. by rewrite dict_lookup_set_ne. }
  destruct (IH step.1 step.2) as (self' & uf' & Hfold & Hpk & Hm & Hs & Hframe & Hfields & Huf & Hsame).
  { intros f Hf. rewrite Hframe1; [apply Hready; by right|]. by intros ->. }
  exists self', uf'. split; [by rewrite (surjective_pairing step)|].
  split; [congruence|]. split; [congruence|]. split; [congruence|].
  split; [|split; [|split]].
  - intros k [Hk1 Hk2]%not_elem_of_cons. by rewrite Hframe, Hframe1.
  - intros f s [->|Hf]%elem_of_cons Hfs.
    + rewrite Hs0 in Hfs. injection Hfs as <-. rewrite (Hframe f0 Hf0).
      subst step. destruct (startswith ENCRYPTED s0); simpl in *; [done|].
      split.
      * destruct Huf as [->| ->]; [|rewrite mark_configuration_idem];
          apply mark_configuration_elem.
      * exists self. by rewrite dict_lookup_set_eq.
    + assert (f ≠ f0) as Hne by (by intros ->).
      specialize (Hfields f s Hf). rewrite Hframe1 in Hfields by done.
      specialize (Hfields Hfs). destruct (startswith ENCRYPTED s); [done|].
      destruct Hfields as (Hc & self_f & Hpkf & Hrest). split; [done|].
      exists self_f. split; [congruence|done].
  - subst step. destruct (startswith ENCRYPTED s0); simpl in *; [done|].
    right. destruct Huf as [->| ->]; [done|apply mark_configuration_idem].
  - intros Hall. assert (startswith ENCRYPTED s0 = true) as Hm0.
    { apply (Hall f0); [by left|done]. }
    subst step. rewrite Hm0 in *. simpl in *. apply Hsame.
    intros f s Hf. apply Hall. by right.
Qed.

Lemma save_unfold fuel kwargs self st :
  save (S fuel) kwargs self st =
  let new_instance := negb (bool_pk (pk self)) in
  match preserve_messages new_instance self st with
  | Err e => (Err e, st)
  | Ok self1 =>
      match foldM (save_field new_instance) (self1, default [] kwargs)
                  password_fields with
      | Err e => (Err e, st)
      | Ok (self2, update_fields') =>
          match Model_save ((λ _, update_fields') <$> kwargs) self2 st with
          | (Err e, st') => (Err e, st')
          | (Ok self3, st') =>
              if new_instance then
                let '(self4, update_fields'') :=
                  fold_left restore_field password_fields (self3, []) in
                save fuel (Some update_fields'') self4 st'
              else (Ok self3, st')
          end
      end
  end.
Proof. done. Qed.

(** The merge leaves the key and the configuration alone, and on an existing
    record it has found the stored row. *)
Lemma preserve_messages_frame new_instance self st self1 :
  preserve_messages new_instance self st = Ok self1 →
  pk self1 = pk self ∧
  notification_configuration self1 = notification_configuration self ∧
  saved_config self1 = saved_config self ∧
  (new_instance = false → ∃ id r, pk self = Some id ∧ rows st !! id = Some r).
Proof.
  unfold preserve_messages. destruct new_instance; [by intros [= <-]|].
  destruct (objects_get st (pk self)) as [old|] eqn:Eget; simpl; [|done].
  assert (∃ id r, pk self = Some id ∧ rows st !! id = Some r) as Hrow.
  { unfold objects_get in Eget. destruct (pk self) as [id|]; [|done].
    destruct (rows st !! id) as [r|] eqn:Er; [|done]. by exists id, r. }
  destruct (_ && _).
  - destruct (merge_messages _ _); simpl; [|done]. by intros [= <-].
  - by intros [= <-].
Qed.

(** [Model.save] on a record that has a row. *)
Lemma Model_save_existing kwargs self st id r :
  pk self = Some id → rows st !! id = Some r →
  Model_save kwargs self st =
  (Ok self,
   match kwargs with
   | Some [] => st
   | _ => write_row id
            (mkRow (if writes kwargs CONFIG
                    then notification_configuration self else row_configuration r)
                   (if writes kwargs "messages"
                    then messages self else row_messages r)) st
   end).
Proof.
  intros Hpk Hr. unfold Model_save, writes, row_of. rewrite Hpk, Hr.
  by destruct kwargs as [[|]|].
Qed.

(** [save] on an existing record, when the merge of the messages does not
    raise and the password fields hold strings: the loop over the password
    fields, then one call of [Model.save]. *)
Lemma save_update fuel kwargs self st self1 :
  bool_pk (pk self) = true →
  preserve_messages false self st = Ok self1 →
  config_ready self = true →
  ∃ self' uf' id r,
    foldM (save_field false) (self1, default [] kwargs) password_fields =
      Ok (self', uf') ∧
    pk self = Some id ∧ rows st !! id = Some r ∧ pk self' = Some id ∧
    messages self' = messages self1 ∧
    (uf' = default [] kwargs ∨ uf' = mark_configuration (default [] kwargs)) ∧
    save (S fuel) kwargs self st =
      Model_save ((λ _, uf') <$> kwargs) self' st.
Proof.
  intros Hpk Hpres Hready.
  destruct (preserve_messages_frame _ _ _ _ Hpres) as (Hpk1 & Hcfg1 & _ & Hrow).
  destruct (Hrow eq_refl) as (id & r & Hid & Hr).
  destruct (save_fields_update password_fields password_fields_NoDup self1
              (default [] kwargs))
    as (self' & uf' & Hfold & Hpk' & Hmsg & _ & _ & _ & Huf & _).
  { intros f Hf. rewrite Hcfg1. by apply config_ready_elem. }
  exists self', uf', id, r. split; [done|]. split; [done|]. split; [done|].
  split; [congruence|]. split; [done|]. split; [done|].
  rewrite save_unfold. cbv zeta. rewrite Hpk. cbn [negb]. rewrite Hpres, Hfold.
  rewrite (Model_save_existing _ self' st id r) by congruence. done.
Qed.

(** A turn of the first loop that returns has found a string. *)
Lemma save_field_Ok new_instance self uf f acc :
  save_field new_instance (self, uf) f = Ok acc →
  ∃ s, dict_lookup f (notification_configuration self) = Some (VStr s).
Proof.
  unfold save_field. simpl.
  destruct (dict_lookup f (notification_configuration self)) as [[| | |s| |]|];
    simpl; try done. eauto.
Qed.

Lemma save_fields_ready new_instance (fields : list string) :
  NoDup fields → ∀ self uf acc,
  foldM (save_field new_instance) (self, uf) fields = Ok acc →
  ∀ f, f ∈ fields →
    ∃ s, dict_lookup f (notification_configuration self) = Some (VStr s).
Proof.
  induction 1 as [|f0 fields Hf0 Hnd IH]; intros self uf acc Hfold f Hf.
  { by apply elem_of_nil in Hf. }
  rewrite foldM_cons in Hfold. apply bind_Ok in Hfold as ([self1 uf1] & Hstep & Hrest).
  destruct (save_field_Ok _ _ _ _ _ Hstep) as [s0 Hs0].
  apply elem_of_cons in Hf as [->|Hf]; [eauto|].
  assert (f ≠ f0) as Hne by (by intros ->).
  destruct (IH self1 uf1 acc Hrest f Hf) as [s Hs]. exists s. rewrite <- Hs.
  unfold save_field in Hstep. simpl in Hstep. rewrite Hs0 in Hstep. simpl in Hstep.
  destruct (startswith ENCRYPTED s0), new_instance; simplify_eq/=; try done.
  all: by rewrite dict_lookup_set_ne.
Qed.

(** When [save] returns on an existing record, the merge has returned and
    the password fields held strings. *)
Lemma save_update_inv fuel kwargs self st self' st' :
  bool_pk (pk self) = true →
  save (S fuel) kwargs self st = (Ok self', st') →
  (∃ self1, preserve_messages false self st = Ok self1) ∧
  config_ready self = true.
Proof.
  intros Hpk. rewrite save_unfold. cbv zeta. rewrite Hpk. cbn [negb].
  destruct (preserve_messages false self st) as [self1|] eqn:Hp; [|done].
  destruct (foldM _ _ password_fields) as [acc|] eqn:Hfold; [|done].
  intros _. split; [by exists self1|].
  apply config_ready_intro. intros f Hf.
  destruct (preserve_messages_frame _ _ _ _ Hp) as (_ & <- & _).
  by eapply (save_fields_ready false password_fields password_fields_NoDup).
Qed.

Lemma writes_mark kwargs uf' column :
  column ≠ CONFIG →
  uf' = default [] kwargs ∨ uf' = mark_configuration (default [] kwargs) →
  writes ((λ _, uf') <$> kwargs) column = writes kwargs column.
Proof.
  intros Hc Huf. destruct kwargs as [l|]; simpl in *; [|done].
  destruct Huf as [->| ->]; [done|]. unfold mark_configuration.
  destruct (bool_decide (CONFIG ∈ l)); [done|]. apply bool_decide_ext.
  rewrite elem_of_app, list_elem_of_singleton. naive_solver.
Qed.

(** [save] on an existing record and the messages: the instance ends with
    the outcome of the merge, and the row holds it when [Model.save] wrote
    the column, the stored messages otherwise. *)
Lemma save_update_messages fuel kwargs self st self1 :
  bool_pk (pk self) = true →
  preserve_messages false self st = Ok self1 →
  config_ready self = true →
  ∃ self' st' id r r',
    save (S fuel) kwargs self st = (Ok self', st') ∧
    pk self = Some id ∧ rows st !! id = Some r ∧ rows st' !! id = Some r' ∧
    messages self' = messages self1 ∧
    (row_messages r' = messages self1 ∨ row_messages r' = row_messages r) ∧
    (writes kwargs "messages" = true → row_messages r' = messages self1).
Proof.
  intros Hpk Hpres Hready.
  destruct (save_update fuel kwargs self st self1 Hpk Hpres Hready)
    as (self' & uf' & id & r & _ & Hid & Hr & Hid' & Hmsg & Huf & Hsave).
  rewrite (Model_save_existing _ self' st id r Hid' Hr) in Hsave.
  rewrite (writes_mark kwargs uf' "messages") in Hsave by done.
  destruct ((λ _, uf') <$> kwargs) as [[|c l]|] eqn:Ekw.
  - exists self', st, id, r, r. repeat (split; [done|]). split; [by right|].
    destruct kwargs as [l|]; [|done]. simpl in Ekw. injection Ekw as ->.
    destruct Huf as [Hl|Hl].
    + simpl in Hl. subst l. intros Hw.
      by apply bool_decide_eq_true, elem_of_nil in Hw.
    + exfalso. pose proof (mark_configuration_elem (default [] (Some l))) as Hin.
      rewrite <- Hl in Hin. by apply elem_of_nil in Hin.
  - eexists self', _, id, r, _. split; [exact Hsave|]. repeat (split; [done|]).
    split; [apply lookup_insert_eq|]. split; [done|]. simpl.
    rewrite Hmsg. destruct (writes kwargs "messages"); [by split; [left|]|].
    by split; [right|].
  - eexists self', _, id, r, _. split; [exact Hsave|]. repeat (split; [done|]).
    split; [apply lookup_insert_eq|]. split; [done|]. simpl.
    rewrite Hmsg. destruct (writes kwargs "messages"); [by split; [left|]|].
    by split; [right|].
Qed.

End credentials.

Section save_existing.
Context {backend : Backend} {vault : Vault}.

(** C4.  [save] on an existing record whose password fields hold strings
    (and whose messages merge): a password field that does not start with
    the marker ends with what [encrypt_field] returns for it, called on an
    instance with the same key in which the field still holds the incoming
    value, and the row then written holds that configuration; a password
    field that starts with the marker keeps its value; no other key of the
    configuration changes.  When every password field carries the marker the
    configuration after the call is the one before. *)
Theorem save_update_encrypts (fuel : nat) (kwargs : option (list string))
    (self : NotificationTemplate) (st : store) :
  bool_pk (pk self) = true →
  is_ok (preserve_messages false self st) = true →
  config_ready self = true →
  ∃ self' st',
    save (S fuel) kwargs self st = (Ok self', st') ∧
    pk self' = pk self ∧
    (∀ f s, f ∈ password_fields →
       dict_lookup f (notification_configuration self) = Some (VStr s) →
       if startswith ENCRYPTED s
       then dict_lookup f (notification_configuration self') = Some (VStr s)
       else (∃ self_f, pk self_f = pk self ∧
               dict_lookup f (notification_configuration self_f) = Some (VStr s) ∧
               dict_lookup f (notification_configuration self') =
               Some (encrypt_field self_f CONFIG f)) ∧
            persisted_configuration self' st') ∧
    (∀ k, k ∉ password_fields →
       dict_lookup k (notification_configuration self') =
       dict_lookup k (notification_configuration self)) ∧
    (kwargs = None → persisted_configuration self' st') ∧
    ((∀ f s, f ∈ password_fields →
        dict_lookup f (notification_configuration self) = Some (VStr s) →
        startswith ENCRYPTED s = true) →
     notification_configuration self' = notification_configuration self).
Proof.
  intros Hpk Hpres Hready.
  destruct (preserve_messages false self st) as [self1|] eqn:Hp; [clear Hpres|done].
  destruct (preserve_messages_frame _ _ _ _ Hp) as (Hpk1 & Hcfg1 & _ & _).
  destruct (save_update fuel kwargs self st self1 Hpk Hp Hready)
    as (self' & uf' & id & r & Hfold & Hid & Hr & Hid' & _ & _ & Hsave).
  destruct (save_fields_update password_fields password_fields_NoDup self1
              (default [] kwargs))
    as (self'' & uf'' & Hfold' & _ & _ & _ & Hframe & Hfields & _ & Hsame).
  { intros f Hf. rewrite Hcfg1. by apply config_ready_elem. }
  rewrite Hfold in Hfold'. injection Hfold' as <- <-.
  rewrite (Model_save_existing _ self' st id r Hid' Hr) in Hsave.
  eexists self', _. split; [exact Hsave|]. split; [congruence|].
  assert (∀ kw', (kw' = None ∨ ∃ l, kw' = Some l ∧ CONFIG ∈ l) →
            persisted_configuration self'
              match kw' with
              | Some [] => st
              | _ => write_row id
                       (mkRow (if writes kw' CONFIG
                               then notification_configuration self'
                               else row_configuration r)
                              (if writes kw' "messages"
                               then messages self' else row_messages r)) st
              end) as Hpersist.
  { intros kw' Hkw. assert (writes kw' CONFIG = true) as Hw.
    { destruct Hkw as [->|(l & -> & Hl)]; [done|]. by apply bool_decide_eq_true. }
    assert (kw' ≠ Some []) as Hne.
    { destruct Hkw as [->|(l & -> & Hl)]; [done|]. intros [= ->].
      by apply elem_of_nil in Hl. }
    rewrite Hw. unfold persisted_configuration.
    destruct kw' as [[|]|]; try done.
    all: eexists id, _; split; [done|]; split; [apply lookup_insert_eq|done]. }
  split; [|split; [|split]].
  - intros f s Hf Hfs. specialize (Hfields f s Hf). rewrite Hcfg1 in Hfields.
    specialize (Hfields Hfs). destruct (startswith ENCRYPTED s); [done|].
    destruct Hfields as (Hc & self_f & Hpkf & Hrest). split.
    + exists self_f. split; [congruence|done].
    + apply Hpersist. destruct kwargs as [l|]; simpl; [right|by left].
      by exists uf'.
  - intros k Hk. by rewrite Hframe, Hcfg1.
  - intros ->. apply Hpersist. by left.
  - intros Hall. destruct Hsame as [-> _]; [|done].
    intros f s Hf. rewrite Hcfg1. by apply Hall.
Qed.

End save_existing.

Lemma save_update_encrypts_witness :
  bool_pk (pk template_1_edited) = true ∧
  is_ok (preserve_messages false template_1_edited store_1) = true ∧
  config_ready template_1_edited = true ∧
  ∃ self' st',
    save 1 None template_1_edited store_1 = (Ok self', st') ∧
    dict_lookup "password" (notification_configuration self') =
      Some (VStr "$encrypted$hunter3") ∧
    persisted_configuration self' st'.
Proof.
  split; [reflexivity|]. split; [by vm_compute|]. split; [reflexivity|].
  destruct (save_update_encrypts 0 None template_1_edited store_1
              eq_refl ltac:(by vm_compute) eq_refl)
    as (self' & st' & Hsave & _ & Hfields & _ & Hpersist & _).
  exists self', st'. split; [done|]. split; [|by apply Hpersist].
  destruct (Hfields "password" "hunter3" ltac:(compute_done) eq_refl)
    as [(self_f & _ & Hf & ->) _].
  simpl. unfold plain. by rewrite Hf.
Defined.

(** ** The messages in [save] *)

Section save_messages.
Context {backend : Backend} {vault : Vault}.

(** The merge on an existing record whose stored and incoming messages are
    mappings: what it returns when it returns, and that it returns on
    well-formed mappings. *)
Lemma preserve_messages_Ok self st id r (old new : dict) self1 :
  pk self = Some id → rows st !! id = Some r →
  row_messages r = VDict old → messages self = VDict new →
  preserve_messages false self st = Ok self1 →
  self1 = set_messages (VDict (merged_messages old new)) self.
Proof.
  intros Hid Hr Hold Hnew. unfold preserve_messages, objects_get.
  rewrite Hid, Hr. simpl. rewrite Hold, Hnew. simpl.
  intros (m & Hm & [= <-])%bind_Ok. by apply merge_messages_Ok in Hm as ->.
Qed.

Lemma preserve_messages_dicts self st id r (old new : dict) :
  pk self = Some id → rows st !! id = Some r →
  row_messages r = VDict old → messages self = VDict new →
  wf_messages old = true → wf_messages new = true →
  preserve_messages false self st =
  Ok (set_messages (VDict (merged_messages old new)) self).
Proof.
  intros Hid Hr Hold Hnew Hwo Hwn. unfold preserve_messages, objects_get.
  rewrite Hid, Hr. simpl. rewrite Hold, Hnew. simpl.
  by rewrite merge_messages_dict.
Qed.

Lemma bool_pk_Some id : id ≠ 0 → bool_pk (Some id) = true.
Proof. intros. simpl. apply negb_true_iff. by apply Z.eqb_neq. Qed.

(** [save] on an existing record with mappings for messages, stored and
    incoming: it returns when they are well-formed and the password fields
    hold strings, and whenever it returns the instance has the merged
    messages, and the row has them or the stored ones. *)
Lemma save_merges fuel kwargs self st id r (old new : dict) :
  pk self = Some id → id ≠ 0 → rows st !! id = Some r →
  row_messages r = VDict old → messages self = VDict new →
  (wf_messages old = true → wf_messages new = true → config_ready self = true →
   is_ok (save (S fuel) kwargs self st).1 = true) ∧
  (∀ self' st', save (S fuel) kwargs self st = (Ok self', st') →
     messages self' = VDict (merged_messages old new) ∧
     ∃ r', rows st' !! id = Some r' ∧
       (row_messages r' = VDict (merged_messages old new) ∨
        row_messages r' = VDict old) ∧
       (writes kwargs "messages" = true →
        row_messages r' = VDict (merged_messages old new))).
Proof.
  intros Hid Hne Hr Hold Hnew.
  assert (bool_pk (pk self) = true) as Hpk by (rewrite Hid; by apply bool_pk_Some).
  split.
  - intros Hwo Hwn Hready.
    pose proof (preserve_messages_dicts self st id r old new Hid Hr Hold Hnew Hwo Hwn)
      as Hp.
    destruct (save_update_messages fuel kwargs self st _ Hpk Hp Hready)
      as (self' & st' & _ & _ & _ & -> & _). done.
  - intros self' st' Hsave.
    destruct (save_update_inv fuel kwargs self st self' st' Hpk Hsave)
      as [[self1 Hp] Hready].
    pose proof (preserve_messages_Ok self st id r old new self1 Hid Hr Hold Hnew Hp)
      as ->.
    destruct (save_update_messages fuel kwargs self st _ Hpk Hp Hready)
      as (self'' & st'' & id' & r0 & r' & Hsave' & Hid' & Hr0 & Hr' & Hmsg & Hrow & Hw).
    rewrite Hsave in Hsave'. injection Hsave' as <- <-.
    assert (id' = id) as -> by congruence.
    assert (r0 = r) as -> by congruence.
    split; [done|]. exists r'. split; [done|]. split; [|done].
    rewrite <- Hold. done.
Qed.

(** C6 (as amended).  On an update where the incoming messages are a copy of
    the stored ones, and these are a mapping that has all three event kinds
    as keys: whenever [save] returns, the messages are the stored ones, in
    the instance and in the row.  ([save] returns when, moreover, the
    messages are well-formed and the password fields hold strings.) *)
Theorem save_merge_identity (fuel : nat) (kwargs : option (list string))
    (self : NotificationTemplate) (st : store) (id : Z) (r : row) (m : dict) :
  pk self = Some id → id ≠ 0 → rows st !! id = Some r →
  row_messages r = VDict m → messages self = VDict m →
  has_all_events m = true →
  (wf_messages m = true → config_ready self = true →
   is_ok (save (S fuel) kwargs self st).1 = true) ∧
  (∀ self' st', save (S fuel) kwargs self st = (Ok self', st') →
     messages self' = VDict m ∧
     ∃ r', rows st' !! id = Some r' ∧ row_messages r' = VDict m).
Proof.
  intros Hid Hne Hr Hold Hnew Hall.
  destruct (save_merges fuel kwargs self st id r m m Hid Hne Hr Hold Hnew)
    as [Htotal Hpost].
  split; [by auto|].
  intros self' st' Hsave. destruct (Hpost self' st' Hsave) as (Hm & r' & Hr' & Hrow & _).
  rewrite (merged_messages_same m Hall) in Hm, Hrow.
  split; [done|]. exists r'. split; [done|]. by destruct Hrow.
Qed.

(** C7.  On an update of an existing record, let the stored messages have,
    for an event kind, a non-empty sub-field (['message'] or ['body']) that
    the incoming messages do not supply for that kind.  Whenever [save]
    returns, the messages of the instance and those of the row have that
    sub-field for that kind, with the stored value, which is not null.
    ([save] returns when, moreover, stored and incoming messages are
    well-formed and the password fields hold strings.) *)
Theorem save_keeps_stored_subfield (fuel : nat) (kwargs : option (list string))
    (self : NotificationTemplate) (st : store) (id : Z) (r : row)
    (old new old_event : dict) (event msg_type : string) (v : value) :
  pk self = Some id → id ≠ 0 → rows st !! id = Some r →
  row_messages r = VDict old → messages self = VDict new →
  event ∈ EVENTS → msg_type ∈ ["message"; "body"] →
  dict_lookup event old = Some (VDict old_event) →
  dict_lookup msg_type old_event = Some v → truthy v = true →
  lacks_sub_field (dict_lookup event new) msg_type = true →
  (wf_messages old = true → wf_messages new = true → config_ready self = true →
   is_ok (save (S fuel) kwargs self st).1 = true) ∧
  (∀ self' st', save (S fuel) kwargs self st = (Ok self', st') →
     ∃ r', rows st' !! id = Some r' ∧
       (∀ m, m = messages self' ∨ m = row_messages r' →
          ∃ merged d, m = VDict merged ∧
                      dict_lookup event merged = Some (VDict d) ∧
                      dict_lookup msg_type d = Some v) ∧
       v ≠ VNone).
Proof.
  intros Hid Hne Hr Hold Hnew Hev Hmt Hoe Hv Htruthy Hlacks.
  destruct (save_merges fuel kwargs self st id r old new Hid Hne Hr Hold Hnew)
    as [Htotal Hpost].
  split; [done|].
  intros self' st' Hsave. destruct (Hpost self' st' Hsave) as (Hm & r' & Hr' & Hrow & _).
  exists r'. split; [done|]. split; [|by destruct v].
  destruct (merged_value_keeps old_event (dict_lookup event new) msg_type v)
    as (d & Hd & Hlook); try done.
  assert (dict_lookup event (merged_messages old new) = Some (VDict d)) as Hmerged.
  { by rewrite merged_messages_event, Hoe, Hd. }
  intros m [->| ->].
  - rewrite Hm. by eexists _, d.
  - destruct Hrow as [->| ->]; [by eexists _, d|by exists old, old_event].
Qed.

(** C8 (as amended).  Whenever [save] returns on an existing record whose
    stored and incoming messages are both mappings, the messages of the
    instance have the three event kinds as keys, with null for a kind that
    is no key of the incoming messages and that the stored messages do not
    have or have empty; the row holds these messages when the column was
    written.  ([save] returns when, moreover, the messages are well-formed
    and the password fields hold strings.) *)
Theorem save_messages_have_all_events (fuel : nat) (kwargs : option (list string))
    (self : NotificationTemplate) (st : store) (id : Z) (r : row)
    (old new : dict) :
  pk self = Some id → id ≠ 0 → rows st !! id = Some r →
  row_messages r = VDict old → messages self = VDict new →
  (wf_messages old = true → wf_messages new = true → config_ready self = true →
   is_ok (save (S fuel) kwargs self st).1 = true) ∧
  (∀ self' st', save (S fuel) kwargs self st = (Ok self', st') →
     ∃ r' merged,
       messages self' = VDict merged ∧
       has_all_events merged = true ∧
       (∀ event, event ∈ EVENTS → dict_lookup event new = None →
          truthy (default (VDict []) (dict_lookup event old)) = false →
          dict_lookup event merged = Some VNone) ∧
       rows st' !! id = Some r' ∧
       (writes kwargs "messages" = true → row_messages r' = VDict merged)).
Proof.
  intros Hid Hne Hr Hold Hnew.
  destruct (save_merges fuel kwargs self st id r old new Hid Hne Hr Hold Hnew)
    as [Htotal Hpost].
  split; [done|].
  intros self' st' Hsave. destruct (Hpost self' st' Hsave) as (Hm & r' & Hr' & _ & Hw).
  exists r', (merged_messages old new). split; [done|].
  split; [|split; [|done]].
  - unfold has_all_events. apply forallb_forall. intros event Hin.
    apply dict_has_true. rewrite merged_messages_event by (by apply list_elem_of_In).
    eauto.
  - intros event Hin Hnone Hempty. rewrite (merged_messages_event _ _ _ Hin), Hnone.
    by rewrite merged_value_null.
Qed.

End save_messages.

(** C6, as stated, fails: stored and incoming messages are the same mapping
    with one event kind, and the messages after [save] have two more keys. *)
Lemma save_merge_adds_null_keys :
  rows store_3 !! 3 = Some (mkRow (notification_configuration template_3)
                                  (messages template_3)) ∧
  (save 1 None template_3 store_3).1 =
    Ok (set_messages
          (VDict [("started", VDict [("message", VStr "go")]);
                  ("success", VNone); ("error", VNone)])
          template_3) ∧
  VDict [("started", VDict [("message", VStr "go")]);
         ("success", VNone); ("error", VNone)] ≠ messages template_3.
Proof. split; [by vm_compute|]. split; [by vm_compute|done]. Qed.

(** C8, as stated, fails: with null stored in the row the merge is skipped,
    and the messages after [save], in the instance and in the row, have the
    one key that came in. *)
Lemma save_skips_merge_on_null :
  (save 1 None template_3 store_3_null).1 = Ok template_3 ∧
  row_messages <$> rows (save 1 None template_3 store_3_null).2 !! 3 =
    Some (messages template_3) ∧
  messages template_3 = VDict [("started", VDict [("message", VStr "go")])] ∧
  has_all_events [("started", VDict [("message", VStr "go")])] = false.
Proof. repeat split; by vm_compute. Qed.

Lemma save_merge_identity_witness :
  ∃ self' st' r',
    save 1 None template_1 store_1 = (Ok self', st') ∧
    messages self' = messages template_1 ∧
    rows st' !! 1 = Some r' ∧ row_messages r' = messages template_1.
Proof.
  destruct (save_merge_identity 0 None template_1 store_1 1
              (mkRow (notification_configuration template_1) (messages template_1))
              [("started", VNone); ("success", VNone);
               ("error", VDict [("message", VStr "{{ job.id }")])]
              eq_refl ltac:(done) ltac:(by vm_compute) eq_refl eq_refl eq_refl)
    as [Htotal Hpost].
  specialize (Htotal eq_refl eq_refl).
  destruct (save 1 None template_1 store_1) as [[self'|e] st'] eqn:E; [|done].
  destruct (Hpost self' st' eq_refl) as (Hm & r' & Hr' & Hrow).
  by exists self', st', r'.
Defined.

Lemma save_keeps_stored_subfield_witness :
  ∃ self' st' r',
    save 1 None template_5 store_5 = (Ok self', st') ∧
    rows st' !! 5 = Some r' ∧
    (∀ m, m = messages self' ∨ m = row_messages r' →
       ∃ merged d, m = VDict merged ∧
                   dict_lookup "started" merged = Some (VDict d) ∧
                   dict_lookup "message" d = Some (VStr "go")).
Proof.
  destruct (save_keeps_stored_subfield 0 None template_5 store_5 5
              (mkRow (notification_configuration template_5)
                     (VDict [("started", VDict [("message", VStr "go")]);
                             ("success", VNone); ("error", VNone)]))
              [("started", VDict [("message", VStr "go")]);
               ("success", VNone); ("error", VNone)]
              [("success", VDict [("body", VStr "done")])]
              [("message", VStr "go")] "started" "message" (VStr "go")
              eq_refl ltac:(done) ltac:(by vm_compute) eq_refl eq_refl
              ltac:(unfold EVENTS; in_list) ltac:(in_list)
              eq_refl eq_refl eq_refl eq_refl)
    as [Htotal Hpost].
  specialize (Htotal eq_refl eq_refl eq_refl).
  destruct (save 1 None template_5 store_5) as [[self'|e] st'] eqn:E; [|done].
  destruct (Hpost self' st' eq_refl) as (r' & Hr' & Hkept & _).
  by exists self', st', r'.
Defined.

Lemma save_messages_have_all_events_witness :
  ∃ self' st' r' merged,
    save 1 None template_3 store_3 = (Ok self', st') ∧
    messages self' = VDict merged ∧
    has_all_events merged = true ∧
    dict_lookup "success" merged = Some VNone ∧
    rows st' !! 3 = Some r' ∧ row_messages r' = VDict merged.
Proof.
  destruct (save_messages_have_all_events 0 None template_3 store_3 3
              (mkRow (notification_configuration template_3) (messages template_3))
              [("started", VDict [("message", VStr "go")])]
              [("started", VDict [("message", VStr "go")])]
              eq_refl ltac:(done) ltac:(by vm_compute) eq_refl eq_refl)
    as [Htotal Hpost].
  specialize (Htotal eq_refl eq_refl eq_refl).
  destruct (save 1 None template_3 store_3) as [[self'|e] st'] eqn:E; [|done].
  destruct (Hpost self' st' eq_refl) as (r' & merged & Hm & Hall & Hnull & Hr & Hrow).
  exists self', st', r', merged. repeat (split; [done|]).
  split; [|split; [done|by apply Hrow]].
  apply Hnull; [unfold EVENTS; in_list|done|done].
Defined.

(** ** A new record *)

Section save_new.
Context {backend : Backend} {vault : Vault}.
Implicit Types (self : NotificationTemplate) (uf : list string) (f : string).

(** One turn of the first loop on a new instance. *)
Lemma save_field_create self uf f s :
  dict_lookup f (notification_configuration self) = Some (VStr s) →
  save_field true (self, uf) f =
  Ok (if startswith ENCRYPTED s then (self, uf)
      else (set_configuration
              (dict_set f (VStr "") (notification_configuration self))
              (set_saved (dict_set f (VStr s) (saved_config self)) self),
            uf)).
Proof.
  intros H. unfold save_field. simpl. rewrite H. simpl.
  by destruct (startswith ENCRYPTED s).
Qed.

(** The first loop on a new instance: a field without the marker is set
    aside in its temporary attribute and blanked. *)
Lemma save_fields_create (fields : list string) : NoDup fields → ∀ self uf,
  (∀ f, f ∈ fields → ∃ s, dict_lookup f (notification_configuration self) = Some (VStr s)) →
  ∃ self',
    foldM (save_field true) (self, uf) fields = Ok (self', uf) ∧
    pk self' = pk self ∧ messages self' = messages self ∧
    (∀ k, k ∉ fields →
       dict_lookup k (notification_configuration self') =
         dict_lookup k (notification_configuration self) ∧
       dict_lookup k (saved_config self') = dict_lookup k (saved_config self)) ∧
    (∀ f s, f ∈ fields →
       dict_lookup f (notification_configuration self) = Some (VStr s) →
       if startswith ENCRYPTED s
       then dict_lookup f (notification_configuration self') = Some (VStr s) ∧
            dict_lookup f (saved_config self') = dict_lookup f (saved_config self)
       else dict_lookup f (notification_configuration self') = Some (VStr "") ∧
            dict_lookup f (saved_config self') = Some (VStr s)).
Proof.
  induction 1 as [|f0 fields Hf0 Hnd IH]; intros self uf Hready.
  { exists self. simpl. repeat split; try done.
    intros f s Hf. by apply elem_of_nil in Hf. }
  destruct (Hready f0) as [s0 Hs0]; [by left|].
  rewrite foldM_cons, (save_field_create _ _ _ _ Hs0). cbn [bind].
  set (step := if startswith ENCRYPTED s0 then (self, uf) else _).
  assert (step.2 = uf ∧ pk step.1 = pk self ∧ messages step.1 = messages self ∧
          (∀ k, k ≠ f0 →
             dict_lookup k (notification_configuration step.1) =
               dict_lookup k (notification_configuration self) ∧
             dict_lookup k (saved_config step.1) = dict_lookup k (saved_config self)))
    as (Huf1 & Hpk1 & Hm1 & Hframe1).
  { subst step. destruct (startswith ENCRYPTED s0); simpl; repeat split; try done.
    all: intros; by rewrite dict_lookup_set_ne. }
  destruct (IH step.1 uf) as (self' & Hfold & Hpk & Hm & Hframe & Hfields).
  { intros f Hf. assert (f ≠ f0) as Hne by (by intros ->).
    rewrite (proj1 (Hframe1 f Hne)). apply Hready. by right. }
  exists self'. split; [by rewrite (surjective_pairing step), Huf1|].
  split; [congruence|]. split; [congruence|]. split.
  - intros k [Hk1 Hk2]%not_elem_of_cons.
    destruct (Hframe k Hk2) as [-> ->]. by apply Hframe1.
  - intros f s [->|Hf]%elem_of_cons Hfs.
    + rewrite Hs0 in Hfs. injection Hfs as <-.
      destruct (Hframe f0 Hf0) as [-> ->].
      subst step. destruct (startswith ENCRYPTED s0); simpl; [done|].
      by rewrite !dict_lookup_set_eq.
    + assert (f ≠ f0) as Hne by (by intros ->).
      specialize (Hfields f s Hf). destruct (Hframe1 f Hne) as [Hc Hs].
      rewrite Hc, Hs in Hfields. by apply Hfields.
Qed.

(** The second loop on a new instance puts back what was set aside, and the
    empty string where nothing was. *)
Lemma restore_fields (fields : list string) : ∀ self uf,
  ∃ self' uf',
    fold_left restore_field fields (self, uf) = (self', uf') ∧
    pk self' = pk self ∧ messages self' = messages self ∧
    saved_config self' = saved_config self ∧
    (∀ k, k ∉ fields →
       dict_lookup k (notification_configuration self') =
       dict_lookup k (notification_configuration self)) ∧
    (∀ f, f ∈ fields →
       dict_lookup f (notification_configuration self') =
       Some (default (VStr "") (dict_lookup f (saved_config self)))) ∧
    (fields ≠ [] → uf' = mark_configuration uf).
Proof.
  induction fields as [|f0 fields IH]; intros self uf.
  { exists self, uf. repeat split; try done. intros f Hf. by apply elem_of_nil in Hf. }
  simpl.
  destruct (IH (set_configuration
                  (dict_set f0 (default (VStr "") (dict_lookup f0 (saved_config self)))
                            (notification_configuration self)) self)
               (mark_configuration uf))
    as (self' & uf' & Hfold & Hpk & Hm & Hs & Hframe & Hfields & Huf).
  exists self', uf'. split; [done|]. split; [done|]. split; [done|]. split; [done|].
  split; [|split].
  - intros k [Hk1 Hk2]%not_elem_of_cons. rewrite (Hframe k Hk2). simpl.
    by rewrite dict_lookup_set_ne.
  - intros f [->|Hf]%elem_of_cons; [|by apply Hfields].
    destruct (decide (f0 ∈ fields)) as [Hin|Hnin]; [by apply Hfields|].
    rewrite (Hframe f0 Hnin). simpl. by rewrite dict_lookup_set_eq.
  - intros _. destruct fields as [|f1 fields]; [by simplify_eq/=|].
    rewrite Huf by done. apply mark_configuration_idem.
Qed.

(** The merge of the messages with a stored copy of themselves does not
    raise when they are null or a well-formed mapping. *)
Lemma preserve_messages_copy self st id r :
  pk self = Some id → rows st !! id = Some r →
  row_messages r = messages self → messages_ok (messages self) = true →
  ∃ self1, preserve_messages false self st = Ok self1.
Proof.
  intros Hid Hr Hrow Hok. unfold preserve_messages, objects_get.
  rewrite Hid, Hr. simpl. rewrite Hrow.
  destruct (messages self) as [| | | | |m]; try done; simpl; [eauto|].
  rewrite merge_messages_dict by done. simpl. eauto.
Qed.

Lemma Model_save_new self st :
  pk self = None →
  Model_save None self st =
  (Ok (set_pk (Some (next_pk st)) self),
   mkStore (<[next_pk st := row_of self]> (rows st)) (next_pk st + 1)
           (journal st ++ [(next_pk st, row_of self)])).
Proof. intros H. unfold Model_save. by rewrite H. Qed.

(** When [save] returns on a new instance, the password fields held
    strings. *)
Lemma save_new_inv fuel kwargs self st self' st' :
  pk self = None →
  save (S fuel) kwargs self st = (Ok self', st') →
  config_ready self = true.
Proof.
  intros Hpk. rewrite save_unfold. cbv zeta. rewrite Hpk. simpl negb.
  change (preserve_messages true self st) with (Ok self). cbv iota beta.
  destruct (foldM _ _ password_fields) as [acc|] eqn:Hfold; [|done].
  intros _. apply config_ready_intro. intros f Hf.
  by eapply (save_fields_ready true password_fields password_fields_NoDup).
Qed.

(** The first pass on a new instance: the row written under the new key,
    and the call of [save] that follows, on the instance with the values
    put back. *)
Lemma save_new_first_pass fuel self st :
  pk self = None → config_ready self = true →
  ∃ self2 self4 uf4,
    save (S (S fuel)) None self st =
      save (S fuel) (Some uf4) self4
        (mkStore (<[next_pk st := row_of self2]> (rows st)) (next_pk st + 1)
                 (journal st ++ [(next_pk st, row_of self2)])) ∧
    pk self4 = Some (next_pk st) ∧
    messages self2 = messages self ∧ messages self4 = messages self ∧
    saved_config self4 = saved_config self2 ∧
    (∀ f, f ∈ password_fields →
       dict_lookup f (notification_configuration self4) =
       Some (default (VStr "") (dict_lookup f (saved_config self2)))) ∧
    (∀ f s, f ∈ password_fields →
       dict_lookup f (notification_configuration self) = Some (VStr s) →
       if startswith ENCRYPTED s
       then dict_lookup f (saved_config self2) = dict_lookup f (saved_config self)
       else dict_lookup f (notification_configuration self2) = Some (VStr "") ∧
            dict_lookup f (saved_config self2) = Some (VStr s)).
Proof.
  intros Hpk Hready.
  destruct (save_fields_create password_fields password_fields_NoDup self [])
    as (self2 & Hfold2 & Hpk2 & Hm2 & _ & Hfields2).
  { intros f' Hf'. by apply config_ready_elem. }
  rewrite Hpk in Hpk2.
  destruct (restore_fields password_fields (set_pk (Some (next_pk st)) self2) [])
    as (self4 & uf4 & Hfold4 & Hpk4 & Hm4 & Hs4 & _ & Hfields4 & _).
  simpl in Hpk4, Hm4, Hs4.
  exists self2, self4, uf4. split.
  { rewrite save_unfold. cbv zeta. rewrite Hpk. simpl negb.
    change (preserve_messages true self st) with (Ok self).
    change (default [] None) with (@nil string). cbv iota beta.
    rewrite Hfold2.
    change ((λ _ : list string, []) <$> None) with (@None (list string)).
    rewrite (Model_save_new self2 st Hpk2). by rewrite Hfold4. }
  split; [done|]. split; [done|]. split; [congruence|]. split; [done|].
  split; [done|].
  intros f s Hf Hfs. specialize (Hfields2 f s Hf Hfs).
  destruct (startswith ENCRYPTED s); [by destruct Hfields2|done].
Qed.

(** The second pass: [save] on the record that now exists encrypts a
    password field that holds a string without the marker, and writes the
    configuration. *)
Lemma save_update_field fuel uf self st self1 id r f s :
  pk self = Some id → id ≠ 0 → rows st !! id = Some r →
  preserve_messages false self st = Ok self1 →
  config_ready self = true →
  f ∈ password_fields →
  dict_lookup f (notification_configuration self) = Some (VStr s) →
  startswith ENCRYPTED s = false →
  ∃ self' r2 self_f,
    save (S fuel) (Some uf) self st = (Ok self', write_row id r2 st) ∧
    pk self' = Some id ∧ saved_config self' = saved_config self ∧
    pk self_f = Some id ∧
    dict_lookup f (notification_configuration self_f) = Some (VStr s) ∧
    dict_lookup f (row_configuration r2) = Some (encrypt_field self_f CONFIG f) ∧
    dict_lookup f (notification_configuration self') =
      Some (encrypt_field self_f CONFIG f).
Proof.
  intros Hid Hne Hr Hp Hready Hf Hfs Hplain.
  destruct (preserve_messages_frame _ _ _ _ Hp) as (Hpk1 & Hcfg1 & Hs1 & _).
  destruct (save_update fuel (Some uf) self st self1)
    as (self' & uf' & id' & r0 & Hfold & Hid0 & Hr0 & Hid' & _ & _ & Hsave);
    [rewrite Hid; by apply bool_pk_Some|done|done|].
  assert (id' = id) as -> by congruence.
  assert (r0 = r) as -> by congruence.
  destruct (save_fields_update password_fields password_fields_NoDup self1
              (default [] (Some uf)))
    as (self'' & uf'' & Hfold' & _ & _ & Hs' & _ & Hfields' & _).
  { intros f' Hf'. rewrite Hcfg1. by apply config_ready_elem. }
  rewrite Hfold in Hfold'. injection Hfold' as <- <-.
  specialize (Hfields' f s Hf). rewrite Hcfg1 in Hfields'.
  specialize (Hfields' Hfs). rewrite Hplain in Hfields'.
  destruct Hfields' as (Hc & self_f & Hpkf & Hvalf & Hencf).
  rewrite (Model_save_existing _ self' st id r Hid' Hr) in Hsave.
  assert (writes (Some uf') CONFIG = true) as Hw by (by apply bool_decide_eq_true).
  change ((λ _ : list string, uf') <$> Some uf) with (Some uf') in Hsave.
  rewrite Hw in Hsave.
  destruct uf' as [|c uf']; [by apply elem_of_nil in Hc|].
  eexists self', _, self_f. split; [exact Hsave|].
  split; [done|]. split; [congruence|]. split; [congruence|].
  split; [done|]. split; done.
Qed.

(** C2.  [save] on a new instance (no key) whose password field [f] holds a
    string [s] that does not start with the marker: whenever the call
    returns, it has written two rows under the new key; in the first, [f] is
    the empty string; in the second, [f] is what [encrypt_field] returns
    for it on an instance with the new key in which [f] holds [s], and this
    is also the value of [f] in the instance after the call, whose temporary
    attribute for [f] holds [s].  So each value written for [f] is the empty
    string or the output of [encrypt_field].  The call returns when there is
    no temporary attribute yet, the password fields hold strings and the
    messages are null or well-formed. *)
Theorem save_new_two_phase (fuel : nat) (self : NotificationTemplate)
    (st : store) (f s : string) :
  pk self = None → next_pk st ≠ 0 →
  f ∈ password_fields →
  dict_lookup f (notification_configuration self) = Some (VStr s) →
  startswith ENCRYPTED s = false →
  (saved_config self = [] → config_ready self = true →
   messages_ok (messages self) = true →
   is_ok (save (S (S fuel)) None self st).1 = true) ∧
  (∀ self' st', save (S (S fuel)) None self st = (Ok self', st') →
     ∃ r1 r2 self_f,
       pk self' = Some (next_pk st) ∧
       journal st' = (journal st ++ [(next_pk st, r1); (next_pk st, r2)])%list ∧
       rows st' !! next_pk st = Some r2 ∧
       dict_lookup f (row_configuration r1) = Some (VStr "") ∧
       dict_lookup f (saved_config self') = Some (VStr s) ∧
       pk self_f = Some (next_pk st) ∧
       dict_lookup f (notification_configuration self_f) = Some (VStr s) ∧
       dict_lookup f (row_configuration r2) = Some (encrypt_field self_f CONFIG f) ∧
       dict_lookup f (notification_configuration self') =
         Some (encrypt_field self_f CONFIG f)).
Proof.
  intros Hpk Hnext Hf Hfs Hplain.
  set (id := next_pk st) in *.
  split.
  - intros Hsaved Hready Hmsg.
    destruct (save_new_first_pass fuel self st Hpk Hready)
      as (self2 & self4 & uf4 & -> & Hpk4 & Hm2 & Hm4 & Hs4 & Hfields4 & Hfields2).
    fold id. set (st1 := mkStore _ _ _).
    assert (rows st1 !! id = Some (row_of self2)) as Hrow1 by apply lookup_insert_eq.
    destruct (preserve_messages_copy self4 st1 id (row_of self2)) as [self5 Hp5];
      [done|done|simpl; congruence|congruence|].
    destruct (save_update_messages fuel (Some uf4) self4 st1 self5)
      as (self' & st' & _ & _ & _ & -> & _); [| done | | done].
    + rewrite Hpk4. by apply bool_pk_Some.
    + apply config_ready_intro. intros f' Hf'. rewrite (Hfields4 f' Hf').
      destruct (config_ready_elem self f' Hready Hf') as [s' Hs'].
      specialize (Hfields2 f' s' Hf' Hs').
      destruct (startswith ENCRYPTED s').
      * rewrite Hfields2, Hsaved. simpl. eauto.
      * destruct Hfields2 as [_ ->]. simpl. eauto.
  - intros self' st' Hsave.
    pose proof (save_new_inv _ _ _ _ _ _ Hpk Hsave) as Hready.
    destruct (save_new_first_pass fuel self st Hpk Hready)
      as (self2 & self4 & uf4 & Hfirst & Hpk4 & Hm2 & Hm4 & Hs4 & Hfields4 & Hfields2).
    rewrite Hfirst in Hsave. fold id in Hsave, Hpk4. clear Hfirst.
    set (st1 := mkStore _ _ _) in Hsave.
    assert (rows st1 !! id = Some (row_of self2)) as Hrow1 by apply lookup_insert_eq.
    destruct (save_update_inv fuel (Some uf4) self4 st1 self' st')
      as [[self5 Hp5] Hready4]; [rewrite Hpk4; by apply bool_pk_Some|done|].
    specialize (Hfields2 f s Hf Hfs). rewrite Hplain in Hfields2.
    destruct Hfields2 as [Hblank Hkept].
    destruct (save_update_field fuel uf4 self4 st1 self5 id (row_of self2) f s)
      as (self'' & r2 & self_f & Hsave' & Hid' & Hs' & Hpkf & Hvalf & Hr2 & Hcfg');
      try done.
    { rewrite (Hfields4 f Hf), Hkept. done. }
    rewrite Hsave in Hsave'. injection Hsave' as -> ->.
    exists (row_of self2), r2, self_f.
    split; [done|]. split; [simpl; by rewrite <- app_assoc|].
    split; [apply lookup_insert_eq|]. split; [done|].
    split; [by rewrite Hs', Hs4|]. done.
Qed.

End save_new.

Lemma save_new_two_phase_witness :
  ∃ self' st' r1 r2,
    save 2 None
      (mkNT None [("host", VStr "smtp"); ("password", VStr "hunter2");
                  ("recipients", VStr "ops@example.org")]
            default_messages [])
      (mkStore ∅ 1 []) = (Ok self', st') ∧
    journal st' = [(1, r1); (1, r2)] ∧
    dict_lookup "password" (row_configuration r1) = Some (VStr "") ∧
    dict_lookup "password" (row_configuration r2) = Some (VStr "$encrypted$hunter2").
Proof.
  set (new_template := mkNT None _ _ _).
  destruct (save_new_two_phase 0 new_template (mkStore ∅ 1 []) "password" "hunter2"
              eq_refl ltac:(done) ltac:(compute_done) eq_refl eq_refl)
    as [Htotal Hpost].
  specialize (Htotal eq_refl eq_refl eq_refl).
  destruct (save 2 None new_template (mkStore ∅ 1 [])) as [[self'|e] st'] eqn:E;
    [|done].
  destruct (Hpost self' st' eq_refl)
    as (r1 & r2 & self_f & _ & Hj & _ & H1 & _ & _ & Hf & H2 & _).
  exists self', st', r1, r2. split; [done|]. split; [done|]. split; [done|].
  rewrite H2. simpl. unfold plain. by rewrite Hf.
Defined.

(** ** [send] *)

Section sending.
Context {backend : Backend} {vault : Vault}.
Implicit Types (self : NotificationTemplate) (f k : string).

Lemma decrypt_step_cases self f :
  match dict_lookup f (notification_configuration self) with
  | None => decrypt_step self f = Ok self
  | Some v =>
      decrypt_step self f =
      let* p := decrypt_field self CONFIG f in
      Ok (set_configuration (dict_set f p (notification_configuration self)) self)
  end.
Proof.
  unfold decrypt_step, dict_has.
  by destruct (dict_lookup f (notification_configuration self)).
Qed.

(** The loop over the password fields: all decrypted, or the exception of
    the first decryption that raises. *)
Lemma decrypt_all (fields : list string) : NoDup fields → ∀ self,
  match foldM decrypt_step self fields with
  | Ok self1 =>
      pk self1 = pk self ∧ messages self1 = messages self ∧
      saved_config self1 = saved_config self ∧
      (∀ k, dict_has k (notification_configuration self1) =
            dict_has k (notification_configuration self)) ∧
      (∀ k, k ∉ fields →
         dict_lookup k (notification_configuration self1) =
         dict_lookup k (notification_configuration self)) ∧
      (∀ f v, f ∈ fields →
         dict_lookup f (notification_configuration self) = Some v →
         ∃ self_f p, pk self_f = pk self ∧
           dict_lookup f (notification_configuration self_f) = Some v ∧
           decrypt_field self_f CONFIG f = Ok p ∧
           dict_lookup f (notification_configuration self1) = Some p)
  | Err e =>
      ∃ f v self_f, f ∈ fields ∧
        dict_lookup f (notification_configuration self) = Some v ∧
        pk self_f = pk self ∧
        dict_lookup f (notification_configuration self_f) = Some v ∧
        decrypt_field self_f CONFIG f = Err e
  end.
Proof.
  induction 1 as [|f0 fields Hf0 Hnd IH]; intros self.
  { simpl. repeat split; try done. intros f v Hf. by apply elem_of_nil in Hf. }
  rewrite foldM_cons. pose proof (decrypt_step_cases self f0) as Hstep.
  destruct (dict_lookup f0 (notification_configuration self)) as [v0|] eqn:E0.
  - rewrite Hstep. destruct (decrypt_field self CONFIG f0) as [p|e] eqn:Ed; simpl.
    2:{ exists f0, v0, self. split; [by left|done]. }
    set (self1 := set_configuration _ self).
    specialize (IH self1).
    destruct (foldM decrypt_step self1 fields) as [self2|e].
    + destruct IH as (Hpk & Hm & Hs & Hhas & Hframe & Hfields).
      split; [done|]. split; [done|]. split; [done|]. split; [|split].
      * intros k. rewrite Hhas. simpl. rewrite dict_has_set.
        case_bool_decide; [|done]. subst k. unfold dict_has. by rewrite E0.
      * intros k [Hk1 Hk2]%not_elem_of_cons. rewrite (Hframe k Hk2). simpl.
        by rewrite dict_lookup_set_ne.
      * intros f v [->|Hf]%elem_of_cons Hv.
        -- exists self, p. rewrite (Hframe f0 Hf0). simpl.
           rewrite dict_lookup_set_eq. split; [done|]. split; [done|].
           split; [|done]. congruence.
        -- assert (f ≠ f0) as Hne by (by intros ->).
           destruct (Hfields f v Hf) as (self_f & q & Hq); [|by exists self_f, q].
           simpl. by rewrite dict_lookup_set_ne.
    + destruct IH as (f & v & self_f & Hf & Hv & Hrest).
      assert (f ≠ f0) as Hne by (by intros ->).
      exists f, v, self_f. split; [by right|]. split; [|done].
      simpl in Hv. by rewrite dict_lookup_set_ne in Hv.
  - rewrite Hstep. simpl. specialize (IH self).
    destruct (foldM decrypt_step self fields) as [self2|e].
    + destruct IH as (Hpk & Hm & Hs & Hhas & Hframe & Hfields).
      repeat (split; [done|]). split.
      * intros k [Hk1 Hk2]%not_elem_of_cons. by apply Hframe.
      * intros f v [->|Hf]%elem_of_cons Hv; [congruence|by apply Hfields].
    + destruct IH as (f & v & self_f & Hf & Hrest).
      exists f, v, self_f. split; [by right|done].
Qed.

Lemma assoc_None {A} k (l : list (string * A)) : k ∉ l.*1 → assoc k l = None.
Proof.
  induction l as [|[k0 a] l IH]; [done|]. rewrite fmap_cons.
  intros [Hk Hl]%not_elem_of_cons. simpl. rewrite bool_decide_eq_false_2 by done.
  by apply IH.
Qed.

(** The defaults: a parameter that is absent gets the default it declares. *)
Lemma fill_defaults (params : list (string * param_spec)) : NoDup params.*1 →
  ∀ config k,
    dict_lookup k (fold_left fill_default params config) =
    match dict_lookup k config with
    | Some v => Some v
    | None => match assoc k params with Some p => pdefault p | None => None end
    end.
Proof.
  induction params as [|[k0 p0] params IH]; intros Hnd config k; simpl.
  { by destruct (dict_lookup k config). }
  rewrite fmap_cons in Hnd. apply NoDup_cons in Hnd as [Hk0 Hnd].
  rewrite (IH Hnd). unfold fill_default, dict_has. simpl.
  case_bool_decide as Ek.
  - subst k0. rewrite (assoc_None k params Hk0).
    destruct (dict_lookup k config) eqn:E; [by rewrite E|].
    destruct (pdefault p0); [by rewrite dict_lookup_set_eq|by rewrite E].
  - destruct (dict_lookup k0 config); [done|].
    destruct (pdefault p0); [|done]. by rewrite dict_lookup_set_ne.
Qed.

Lemma pop_sender_spec (d : dict) :
  (pop_sender d).1 = default VNone (sender_parameter ≫= λ k, dict_lookup k d) ∧
  ∀ k, dict_lookup k (pop_sender d).2 =
       if bool_decide (Some k = sender_parameter) then None else dict_lookup k d.
Proof.
  unfold pop_sender. destruct sender_parameter as [sp|]; simpl.
  - split; [done|]. intros k. rewrite dict_lookup_remove.
    destruct (decide (k = sp)) as [->|Hne].
    + by rewrite !bool_decide_eq_true_2.
    + rewrite !bool_decide_eq_false_2; [done| |done]. by intros [= ->].
  - done.
Qed.

(** C5.  [send] decrypts every password field that the configuration has
    (and raises what a decryption raises); takes the recipient parameter out
    ([KeyError] without it), as a list of one element unless it is a list;
    takes the sender parameter out, if the backend has one and the
    configuration holds it; gives every parameter that is then absent the
    default that the backend declares for it, if any; and builds the backend
    from that, to send one message with the subject, the body formatted by
    the backend, the sender and the recipients.  It returns what the backend
    returns, and leaves in the instance the decrypted configuration without
    the two parameters taken out. *)
Theorem send_steps (self : NotificationTemplate) (subject body : value) :
  (∃ e, send self subject body = Err e ∧ decryption_raises self e) ∨
  (∃ decrypted, decrypts self decrypted ∧
     match dict_lookup recipient_parameter decrypted with
     | None => send self subject body = Err KeyError
     | Some recipients =>
         ∃ remaining kwargs,
           (∀ k, dict_lookup k remaining =
                 if is_popped k then None else dict_lookup k decrypted) ∧
           (∀ k, dict_lookup k kwargs =
                 match dict_lookup k remaining with
                 | Some v => Some v
                 | None => declared_default k
                 end) ∧
           send self subject body =
             (λ sent, (sent, mkNT (pk self) remaining (messages self)
                                  (saved_config self))) <$>
             backend_call kwargs
               (default VNone
                  (sender_parameter ≫= λ k,
                     if bool_decide (k = recipient_parameter) then None
                     else dict_lookup k decrypted))
               (if is_list recipients then recipients else VList [recipients])
               subject body
     end).
Proof.
  pose proof (decrypt_all password_fields password_fields_NoDup self) as Hdec.
  unfold send.
  destruct (foldM decrypt_step self password_fields) as [self1|e].
  2:{ left. exists e. split; [done|]. exact Hdec. }
  destruct Hdec as (Hpk & Hm & Hs & Hhas & Hframe & Hfields).
  right. exists (notification_configuration self1). split; [done|].
  simpl.
  destruct (dict_lookup recipient_parameter (notification_configuration self1))
    as [recipients|] eqn:Er; simpl; [|done].
  set (config1 := dict_remove recipient_parameter (notification_configuration self1)).
  destruct (pop_sender_spec config1) as [Hsender Hconfig2].
  destruct (pop_sender config1) as [sender config2]. simpl in Hsender, Hconfig2.
  exists config2, (fold_left fill_default init_parameters config2).
  split; [|split].
  - intros k. rewrite Hconfig2. unfold is_popped, config1.
    rewrite dict_lookup_remove.
    by destruct (bool_decide (Some k = sender_parameter)),
                (bool_decide (k = recipient_parameter)).
  - intros k. by rewrite (fill_defaults _ init_parameters_keys).
  - assert (sender =
            default VNone
              (sender_parameter ≫= λ k,
                 if bool_decide (k = recipient_parameter) then None
                 else dict_lookup k (notification_configuration self1))) as ->.
    { rewrite Hsender. destruct sender_parameter as [sp|]; simpl; [|done].
      unfold config1. by rewrite dict_lookup_remove. }
    unfold backend_call, set_configuration. rewrite Hpk, Hm, Hs.
    destruct (construct _) as [obj|]; simpl; [|done].
    destruct (format_body obj body) as [formatted|]; simpl; [|done].
    by destruct (send_messages obj _).
Qed.

End sending.

(** [send] on the sample template: the password is decrypted, the recipients
    and the sender leave the configuration, and the backend reports one
    message. *)
Example send_template_1 :
  send template_1 (VStr "subject") (VStr "body") =
  Ok (VInt 1,
      set_configuration
        [("host", VStr "smtp"); ("port", VInt 25); ("username", VStr "awx");
         ("password", VStr "hunter2"); ("use_tls", VBool true)]
        template_1).
Proof. by vm_compute. Qed.

(** The malformed template of the sample job, through the method of the mixin:
    subject and body are empty, and nothing is raised. *)
Example job_42_malformed_template :
  JobNotificationMixin.build_notification_message template_2 "failed" =
  Ok ("", VDict [("id", VInt 42); ("status", VStr "failed");
                 ("friendly_name", VStr "Job"); ("body", VStr "")]).
Proof. by vm_compute. Qed.

(** ** The messages of an event: [has_message] and the template's own
       [build_notification_message] *)

Lemma value_eqb_empty_dict (v : value) : value_eqb v (VDict []) = true ↔ v = VDict [].
Proof.
  destruct v as [| | | | |d]; simpl; try (split; [done|discriminate]).
  destruct d as [|[k x] d]; [done|]. split; [done|discriminate].
Qed.

(** X1.  [has_message] returns [True] exactly when the messages are a mapping
    that holds, for the event, a mapping with a key [message] whose value is
    not the empty mapping; that value may be null or the empty string. *)
Theorem has_message_true (self : NotificationTemplate) (condition : string) :
  has_message self condition = Ok true ↔
  ∃ d item m,
    messages self = VDict d ∧
    dict_lookup condition d = Some (VDict item) ∧
    dict_lookup "message" item = Some m ∧ m ≠ VDict [].
Proof.
  unfold has_message. split.
  - destruct (messages self) as [| | | | |d] eqn:Hm; simpl; try discriminate.
    destruct (dict_lookup condition d) as [v|] eqn:Hv; simpl; [|discriminate].
    destruct (value_eqb v (VDict [])) eqn:Hempty; [discriminate|].
    destruct v as [| | | | |item]; simpl; try discriminate.
    destruct (dict_lookup "message" item) as [m|] eqn:Hmsg; simpl; [|discriminate].
    destruct (value_eqb m (VDict [])) eqn:Hmempty; [discriminate|]. intros _.
    exists d, item, m. repeat split; try done.
    intros ->. by rewrite (proj2 (value_eqb_empty_dict _)) in Hmempty.
  - intros (d & item & m & -> & Hv & Hmsg & Hne). simpl. rewrite Hv. simpl.
    destruct item as [|kv item]; [done|]. destruct kv as [k x].
    cbn [value_eqb]. cbn [py_get bind]. rewrite Hmsg. simpl.
    destruct (value_eqb m (VDict [])) eqn:Hmempty; [|done].
    by apply value_eqb_empty_dict in Hmempty.
Qed.

Section null_items.
Context {jinja : Jinja}.

(** X2.  When the messages hold, for the event, something that is not a
    mapping (null, as in the default messages), [has_message] and the
    template's [build_notification_message] raise [AttributeError]: neither
    treats null as "no message". *)
Theorem null_event_item_raises (self : NotificationTemplate) (event : string)
    (d : dict) (v : value) (context : dict) :
  messages self = VDict d →
  dict_lookup event d = Some v →
  (∀ item, v ≠ VDict item) →
  has_message self event = Err AttributeError ∧
  NT.build_notification_message self event context = Err AttributeError.
Proof.
  intros Hm Hv Hitem.
  unfold has_message, NT.build_notification_message, get_message.
  rewrite Hm. simpl. rewrite Hv. simpl.
  destruct v as [| | | | |item]; try done. by destruct (Hitem item).
Qed.

End null_items.

Lemma null_event_item_raises_witness :
  has_message (mkNT (Some 1) [] default_messages []) "success" = Err AttributeError ∧
  NT.build_notification_message (mkNT (Some 1) [] default_messages []) "success" [] =
    Err AttributeError.
Proof.
  by apply (null_event_item_raises (mkNT (Some 1) [] default_messages []) "success"
              [("started", VNone); ("success", VNone); ("error", VNone)] VNone []).
Defined.

(** ** The configuration that is displayed *)

Section display.
Context {backend : Backend} {vault : Vault}.

Lemma text_is_encrypted_marker : text_is_encrypted (VStr ENCRYPTED) = true.
Proof. done. Qed.

Lemma display_field_lookup (field_val : dict) (p : string * param_spec) (k : string) :
  dict_lookup k (display_field field_val p) =
  (λ v, if bool_decide (k = p.1) && text_is_encrypted v then VStr ENCRYPTED else v)
    <$> dict_lookup k field_val.
Proof.
  unfold display_field. destruct (bool_decide (k = p.1)) eqn:Hk.
  - apply bool_decide_eq_true in Hk as ->. simpl.
    destruct (dict_lookup p.1 field_val) as [v|] eqn:Hv; simpl.
    + destruct (text_is_encrypted v); [by rewrite dict_lookup_set_eq|by rewrite Hv].
    + by rewrite Hv.
  - apply bool_decide_eq_false in Hk. simpl.
    destruct (dict_lookup p.1 field_val) as [v|] eqn:Hv.
    + destruct (text_is_encrypted v).
      * rewrite dict_lookup_set_ne by done. by destruct (dict_lookup k field_val).
      * by destruct (dict_lookup k field_val).
    + by destruct (dict_lookup k field_val).
Qed.

Lemma dict_set_keys k v (d : dict) x :
  dict_lookup k d = Some x → (dict_set k v d).*1 = d.*1.
Proof.
  induction d as [|[k' v'] d IH]; [done|]. cbn [dict_lookup dict_set].
  case_bool_decide; [done|]. intros Hk. rewrite !fmap_cons. f_equal. by apply IH.
Qed.

Lemma bool_decide_elem_cons (k x : string) (l : list string) :
  bool_decide (k ∈ x :: l) = bool_decide (k = x) || bool_decide (k ∈ l).
Proof.
  destruct (bool_decide (k = x)) eqn:Hk; simpl.
  - apply bool_decide_eq_true in Hk as ->. apply bool_decide_eq_true_2, list_elem_of_here.
  - apply bool_decide_eq_false in Hk. apply bool_decide_ext.
    rewrite elem_of_cons. naive_solver.
Qed.

Lemma display_fields (params : list (string * param_spec)) : ∀ (field_val : dict),
  (fold_left display_field params field_val).*1 = field_val.*1 ∧
  ∀ k, dict_lookup k (fold_left display_field params field_val) =
       (λ v, if bool_decide (k ∈ params.*1) && text_is_encrypted v
             then VStr ENCRYPTED else v) <$> dict_lookup k field_val.
Proof.
  induction params as [|p params IH]; intros field_val.
  { split; [done|]. intros k. simpl. by destruct (dict_lookup k field_val). }
  cbn [fold_left]. destruct (IH (display_field field_val p)) as [IHkeys IHlookup]. split.
  - rewrite IHkeys. unfold display_field.
    destruct (dict_lookup p.1 field_val) as [v|] eqn:Hv; [|done].
    destruct (text_is_encrypted v); [|done]. by eapply dict_set_keys.
  - intros k. rewrite IHlookup, display_field_lookup, fmap_cons, bool_decide_elem_cons.
    destruct (dict_lookup k field_val) as [v|]; [|done]. cbn [fmap option_fmap option_map].
    f_equal.
    destruct (bool_decide (k = p.1)), (text_is_encrypted v) eqn:Hv; cbn [andb orb].
    + rewrite text_is_encrypted_marker. by destruct (bool_decide _).
    + rewrite Hv. by destruct (bool_decide _).
    + by rewrite Hv.
    + by rewrite Hv.
Qed.

(** X3.  [display_notification_configuration] keeps the keys of the
    configuration in their order; the value of a parameter of the backend
    whose text starts with the marker is replaced by the marker alone, and
    every other value is shown as it is stored - also a marked value under a
    key that is not a parameter of the backend. *)
Theorem display_masks_marked_parameters (self : NotificationTemplate) :
  (display_notification_configuration self).*1 = (notification_configuration self).*1 ∧
  ∀ k, dict_lookup k (display_notification_configuration self) =
       (λ v, if bool_decide (k ∈ init_parameters.*1) && text_is_encrypted v
             then VStr ENCRYPTED else v)
         <$> dict_lookup k (notification_configuration self).
Proof. apply display_fields. Qed.

End display.

(** ** What [save] refuses *)

Section save_refusals.
Context {backend : Backend} {vault : Vault}.

(** The first loop over the password fields does not touch the key or the
    messages, and on a new instance it leaves [update_fields] alone. *)
Lemma save_fields_frame new_instance (fields : list string) : ∀ self uf self2 uf2,
  foldM (save_field new_instance) (self, uf) fields = Ok (self2, uf2) →
  pk self2 = pk self ∧ messages self2 = messages self ∧
  (new_instance = true → uf2 = uf).
Proof.
  induction fields as [|f fields IH]; intros self uf self2 uf2.
  { simpl. by intros [= <- <-]. }
  rewrite foldM_cons. intros ([self1 uf1] & Hstep & Hrest)%bind_Ok.
  apply IH in Hrest as (Hpk & Hm & Huf).
  destruct (save_field_Ok _ _ _ _ _ Hstep) as [s Hs].
  destruct new_instance.
  - rewrite (save_field_create _ _ _ _ Hs) in Hstep.
    destruct (startswith ENCRYPTED s); injection Hstep as <- <-;
      (split; [done|]; split; [done|]; by intros _; apply Huf).
  - rewrite (save_field_update _ _ _ _ Hs) in Hstep.
    destruct (startswith ENCRYPTED s); injection Hstep as <- <-;
      (split; [done|]; split; [done|]; done).
Qed.

(** X4.  Unless every password parameter of the backend has a string in the
    configuration, [save] raises, whatever its arguments, and the table is as
    it was: nothing has been written. *)
Theorem save_needs_string_passwords (fuel : nat) (kwargs : option (list string))
    (self : NotificationTemplate) (st : store) :
  config_ready self = false → ∃ e, save fuel kwargs self st = (Err e, st).
Proof.
  intros Hnot. destruct fuel as [|fuel]; [by eexists|].
  rewrite save_unfold. cbv zeta.
  destruct (preserve_messages _ self st) as [self1|e] eqn:Hp; [|by eexists].
  destruct (foldM _ _ _) as [[self2 uf2]|e] eqn:Hf; [|by eexists].
  exfalso. apply preserve_messages_frame in Hp as (_ & Hcfg & _).
  pose proof (save_fields_ready _ _ password_fields_NoDup _ _ _ Hf) as Hready.
  rewrite <- not_true_iff_false in Hnot. apply Hnot, config_ready_intro.
  intros f Hin. rewrite <- Hcfg. by apply Hready.
Qed.

Lemma save_keyless_update fuel : ∀ uf self st,
  pk self = None → ∃ e, save fuel (Some uf) self st = (Err e, st).
Proof.
  induction fuel as [|fuel IH]; intros uf self st Hpk; [by eexists|].
  rewrite save_unfold. cbv zeta. rewrite Hpk. cbn [bool_pk negb].
  change (preserve_messages true self st) with (Ok self). cbv iota beta.
  destruct (foldM _ _ _) as [[self2 uf2]|e] eqn:Hf; [|by eexists].
  apply save_fields_frame in Hf as (Hpk2 & _ & _). rewrite Hpk in Hpk2.
  change ((λ _ : list string, uf2) <$> Some uf) with (Some uf2).
  unfold Model_save. rewrite Hpk2. destruct uf2 as [|c uf2]; [|by eexists].
  destruct (restore_fields password_fields self2 []) as (self4 & uf4 & -> & Hpk4 & _).
  apply IH. congruence.
Qed.

(** X5.  [save] with [update_fields] on an instance that has no key never
    returns: it raises ([ValueError] from [Model.save], or the recursion
    limit when the list was empty and stays empty), and nothing is
    written. *)
Theorem save_update_fields_without_key (fuel : nat) (update_fields : list string)
    (self : NotificationTemplate) (st : store) :
  pk self = None → ∃ e, save fuel (Some update_fields) self st = (Err e, st).
Proof. apply save_keyless_update. Qed.

End save_refusals.

Lemma save_needs_string_passwords_witness :
  ∃ e, save 5 None
         (mkNT (Some 1) [("password", VInt 7); ("recipients", VList [])] VNone [])
         store_1 = (Err e, store_1).
Proof. by apply (save_needs_string_passwords 5 None). Defined.

Lemma save_update_fields_without_key_witness :
  ∃ e, save 5 (Some ["messages"])
         (mkNT None [("password", VStr "hunter2")] VNone []) store_1 = (Err e, store_1).
Proof. by apply (save_update_fields_without_key 5 ["messages"]). Defined.

(** ** The password fields after [save] *)

Section save_passwords.
Context {backend : Backend} {vault : Vault}.

(** The first pass on a new instance, at any depth: the row written under
    the new key and the call of [save] that follows. *)
Lemma save_create_pass fuel self st :
  pk self = None → config_ready self = true →
  ∃ self2 self4 uf4,
    save (S fuel) None self st =
      save fuel (Some uf4) self4
        (mkStore (<[next_pk st := row_of self2]> (rows st)) (next_pk st + 1)
                 (journal st ++ [(next_pk st, row_of self2)])) ∧
    pk self4 = Some (next_pk st) ∧
    saved_config self4 = saved_config self2 ∧
    (∀ f, f ∈ password_fields →
       dict_lookup f (notification_configuration self4) =
       Some (default (VStr "") (dict_lookup f (saved_config self2)))) ∧
    (∀ f s, f ∈ password_fields →
       dict_lookup f (notification_configuration self) = Some (VStr s) →
       if startswith ENCRYPTED s
       then dict_lookup f (notification_configuration self2) = Some (VStr s) ∧
            dict_lookup f (saved_config self2) = dict_lookup f (saved_config self)
       else dict_lookup f (notification_configuration self2) = Some (VStr "") ∧
            dict_lookup f (saved_config self2) = Some (VStr s)).
Proof.
  intros Hpk Hready.
  destruct (save_fields_create password_fields password_fields_NoDup self [])
    as (self2 & Hfold2 & Hpk2 & Hm2 & _ & Hfields2).
  { intros f' Hf'. by apply config_ready_elem. }
  rewrite Hpk in Hpk2.
  destruct (restore_fields password_fields (set_pk (Some (next_pk st)) self2) [])
    as (self4 & uf4 & Hfold4 & Hpk4 & Hm4 & Hs4 & _ & Hfields4 & _).
  simpl in Hpk4, Hm4, Hs4.
  exists self2, self4, uf4. split.
  { rewrite save_unfold. cbv zeta. rewrite Hpk. simpl negb.
    change (preserve_messages true self st) with (Ok self).
    change (default [] None) with (@nil string). cbv iota beta.
    rewrite Hfold2.
    change ((λ _ : list string, []) <$> None) with (@None (list string)).
    rewrite (Model_save_new self2 st Hpk2). by rewrite Hfold4. }
  done.
Qed.

(** After [save] on a record that exists, every password field holds a
    string with the marker or what [encrypt_field] returned. *)
Lemma save_update_passwords fuel kwargs self st self' st' f :
  bool_pk (pk self) = true →
  save (S fuel) kwargs self st = (Ok self', st') →
  f ∈ password_fields →
  (∃ s, dict_lookup f (notification_configuration self') = Some (VStr s) ∧
        startswith ENCRYPTED s = true) ∨
  (∃ self_f, dict_lookup f (notification_configuration self') =
             Some (encrypt_field self_f CONFIG f)).
Proof.
  intros Hpk Hsave Hf.
  destruct (save_update_inv _ _ _ _ _ _ Hpk Hsave) as [[self1 Hp] Hready].
  destruct (preserve_messages_frame _ _ _ _ Hp) as (Hpk1 & Hcfg1 & _ & _).
  destruct (save_update fuel kwargs self st self1 Hpk Hp Hready)
    as (self2 & uf2 & id & r & Hfold & Hid & Hr & Hid2 & _ & _ & Heq).
  rewrite Heq, (Model_save_existing _ self2 st id r Hid2 Hr) in Hsave.
  injection Hsave as <- _.
  destruct (save_fields_update password_fields password_fields_NoDup self1
              (default [] kwargs))
    as (self'' & uf'' & Hfold' & _ & _ & _ & _ & Hfields & _).
  { intros f' Hf'. rewrite Hcfg1. by apply config_ready_elem. }
  rewrite Hfold in Hfold'. injection Hfold' as <- <-.
  destruct (config_ready_elem self f Hready Hf) as [s Hs].
  rewrite <- Hcfg1 in Hs. specialize (Hfields f s Hf Hs).
  destruct (startswith ENCRYPTED s) eqn:Hmarked.
  - left. by exists s.
  - right. destruct Hfields as (_ & self_f & _ & _ & Henc). by exists self_f.
Qed.

(** X6.  When the ciphertext of [encrypt_field] carries the marker, every
    password parameter of a template that [save] has returned is displayed
    as the marker alone, for an existing record and for a new one. *)
Theorem saved_passwords_display_masked (fuel : nat) (kwargs : option (list string))
    (self self' : NotificationTemplate) (st st' : store) (f : string) :
  (∀ x field, text_is_encrypted (encrypt_field x CONFIG field) = true) →
  pk self ≠ Some 0 → next_pk st ≠ 0 →
  save fuel kwargs self st = (Ok self', st') →
  f ∈ password_fields →
  dict_lookup f (display_notification_configuration self') = Some (VStr ENCRYPTED).
Proof.
  intros Hmark Hpk Hnext Hsave Hf.
  assert (∃ fuel' kwargs' self0 st0,
            bool_pk (pk self0) = true ∧
            save (S fuel') kwargs' self0 st0 = (Ok self', st'))
    as (fuel' & kwargs' & self0 & st0 & Hpk0 & Hsave0).
  { destruct fuel as [|fuel]; [done|].
    destruct (pk self) as [id|] eqn:Hid.
    - exists fuel, kwargs, self, st. split; [|done]. rewrite Hid.
      apply bool_pk_Some. by intros ->.
    - destruct kwargs as [uf|].
      { destruct (save_keyless_update (S fuel) uf self st Hid) as [e He]. congruence. }
      pose proof (save_new_inv _ _ _ _ _ _ Hid Hsave) as Hready.
      destruct (save_create_pass fuel self st Hid Hready)
        as (self2 & self4 & uf4 & Hfirst & Hpk4 & _).
      rewrite Hfirst in Hsave. destruct fuel as [|fuel]; [done|].
      eexists fuel, (Some uf4), self4, _. split; [|exact Hsave].
      rewrite Hpk4. by apply bool_pk_Some. }
  destruct (display_fields init_parameters (notification_configuration self'))
    as [_ Hshown].
  unfold display_notification_configuration. rewrite Hshown.
  assert (f ∈ init_parameters.*1) as Hparam.
  { unfold password_fields in Hf.
    apply list_elem_of_fmap in Hf as (p & -> & Hp%list_elem_of_filter).
    apply list_elem_of_fmap_2. by destruct Hp. }
  rewrite (bool_decide_eq_true_2 _ Hparam).
  destruct (save_update_passwords _ _ _ _ _ _ f Hpk0 Hsave0 Hf)
    as [(s & -> & Hs)|(self_f & ->)]; simpl.
  - by rewrite Hs.
  - by rewrite Hmark.
Qed.

(** X7.  On a new instance, a password field that already carries the marker
    is not stashed: the first row holds the incoming value, and when no
    temporary attribute was left on the instance the call of [save] that
    follows finds the empty string there, so the record ends with what
    [encrypt_field] returns for the empty string in place of the incoming
    value. *)
Theorem save_new_discards_marked_password (fuel : nat) (self self' : NotificationTemplate)
    (st st' : store) (f s : string) :
  pk self = None → next_pk st ≠ 0 → saved_config self = [] →
  f ∈ password_fields →
  dict_lookup f (notification_configuration self) = Some (VStr s) →
  startswith ENCRYPTED s = true →
  save fuel None self st = (Ok self', st') →
  ∃ r1 r2 self_f,
    journal st' = (journal st ++ [(next_pk st, r1); (next_pk st, r2)])%list ∧
    rows st' !! next_pk st = Some r2 ∧
    dict_lookup f (row_configuration r1) = Some (VStr s) ∧
    dict_lookup f (notification_configuration self_f) = Some (VStr "") ∧
    dict_lookup f (row_configuration r2) = Some (encrypt_field self_f CONFIG f) ∧
    dict_lookup f (notification_configuration self') =
      Some (encrypt_field self_f CONFIG f).
Proof.
  intros Hpk Hnext Hsaved Hf Hfs Hmarked Hsave.
  destruct fuel as [|fuel]; [done|].
  pose proof (save_new_inv _ _ _ _ _ _ Hpk Hsave) as Hready.
  destruct (save_create_pass fuel self st Hpk Hready)
    as (self2 & self4 & uf4 & Hfirst & Hpk4 & Hs4 & Hfields4 & Hfields2).
  rewrite Hfirst in Hsave. clear Hfirst. destruct fuel as [|fuel]; [done|].
  set (id := next_pk st) in *. set (st1 := mkStore _ _ _) in Hsave.
  assert (rows st1 !! id = Some (row_of self2)) as Hrow1 by apply lookup_insert_eq.
  destruct (save_update_inv fuel (Some uf4) self4 st1 self' st')
    as [[self5 Hp5] Hready4]; [rewrite Hpk4; by apply bool_pk_Some|done|].
  specialize (Hfields2 f s Hf Hfs). rewrite Hmarked in Hfields2.
  destruct Hfields2 as [Hkept Hnone]. rewrite Hsaved in Hnone. simpl in Hnone.
  destruct (save_update_field fuel uf4 self4 st1 self5 id (row_of self2) f "")
    as (self'' & r2 & self_f & Hsave' & Hid' & Hs' & Hpkf & Hvalf & Hr2 & Hcfg');
    try done.
  { rewrite (Hfields4 f Hf), Hnone. done. }
  rewrite Hsave in Hsave'. injection Hsave' as -> ->.
  exists (row_of self2), r2, self_f.
  split; [simpl; by rewrite <- app_assoc|].
  split; [apply lookup_insert_eq|]. done.
Qed.

End save_passwords.

Lemma saved_passwords_display_masked_witness :
  ∃ self' st',
    save 1 None template_1_edited store_1 = (Ok self', st') ∧
    dict_lookup "password" (display_notification_configuration self') =
      Some (VStr ENCRYPTED).
Proof.
  destruct (save 1 None template_1_edited store_1) as [[self'|e] st'] eqn:E;
    [|by vm_compute in E].
  exists self', st'. split; [done|].
  apply (saved_passwords_display_masked 1 None template_1_edited self' store_1 st'
           "password"); [done|done|done|exact E|compute_done].
Defined.

Lemma save_new_discards_marked_password_witness :
  ∃ self' st' r1 r2,
    save 2 None
      (mkNT None [("host", VStr "smtp"); ("password", VStr "$encrypted$hunter2");
                  ("recipients", VStr "ops@example.org")]
            default_messages [])
      (mkStore ∅ 1 []) = (Ok self', st') ∧
    journal st' = [(1, r1); (1, r2)] ∧
    dict_lookup "password" (row_configuration r1) = Some (VStr "$encrypted$hunter2") ∧
    dict_lookup "password" (row_configuration r2) = Some (VStr "$encrypted$").
Proof.
  set (new_template := mkNT None _ _ _).
  destruct (save 2 None new_template (mkStore ∅ 1 [])) as [[self'|e] st'] eqn:E;
    [|by vm_compute in E].
  destruct (save_new_discards_marked_password 2 new_template self' (mkStore ∅ 1 []) st'
              "password" "$encrypted$hunter2"
              eq_refl ltac:(done) eq_refl ltac:(compute_done) eq_refl eq_refl E)
    as (r1 & r2 & self_f & Hj & _ & H1 & Hf & H2 & _).
  exists self', st', r1, r2. split; [done|]. split; [done|]. split; [done|].
  rewrite H2. simpl. unfold plain. by rewrite Hf.
Defined.

(** ** The rows that [save] writes *)

Section save_frame.
Context {backend : Backend} {vault : Vault}.

Lemma writes_only_under_refl key st : writes_only_under key st st.
Proof.
  split; [|done]. exists []. split; [by rewrite app_nil_r|].
  intros k r Hin. by apply elem_of_nil in Hin.
Qed.

Lemma writes_only_under_trans key st1 st2 st3 :
  writes_only_under key st1 st2 → writes_only_under key st2 st3 →
  writes_only_under key st1 st3.
Proof.
  intros [(w1 & Hj1 & Hw1) Hrows1] [(w2 & Hj2 & Hw2) Hrows2]. split.
  - exists (w1 ++ w2)%list. split; [by rewrite Hj2, Hj1, app_assoc|].
    intros k r [Hin|Hin]%elem_of_app; eauto.
  - intros k Hk. by rewrite Hrows2, Hrows1.
Qed.

Lemma Model_save_frame kwargs self st r st1 :
  Model_save kwargs self st = (r, st1) →
  writes_only_under (row_key self st) st st1 ∧
  ∀ self3, r = Ok self3 → row_key self3 st1 = row_key self st.
Proof.
  assert (∀ id row, writes_only_under id st (write_row id row st)) as Hwrite.
  { intros id row. split.
    - exists [(id, row)]. split; [done|].
      by intros k r' [= -> _]%list_elem_of_singleton.
    - intros k Hk. simpl. by apply lookup_insert_ne. }
  unfold Model_save, row_key.
  destruct kwargs as [[|c fs]|], (pk self) as [id|] eqn:Hpk; simpl.
  - intros [= <- <-]. split; [apply writes_only_under_refl|].
    intros self3 [= <-]. by rewrite Hpk.
  - intros [= <- <-]. split; [apply writes_only_under_refl|].
    intros self3 [= <-]. by rewrite Hpk.
  - destruct (rows st !! id) as [r0|].
    + intros [= <- <-]. split; [apply Hwrite|]. intros self3 [= <-]. by rewrite Hpk.
    + intros [= <- <-]. split; [apply writes_only_under_refl|]. done.
  - intros [= <- <-]. split; [apply writes_only_under_refl|]. done.
  - intros [= <- <-]. split; [apply Hwrite|]. intros self3 [= <-]. by rewrite Hpk.
  - intros [= <- <-]. split.
    + split.
      * exists [(next_pk st, row_of self)]. split; [done|].
        by intros k r' [= -> _]%list_elem_of_singleton.
      * intros k Hk. simpl. by apply lookup_insert_ne.
    + by intros self3 [= <-].
Qed.

(** X8.  Whatever [save] does - return or raise, one pass or two - it writes
    rows under one key only, the key of the instance or the next automatic
    key when it has none: the rows of all other templates are as they
    were. *)
Theorem save_writes_own_row_only (fuel : nat) (kwargs : option (list string))
    (self : NotificationTemplate) (st : store) :
  writes_only_under (row_key self st) st (save fuel kwargs self st).2.
Proof.
  revert kwargs self st.
  induction fuel as [|fuel IH]; intros kwargs self st;
    [apply writes_only_under_refl|].
  rewrite save_unfold. cbv zeta.
  destruct (preserve_messages _ self st) as [self1|e] eqn:Hp;
    [|apply writes_only_under_refl].
  apply preserve_messages_frame in Hp as (Hpk1 & _).
  destruct (foldM _ _ _) as [[self2 uf2]|e] eqn:Hf; [|apply writes_only_under_refl].
  apply save_fields_frame in Hf as (Hpk2 & _).
  assert (row_key self2 st = row_key self st) as Hkey
    by (unfold row_key; congruence).
  destruct (Model_save _ self2 st) as [[self3|e] st1] eqn:HM;
    apply Model_save_frame in HM as [Hw Hkey3]; rewrite Hkey in Hw, Hkey3;
    [|exact Hw].
  specialize (Hkey3 self3 eq_refl).
  destruct (negb _); [|exact Hw].
  destruct (restore_fields password_fields self3 []) as (self4 & uf4 & -> & Hpk4 & _).
  eapply writes_only_under_trans; [exact Hw|].
  assert (row_key self4 st1 = row_key self st) as <-
    by (rewrite <- Hkey3; unfold row_key; congruence).
  apply IH.
Qed.

End save_frame.

(** ** The incoming messages in [save] *)

Section save_incoming.
Context {backend : Backend} {vault : Vault}.

(** A sub-field that the incoming item has keeps its value in the merge. *)
Lemma merged_value_incoming (old : option value) (item : dict) (t : string) (x : value) :
  dict_lookup t item = Some x →
  ∃ item', merged_value old (Some (VDict item)) = VDict item' ∧
           dict_lookup t item' = Some x.
Proof.
  intros Ht. unfold merged_value.
  change (default (VDict []) (Some (VDict item))) with (VDict item).
  change (default VNone (Some (VDict item))) with (VDict item). cbv zeta.
  assert (truthy (VDict item) = true) as -> by (by destruct item).
  destruct (truthy (default (VDict []) old)); [|by exists item].
  destruct (default (VDict []) old) as [| | | | |old_event]; try by exists item.
  eexists. split; [done|]. cbn [fold_left].
  rewrite !merged_fields_lookup, Ht.
  by repeat case_bool_decide.
Qed.

Lemma merged_messages_all_events (old new : dict) :
  has_all_events (merged_messages old new) = true.
Proof.
  unfold has_all_events. apply forallb_forall. intros event Hin%list_elem_of_In.
  unfold dict_has. by rewrite merged_messages_event.
Qed.

Lemma save_update_key fuel kwargs self st self' st' :
  bool_pk (pk self) = true →
  save (S fuel) kwargs self st = (Ok self', st') →
  pk self' = pk self.
Proof.
  intros Hpk Hsave.
  destruct (save_update_inv _ _ _ _ _ _ Hpk Hsave) as [[self1 Hp] Hready].
  destruct (save_update fuel kwargs self st self1 Hpk Hp Hready)
    as (self2 & uf2 & id & r & _ & Hid & Hr & Hid2 & _ & _ & Heq).
  rewrite Heq, (Model_save_existing _ self2 st id r Hid2 Hr) in Hsave.
  injection Hsave as <- _. congruence.
Qed.

(** X9.  In [save] on an existing record with stored messages, a sub-field
    that the incoming messages supply for an event keeps its incoming value
    in the result - also an empty one: a stored value never replaces it.
    When the column is written, the row holds the same messages. *)
Theorem save_incoming_sub_field_wins (fuel : nat) (kwargs : option (list string))
    (self self' : NotificationTemplate) (st st' : store) (id : Z) (r : row)
    (old new item : dict) (event t : string) (x : value) :
  pk self = Some id → id ≠ 0 → rows st !! id = Some r →
  row_messages r = VDict old → messages self = VDict new →
  dict_lookup event new = Some (VDict item) →
  dict_lookup t item = Some x →
  save (S fuel) kwargs self st = (Ok self', st') →
  (∃ m item', messages self' = VDict m ∧
              dict_lookup event m = Some (VDict item') ∧
              dict_lookup t item' = Some x) ∧
  (writes kwargs "messages" = true →
   ∃ r', rows st' !! id = Some r' ∧ row_messages r' = messages self').
Proof.
  intros Hid Hne Hr Hold Hnew Hevent Ht Hsave.
  destruct (save_merges fuel kwargs self st id r old new Hid Hne Hr Hold Hnew)
    as [_ Hpost].
  destruct (Hpost self' st' Hsave) as (Hm & r' & Hr' & _ & Hw). split.
  - exists (merged_messages old new).
    destruct (decide (event ∈ EVENTS)) as [Hin|Hout].
    + destruct (merged_value_incoming (dict_lookup event old) item t x Ht)
        as (item' & Hitem' & Hx).
      exists item'. split; [done|]. split; [|done].
      by rewrite merged_messages_event, Hevent, Hitem'.
    + exists item. split; [done|]. split; [|done].
      by rewrite merged_messages_other.
  - intros Hwrites. exists r'. split; [done|]. rewrite Hm. by apply Hw.
Qed.

(** X10.  The merge is stable: [save] again, on the instance and the table
    that a [save] of an existing record with stored messages has left,
    changes neither the messages of the instance nor those of the row. *)
Theorem save_again_keeps_messages (fuel fuel' : nat)
    (self self1 self2 : NotificationTemplate) (st st1 st2 : store) (id : Z) (r : row)
    (old new : dict) :
  pk self = Some id → id ≠ 0 → rows st !! id = Some r →
  row_messages r = VDict old → messages self = VDict new →
  save (S fuel) None self st = (Ok self1, st1) →
  save (S fuel') None self1 st1 = (Ok self2, st2) →
  messages self2 = messages self1 ∧
  ∃ r2, rows st2 !! id = Some r2 ∧ row_messages r2 = messages self1.
Proof.
  intros Hid Hne Hr Hold Hnew Hsave1 Hsave2.
  destruct (save_merges fuel None self st id r old new Hid Hne Hr Hold Hnew)
    as [_ Hpost1].
  destruct (Hpost1 self1 st1 Hsave1) as (Hm1 & r1 & Hr1 & _ & Hw1).
  specialize (Hw1 eq_refl).
  assert (pk self1 = Some id) as Hid1.
  { rewrite <- Hid. eapply save_update_key; [|exact Hsave1].
    rewrite Hid. by apply bool_pk_Some. }
  destruct (save_merges fuel' None self1 st1 id r1 _ _ Hid1 Hne Hr1 Hw1 Hm1)
    as [_ Hpost2].
  destruct (Hpost2 self2 st2 Hsave2) as (Hm2 & r2 & Hr2 & _ & Hw2).
  specialize (Hw2 eq_refl).
  rewrite merged_messages_same in Hm2, Hw2 by apply merged_messages_all_events.
  split; [congruence|]. exists r2. split; [done|]. congruence.
Qed.

End save_incoming.

Lemma save_incoming_sub_field_wins_witness :
  ∃ self' st' m item',
    save 1 None
      (set_messages
         (VDict [("started", VDict [("message", VStr ""); ("body", VStr "new")])])
         template_3)
      store_3 = (Ok self', st') ∧
    messages self' = VDict m ∧
    dict_lookup "started" m = Some (VDict item') ∧
    dict_lookup "message" item' = Some (VStr "").
Proof.
  set (edited := set_messages _ template_3).
  destruct (save 1 None edited store_3) as [[self'|e] st'] eqn:E;
    [|by vm_compute in E].
  destruct (save_incoming_sub_field_wins 0 None edited self' store_3 st' 3
              (mkRow (notification_configuration template_3) (messages template_3))
              [("started", VDict [("message", VStr "go")])]
              [("started", VDict [("message", VStr ""); ("body", VStr "new")])]
              [("message", VStr ""); ("body", VStr "new")]
              "started" "message" (VStr "")
              eq_refl ltac:(done) eq_refl eq_refl eq_refl eq_refl eq_refl E)
    as [(m & item' & Hm & Hevent & Ht) _].
  by exists self', st', m, item'.
Defined.

Lemma save_again_keeps_messages_witness :
  ∃ self1 st1 self2 st2,
    save 1 None template_5 store_5 = (Ok self1, st1) ∧
    save 1 None self1 st1 = (Ok self2, st2) ∧
    messages self2 = messages self1.
Proof.
  destruct (save 1 None template_5 store_5) as [[self1|e] st1] eqn:E1;
    [|by vm_compute in E1].
  destruct (save 1 None self1 st1) as [[self2|e] st2] eqn:E2.
  - exists self1, st1, self2, st2. split; [done|]. split; [done|].
    by destruct (save_again_keeps_messages 0 0 template_5 self1 self2
                   store_5 st1 st2 5
                   (mkRow (notification_configuration template_5)
                      (VDict [("started", VDict [("message", VStr "go")]);
                              ("success", VNone); ("error", VNone)]))
                   _ _ eq_refl ltac:(done) eq_refl eq_refl eq_refl E1 E2).
  - exfalso. vm_compute in E1. injection E1 as <- <-. by vm_compute in E2.
Defined.

(** ** The instance after [send] *)

Section sent.
Context {backend : Backend} {vault : Vault} {text : Text}.

(** X11.  [send] uses up the configuration of the instance: after a call
    that returned, the instance has no recipients any more - the property
    [recipients] raises [KeyError] - and no further [send] on it returns: it
    raises [KeyError], or what the decryption of a password field raises. *)
Theorem send_consumes_recipients (self self' : NotificationTemplate)
    (subject body sent : value) :
  send self subject body = Ok (sent, self') →
  recipients self' = Err KeyError ∧
  ∀ subject' body', ∃ e,
    send self' subject' body' = Err e ∧ (e = KeyError ∨ decryption_raises self' e).
Proof.
  unfold send. intros (self1 & _ & Hrest)%bind_Ok.
  apply bind_Ok in Hrest as (found & _ & Hrest).
  pose proof (pop_sender_spec
                (dict_remove recipient_parameter (notification_configuration self1)))
    as [_ Hpopped].
  destruct (pop_sender _) as [sender config2].
  apply bind_Ok in Hrest as (obj & _ & Hrest).
  apply bind_Ok in Hrest as (formatted & _ & Hrest).
  apply bind_Ok in Hrest as (n & _ & [= _ <-]).
  assert (dict_lookup recipient_parameter config2 = None) as Hgone.
  { specialize (Hpopped recipient_parameter). simpl in Hpopped. rewrite Hpopped.
    case_bool_decide; [done|]. rewrite dict_lookup_remove. by case_bool_decide. }
  split.
  { unfold recipients. simpl. by rewrite Hgone. }
  intros subject' body'.
  pose proof (decrypt_all password_fields password_fields_NoDup
                (set_configuration config2 self1)) as Hdecrypt.
  destruct (foldM decrypt_step (set_configuration config2 self1) password_fields)
    as [self2|e]; simpl.
  - destruct Hdecrypt as (_ & _ & _ & Hhas & _).
    specialize (Hhas recipient_parameter). simpl in Hhas.
    apply dict_has_false in Hgone. rewrite Hgone in Hhas.
    apply dict_has_false in Hhas. rewrite Hhas. simpl. eauto.
  - exists e. split; [done|]. right. exact Hdecrypt.
Qed.

End sent.

Lemma send_consumes_recipients_witness :
  recipients
    (set_configuration
       [("host", VStr "smtp"); ("port", VInt 25); ("username", VStr "awx");
        ("password", VStr "hunter2"); ("use_tls", VBool true)]
       template_1) = Err KeyError.
Proof.
  set (after := set_configuration _ template_1).
  by destruct (send_consumes_recipients template_1 after (VStr "subject") (VStr "body")
                 (VInt 1) ltac:(by vm_compute)).
Defined.

(** ** The callbacks of [send_notification_templates] *)

Lemma set_of_templates_spec (l : list NotificationTemplate) : ∀ seen nts,
  set_of_templates l seen = Ok nts →
  sublist nts l ∧ NoDup (pk <$> nts) ∧
  (∀ nt, nt ∈ nts → ∃ id, pk nt = Some id ∧ id ∉ seen) ∧
  (∀ nt id, nt ∈ l → pk nt = Some id → id ∈ seen ∨ Some id ∈ pk <$> nts).
Proof.
  induction l as [|nt l IH]; intros seen nts; simpl.
  { intros [= <-]. split; [constructor|]. split; [constructor|].
    split; [intros nt Hin|intros nt id Hin]; by apply elem_of_nil in Hin. }
  destruct (pk nt) as [id|] eqn:Hid; [|done]. case_bool_decide as Hseen.
  - intros (Hsub & Hnd & Hnew & Hall)%IH.
    split; [by constructor|]. split; [done|]. split; [done|].
    intros nt0 id0 [->|Hin]%elem_of_cons Hid0; [|by eapply Hall].
    left. congruence.
  - intros (r & (Hsub & Hnd & Hnew & Hall)%IH & [= <-])%bind_Ok.
    split; [by constructor|]. split; [|split].
    + rewrite fmap_cons, Hid. apply NoDup_cons. split; [|done].
      intros (nt1 & Hid1 & Hin1)%list_elem_of_fmap.
      destruct (Hnew nt1 Hin1) as (id1 & Hid1' & Hfresh).
      apply Hfresh. rewrite <- Hid1 in Hid1'. injection Hid1' as <-. by left.
    + intros nt0 [->|Hin]%elem_of_cons.
      * by exists id.
      * destruct (Hnew nt0 Hin) as (id0 & Hid0 & Hfresh). exists id0.
        split; [done|]. intros ?. apply Hfresh. by right.
    + intros nt0 id0 [->|Hin]%elem_of_cons Hid0.
      * assert (id0 = id) as -> by congruence.
        right. rewrite fmap_cons, Hid. by left.
      * destruct (Hall nt0 id0 Hin Hid0) as [[->|?]%elem_of_cons|?].
        -- right. rewrite fmap_cons, Hid. by left.
        -- by left.
        -- right. rewrite fmap_cons. by right.
Qed.

Lemma set_of_templates_total (l : list NotificationTemplate) : ∀ seen,
  (∀ nt, nt ∈ l → pk nt ≠ None) → ∃ nts, set_of_templates l seen = Ok nts.
Proof.
  induction l as [|nt l IH]; intros seen Hkeys; simpl; [by eexists|].
  destruct (pk nt) as [id|] eqn:Hid.
  - case_bool_decide.
    + apply IH. intros nt' ?. apply Hkeys. by right.
    + destruct (IH (id :: seen)) as [r ->]; [|by eexists].
      intros nt' ?. apply Hkeys. by right.
  - destruct (Hkeys nt); [by left|done].
Qed.

Lemma status_has_kind (status kind : string) :
  assoc status STATUS_TO_TEMPLATE_TYPE = Some kind →
  bool_decide (status ∈ ["running"; "succeeded"; "failed"]) = true.
Proof.
  unfold STATUS_TO_TEMPLATE_TYPE. simpl. intros H. apply bool_decide_eq_true.
  repeat case_bool_decide; simplify_eq; in_list.
Qed.

Section dispatch.
Context {job : Job} {json : Json} {jinja : Jinja}.

Lemma notify_each_all (status : string) (nts : list NotificationTemplate) :
  ∀ callbacks w,
    Forall2 (callback_for status) nts callbacks →
    JobNotificationMixin.notify_each status nts w = (Ok (), (w ++ callbacks)%list).
Proof.
  induction nts as [|nt nts IH]; intros callbacks w Hall.
  { apply Forall2_nil_inv_l in Hall as ->. by rewrite app_nil_r. }
  apply Forall2_cons_inv_l in Hall as (c & callbacks' & (s & b & Hbuild & ->) & Hall & ->).
  simpl. rewrite Hbuild. rewrite (IH callbacks' _ Hall). by rewrite <- app_assoc.
Qed.


Lemma callbacks_exist (status : string) (nts : list NotificationTemplate) :
  (∀ nt, nt ∈ nts →
     is_ok (JobNotificationMixin.build_notification_message nt status) = true) →
  ∃ callbacks, Forall2 (callback_for status) nts callbacks.
Proof.
  induction nts as [|nt nts IH]; intros Hok; [by exists []|].
  destruct IH as [callbacks Hall]; [intros nt' ?; apply Hok; by right|].
  specialize (Hok nt ltac:(by left)).
  destruct (JobNotificationMixin.build_notification_message nt status)
    as [[s b]|] eqn:Hbuild; [|done].
  exists (OnCommit nt s b job_id :: callbacks). constructor; [|done].
  by exists s, b.
Qed.

(** X12.  When the job lists templates for the kind of the status, all with
    a key and all with a message that can be built, the call returns and has
    asked once for the templates and then registered one callback for each
    distinct template (by key: no key twice, every key of the list once),
    each with the message built for that template and the id of the job. *)
Theorem send_notification_templates_registers_each_once
    (status kind : string) (templates : list (string * list NotificationTemplate))
    (w : list effect) :
  get_notification_templates = Ok templates → templates ≠ [] →
  assoc status STATUS_TO_TEMPLATE_TYPE = Some kind →
  (∀ nt, nt ∈ default [] (assoc kind templates) →
     pk nt ≠ None ∧
     is_ok (JobNotificationMixin.build_notification_message nt status) = true) →
  ∃ nts callbacks,
    JobNotificationMixin.send_notification_templates status w =
      (Ok (), (w ++ ResolveTemplates :: callbacks)%list) ∧
    (∀ nt, nt ∈ nts → nt ∈ default [] (assoc kind templates)) ∧
    NoDup (pk <$> nts) ∧
    (∀ nt, nt ∈ default [] (assoc kind templates) → pk nt ∈ pk <$> nts) ∧
    Forall2 (callback_for status) nts callbacks.
Proof.
  intros Hget Hsome Hkind Hfound.
  set (found := default [] (assoc kind templates)) in *.
  destruct (set_of_templates_total found []) as [nts Hset];
    [intros nt Hin; by apply Hfound|].
  destruct (set_of_templates_spec found [] nts Hset) as (Hsub & Hnd & _ & Hall).
  destruct (callbacks_exist status nts) as [callbacks Hcallbacks].
  { intros nt Hin. apply Hfound. by eapply elem_of_sublist. }
  exists nts, callbacks. split; [|split; [|split; [done|split; [|done]]]].
  - unfold JobNotificationMixin.send_notification_templates.
    rewrite (status_has_kind status kind Hkind). cbn [negb]. rewrite Hget.
    destruct templates as [|t templates]; [done|]. rewrite Hkind. fold found.
    rewrite Hset. rewrite (notify_each_all status nts callbacks _ Hcallbacks).
    by rewrite <- app_assoc.
  - intros nt Hin. by eapply elem_of_sublist.
  - intros nt Hin. destruct (pk nt) as [id|] eqn:Hid.
    + destruct (Hall nt id Hin Hid) as [Hseen|?]; [by apply elem_of_nil in Hseen|done].
    + by destruct (Hfound nt Hin).
Qed.

(** X13.  The call returns without registering anything when the job cannot
    say which templates it has - whatever exception that raises, also the
    [RuntimeError] of the mixin's own method - when it has none at all, and
    when it lists none for the kind of the status. *)
Theorem send_notification_templates_nothing_to_send
    (status kind : string) (w : list effect) :
  assoc status STATUS_TO_TEMPLATE_TYPE = Some kind →
  (∃ e, get_notification_templates = Err e) ∨
  get_notification_templates = Ok [] ∨
  (∃ templates, get_notification_templates = Ok templates ∧
                default [] (assoc kind templates) = []) →
  JobNotificationMixin.send_notification_templates status w =
  (Ok (), (w ++ [ResolveTemplates])%list).
Proof.
  intros Hkind Hnone. unfold JobNotificationMixin.send_notification_templates.
  rewrite (status_has_kind status kind Hkind). cbn [negb].
  destruct Hnone as [[e ->]|[->|(templates & -> & Hempty)]]; [done|done|].
  destruct templates as [|t templates]; [done|]. by rewrite Hkind, Hempty.
Qed.


End dispatch.

Lemma send_notification_templates_registers_each_once_witness :
  ∃ nts callbacks,
    JobNotificationMixin.send_notification_templates (H := job_43) "succeeded" [] =
      (Ok (), ResolveTemplates :: callbacks) ∧
    (∀ nt, nt ∈ nts → nt ∈ [template_1; template_2; template_1]) ∧
    NoDup (pk <$> nts) ∧
    Forall2 (callback_for (H := job_43) "succeeded") nts callbacks.
Proof.
  destruct (send_notification_templates_registers_each_once (job := job_43)
              "succeeded" "success"
              [("success", [template_1; template_2; template_1]);
               ("error", [template_2; template_9; template_2])] []
              eq_refl ltac:(done) eq_refl)
    as (nts & callbacks & Hsend & Hsub & Hnd & Hall & Hcallbacks).
  { intros nt Hin. simpl in Hin.
    repeat (apply elem_of_cons in Hin as [->|Hin]); [..|by apply elem_of_nil in Hin];
      (split; [done|by vm_compute]). }
  by exists nts, callbacks.
Defined.

Lemma send_notification_templates_nothing_to_send_witness :
  JobNotificationMixin.send_notification_templates (H := undefined_job) "running" [] =
  (Ok (), [ResolveTemplates]).
Proof.
  apply (send_notification_templates_nothing_to_send (job := undefined_job)
           "running" "started" [] eq_refl).
  left. by exists RuntimeError.
Defined.


(** ** The message of a template without custom messages *)

Section default_message.
Context {job : Job} {json : Json} {jinja : Jinja}.

(** X15.  For a template that holds nothing for the kind of the status - no
    item, null as in the default messages, or an empty mapping - the job's
    [build_notification_message] renders nothing: the subject is the fixed
    line made of the friendly name, the id and the name of the job, the
    status and the URL, and the body is the notification data with the
    friendly name added and no key [body]. *)
Theorem build_notification_message_default (nt : NotificationTemplate)
    (status kind friendly url : string) (d data : dict)
    (serialized : value) (projected : dict) :
  messages nt = VDict d →
  assoc status STATUS_TO_TEMPLATE_TYPE = Some kind →
  truthy (default (VDict []) (dict_lookup kind d)) = false →
  get_notification_friendly_name = Ok friendly →
  get_ui_url = Ok url →
  notification_data = Ok (VDict data) →
  to_representation = Ok serialized →
  build_context [] serialized JOB_FIELDS_WHITELIST = Ok projected →
  JobNotificationMixin.build_notification_message nt status =
  Ok (friendly +:+ " #" +:+ pretty job_id +:+ " '" +:+ job_name +:+ "' "
      +:+ status +:+ ": " +:+ url,
      VDict (dict_set "friendly_name" (VStr friendly) data)).
Proof.
  intros Hm Hkind Hempty Hfriendly Hurl Hdata Hserialized Hprojected.
  unfold JobNotificationMixin.build_notification_message,
    JobNotificationMixin.context, JobNotificationMixin.templates_for,
    JobNotificationMixin.default_subject.
  rewrite Hserialized, Hfriendly, Hurl, Hdata. cbn [bind].
  rewrite Hprojected. cbn [bind]. rewrite Hm, Hkind.
  destruct (truthy (VDict d)); cbn [bind]; [|done].
  by rewrite Hempty.
Qed.

End default_message.

Lemma build_notification_message_default_witness :
  JobNotificationMixin.build_notification_message (H := job_43) template_1 "succeeded" =
  Ok ("Job #43 'deploy' succeeded: https://towerhost/#/jobs/playbook/43",
      VDict [("id", VInt 43); ("friendly_name", VStr "Job")]).
Proof.
  by apply (build_notification_message_default (job := job_43) template_1
              "succeeded" "success" "Job" "https://towerhost/#/jobs/playbook/43"
              [("started", VNone); ("success", VNone);
               ("error", VDict [("message", VStr "{{ job.id }")])]
              [("id", VInt 43)]
              (VDict [("id", VInt 43); ("name", VStr "deploy")])
              [("id", VInt 43); ("name", VStr "deploy")]).
Defined.

(** ** The commit of the callbacks *)

Section committing.
Context {catalog : Catalog} {text : Text}.

(** X16.  When the registered callbacks run, each one whose template has a
    key and recipients creates one notification - pending, nothing sent, no
    error, with the type and the recipients of the template and the message
    of the callback - and enqueues one delivery of that notification alone
    for the job; the notifications get consecutive keys, in the order of the
    callbacks. *)
Theorem commit_delivers_each (callbacks : list effect) : ∀ (box : outbox),
  Forall (λ c, ∃ nt subject body job,
            c = OnCommit nt subject body job ∧ pk nt ≠ None ∧
            is_ok (recipients (backend := notification_class_of nt) nt) = true)
         callbacks →
  ∃ created,
    commit callbacks box =
      (Ok (), mkOutbox (notifications box ++ created.*1)
                       (next_notification box + Z.of_nat (length callbacks))
                       (delayed box ++ created.*2)) ∧
    Forall2 delivered callbacks created ∧
    n_id <$> created.*1 =
      seqZ (next_notification box) (Z.of_nat (length callbacks)).
Proof.
  induction callbacks as [|c callbacks IH]; intros box Hall.
  { exists []. simpl. rewrite !app_nil_r, Z.add_0_r. by destruct box. }
  apply Forall_cons in Hall as [(nt & subject & body & job & -> & Hpk & Hr) Hall].
  destruct (pk nt) as [template|] eqn:Htemplate; [clear Hpk|done].
  destruct (recipients nt) as [r|] eqn:Hrecipients; [clear Hr|done].
  set (n := mkNotification (next_notification box) template "pending" "" 0
              (notification_type_of nt) (smart_str r) (VStr subject) body).
  set (box1 := mkOutbox (notifications box ++ [n]) (next_notification box + 1)
                        (delayed box ++ [([next_notification box], job)])).
  destruct (IH box1 Hall) as (created & Hcommit & Hdelivered & Hids).
  exists ((n, ([next_notification box], job)) :: created). split; [|split].
  - cbn [commit run_on_commit]. unfold generate_notification.
    rewrite Hrecipients, Htemplate. cbn [notifications next_notification delayed n_id].
    fold n. fold box1. rewrite Hcommit. f_equal. unfold box1. simpl.
    rewrite <- !app_assoc. f_equal. lia.
  - constructor; [|done].
    by exists nt, subject, body, job, template, r.
  - rewrite !fmap_cons. cbn [fst n_id n length].
    rewrite seqZ_cons by lia. f_equal. rewrite Hids. unfold box1. simpl.
    f_equal; lia.
Qed.

End committing.

Lemma commit_delivers_each_witness :
  ∃ created,
    commit [OnCommit template_2 "" (VDict [("id", VInt 43)]) 43;
            OnCommit template_1 "done" (VDict [("id", VInt 43)]) 43]
           (mkOutbox [] 1 []) =
      (Ok (), mkOutbox created.*1 3 created.*2) ∧
    Forall2 delivered
      [OnCommit template_2 "" (VDict [("id", VInt 43)]) 43;
       OnCommit template_1 "done" (VDict [("id", VInt 43)]) 43] created ∧
    n_id <$> created.*1 = [1; 2].
Proof.
  apply (commit_delivers_each
           [OnCommit template_2 "" (VDict [("id", VInt 43)]) 43;
            OnCommit template_1 "done" (VDict [("id", VInt 43)]) 43]
           (mkOutbox [] 1 [])).
  repeat constructor; eexists _, _, _, _; by split.
Defined.

(** ** What the context reads of the serialization *)

Lemma agree_entry_build (e : wl_entry) : ∀ (d d' node : dict),
  agree_entry e d d' →
  build_context_entry e node (VDict d) = build_context_entry e node (VDict d').
Proof.
  induction e as [n|n sub IH] using wl_entry_ind'; intros d d' node Hagree.
  { simpl in *. unfold dict_has. by rewrite Hagree. }
  cbn [agree_entry] in Hagree. cbn [build_context_entry py_in py_getitem].
  unfold dict_has.
  destruct (dict_lookup n d) as [v|], (dict_lookup n d') as [v'|];
    [|by destruct v|done|done].
  destruct v as [| | | | |s]; try by injection Hagree as <-.
  destruct v' as [| | | | |s']; try done.
  cbn [bind negb].
  assert (∀ acc, foldM (λ n0 e, build_context_entry e n0 (VDict s)) acc sub =
                 foldM (λ n0 e, build_context_entry e n0 (VDict s')) acc sub) as ->;
    [|done].
  clear node. induction IH as [|e sub He _ IHsub]; intros acc; [done|].
  destruct Hagree as [Hentry Hrest]. rewrite !foldM_cons, (He s s' acc Hentry).
  destruct (build_context_entry e acc (VDict s')); simpl; [|done]. by apply IHsub.
Qed.

Lemma agree_build (wl : list wl_entry) : ∀ (d d' node : dict),
  agree wl d d' →
  build_context node (VDict d) wl = build_context node (VDict d') wl.
Proof.
  unfold build_context.
  induction wl as [|e wl IH]; intros d d' node Hagree; [done|].
  destruct Hagree as [Hentry Hrest]. rewrite !foldM_cons, (agree_entry_build e d d' node Hentry).
  destruct (build_context_entry e node (VDict d')); simpl; [|done]. by apply IH.
Qed.

Lemma build_context_leaf (wl : list wl_entry) (d : dict) (n : string) :
  ∀ node0 node,
    NoDup (wl_name <$> wl) → WLeaf n ∈ wl →
    build_context node0 (VDict d) wl = Ok node →
    dict_lookup n node =
    match dict_lookup n d with Some v => Some v | None => dict_lookup n node0 end.
Proof.
  induction wl as [|e wl IH]; intros node0 node Hnd Hin Hbuild.
  { by apply elem_of_nil in Hin. }
  rewrite fmap_cons in Hnd. apply NoDup_cons in Hnd as [Hfresh Hnd].
  unfold build_context in Hbuild. rewrite foldM_cons in Hbuild.
  apply bind_Ok in Hbuild as (n1 & Hentry & Hrest).
  apply elem_of_cons in Hin as [<-|Hin].
  - destruct (build_context_spec wl (VDict d) n1 node Hnd Hrest) as (Hframe & _).
    rewrite (Hframe n Hfresh). simpl in Hentry. unfold dict_has in Hentry.
    destruct (dict_lookup n d) as [v|]; simpl in Hentry; injection Hentry as <-;
      [apply dict_lookup_set_eq|done].
  - rewrite (IH n1 node Hnd Hin Hrest).
    destruct (dict_lookup n d); [done|].
    eapply build_context_entry_frame; [exact Hentry|].
    intros ->. apply Hfresh. by apply (list_elem_of_fmap_2 wl_name _ (WLeaf (wl_name e))).
Qed.

Section reading.
Context {job : Job} {json : Json}.

(** X17.  The context depends on the whitelisted paths of the serialization
    only: two serializations that agree on every item that the whitelist
    names, level by level, give the same context - or the same exception. *)
Theorem context_reads_whitelisted_paths_only (d d' : dict) :
  agree JOB_FIELDS_WHITELIST d d' →
  JobNotificationMixin.context (VDict d) = JobNotificationMixin.context (VDict d').
Proof.
  intros Hagree. unfold JobNotificationMixin.context.
  by rewrite (agree_build JOB_FIELDS_WHITELIST d d' [] Hagree).
Qed.

End reading.

(** X18.  The projection of a serialization that is a mapping, when it
    returns: a field that the whitelist names as a leaf is in the node
    exactly when the serialization has it, with the value it has there,
    whatever that value is; and a key that the whitelist does not name at
    that level is not in the node. *)
Theorem build_context_copies_leaves (wl : list wl_entry) (d node : dict) :
  NoDup (wl_name <$> wl) →
  build_context [] (VDict d) wl = Ok node →
  (∀ n, WLeaf n ∈ wl → dict_lookup n node = dict_lookup n d) ∧
  (∀ k, k ∉ wl_name <$> wl → dict_lookup k node = None).
Proof.
  intros Hnd Hbuild. split.
  - intros n Hin. rewrite (build_context_leaf wl d n [] node Hnd Hin Hbuild).
    by destruct (dict_lookup n d).
  - intros k Hk.
    destruct (build_context_spec wl (VDict d) [] node Hnd Hbuild) as (Hframe & _).
    by rewrite (Hframe k Hk).
Qed.

Lemma context_reads_whitelisted_paths_only_witness :
  JobNotificationMixin.context (H := job_42)
    (VDict [("id", VInt 42); ("name", VStr "deploy"); ("extra_vars", VStr "secret: 1");
            ("summary_fields",
             VDict [("inventory", VDict [("id", VInt 17); ("variables", VStr "x")])])]) =
  JobNotificationMixin.context (H := job_42)
    (VDict [("name", VStr "deploy"); ("id", VInt 42);
            ("summary_fields",
             VDict [("inventory", VDict [("variables", VStr "y"); ("id", VInt 17)]);
                    ("secrets", VStr "z")])]).
Proof.
  apply (context_reads_whitelisted_paths_only (job := job_42)).
  vm_compute. tauto.
Defined.

Lemma build_context_copies_leaves_witness :
  ∃ node,
    build_context []
      (VDict [("id", VInt 42); ("name", VDict [("first", VStr "deploy")]);
              ("extra_vars", VStr "secret: 1")])
      JOB_FIELDS_WHITELIST = Ok node ∧
    dict_lookup "name" node = Some (VDict [("first", VStr "deploy")]) ∧
    dict_lookup "extra_vars" node = None.
Proof.
  eexists. split; [by vm_compute|].
  destruct (build_context_copies_leaves JOB_FIELDS_WHITELIST
              [("id", VInt 42); ("name", VDict [("first", VStr "deploy")]);
               ("extra_vars", VStr "secret: 1")]
              [("id", VInt 42); ("name", VDict [("first", VStr "deploy")])]
              ltac:(compute_done) ltac:(by vm_compute)) as [Hleaf Hother].
  split.
  - apply (Hleaf "name"). in_list.
  - done.
Defined.
